(** * Lineage inference of the muller workflow

    A shallow embedding of [muller/inheritance/genotype_lineage.py],
    [muller/inheritance/order.py], [muller/muller_workflow.py] and of the
    folders, file names and annotations of
    [muller/muller_output/save_output.py], with the properties of the
    ancestry sweep, of the options and of the output stated and proved over
    it.

    Python floats are modelled as rationals ([Q]); an exception is a value of
    [error]; an object mutated in place is a state threaded through the
    monad [M], whose state survives a raised exception as the object does. *)

From Stdlib Require Import QArith Lia Ascii.
From stdpp Require Import gmap strings list.

Local Open Scope string_scope.
Local Open Scope list_scope.

(** ** Data *)

Abbreviation label := string (only parsing).

(** A trajectory: the frequency of one genotype at each timepoint. *)
Abbreviation Trajectory := (list (Z * Q)) (only parsing).

(** A pandas DataFrame indexed by genotype label: its rows in order. *)
Abbreviation Table := (list (label * Trajectory)) (only parsing).

Definition index (t : Table) : list label := map fst t.

Inductive error : Type :=
| IndexError
| KeyError (l : label)
| ValueError (message : string)
| InvalidReference (l : label)
| UnknownGenotype (l : label)
| DimensionMismatch
| AttributeError.

Definition result (A : Type) : Type := error + A.

(** The dictionary [score_pair] returns; [run] reads its ['totalScore']. *)
Record ScoreRecord : Type := mkScore {
  additiveScore : Q;
  derivativeScore : Q;
  areaScore : Q;
  totalScore : Q
}.

(** ** State and exceptions *)

Definition M (S A : Type) : Type := S -> S * result A.

Definition ret {S A} (a : A) : M S A := fun s => (s, inr a).

Definition raise {S A} (e : error) : M S A := fun s => (s, inl e).

Definition lift {S A} (r : result A) : M S A := fun s => (s, r).

Definition bind {S A B} (m : M S A) (k : A -> M S B) : M S B :=
  fun s => match m s with
           | (s', inl e) => (s', inl e)
           | (s', inr a) => k a s'
           end.

Definition get {S} : M S S := fun s => (s, inr s).

Definition modify {S} (f : S -> S) : M S unit := fun s => (f s, inr tt).

Notation "'let!' x ':=' m 'in' k" := (bind m (fun x => k))
  (at level 10, x pattern, m at level 100, k at level 200).

Notation "m '>>' k" := (bind m (fun _ => k))
  (at level 90, right associativity).

(** A Python [for] loop whose body may raise. *)
Fixpoint for_each {S A} (l : list A) (body : A -> M S unit) : M S unit :=
  match l with
  | [] => ret tt
  | x :: l' => body x >> for_each l' body
  end.

(** ** pandas *)

(** [df.iloc[0]] *)
Definition iloc0 (t : Table) : result (label * Trajectory) :=
  match t with
  | [] => inl IndexError
  | row :: _ => inr row
  end.

Fixpoint first_loc (l : label) (ls : list label) : option nat :=
  match ls with
  | [] => None
  | x :: ls' => if decide (x = l) then Some 0%nat else S <$> first_loc l ls'
  end.

Fixpoint last_loc (l : label) (ls : list label) : option nat :=
  match ls with
  | [] => None
  | x :: ls' =>
      match last_loc l ls' with
      | Some i => Some (S i)
      | None => if decide (x = l) then Some 0%nat else None
      end
  end.

Definition occurrences (l : label) (ls : list label) : nat :=
  length (filter (fun x => x = l) ls).

(** [df[:l]], a slice by label: the rows up to and including the row
    labelled [l].  When [l] labels several rows the slice ends at the last
    of them if they are adjacent, and pandas raises KeyError ("cannot get
    right slice bound for non-unique label") if they are not; it raises
    KeyError too when no row is labelled [l]. *)
Definition slice_to_label (t : Table) (l : label) : result Table :=
  match first_loc l (index t), last_loc l (index t) with
  | Some i, Some j =>
      if decide (occurrences l (index t) = S (j - i))
      then inr (take (S j) t)
      else inl (KeyError l)
  | _, _ => inl (KeyError l)
  end.

(** ** The ancestry graph *)

(** A candidate edge: (genotype, candidate background, priority). *)
Abbreviation Edge := (label * label * Q)%type (only parsing).

(** Modelled from the spec: the class [Ancestry] of
    [muller/inheritance/genotype_ancestry.py] (and [Cluster] of
    [muller/inheritance/cluster.py], used the same way by [order_clusters]),
    which is not among the sources.  The spec (4.2) gives it as the candidate
    edges of every genotype, with their insertion order as tie-break data;
    the edges are kept here in the order they were recorded. *)
Record Ancestry : Type := mkAncestry {
  initial_background_label : label;
  timepoints : Table;
  confidence : list Edge
}.

Module AncestryGraph.

(** Modelled from the spec: [new(root_label, table)] "initializes with the
    root genotype having no parent". *)
Definition new (initial_background : label * Trajectory) (t : Table) : Ancestry :=
  {| initial_background_label := fst initial_background;
     timepoints := t;
     confidence := [] |}.

(** Modelled from the spec: [add_genotype_to_background] "appends a
    candidate edge", "does not deduplicate" and "fails with an
    invalid-reference error if genotype == candidate_background". *)
Definition add_genotype_to_background (genotype background : label) (priority : Q)
  : M Ancestry unit :=
  if decide (genotype = background) then raise (InvalidReference genotype)
  else modify (fun a =>
         {| initial_background_label := initial_background_label a;
            timepoints := timepoints a;
            confidence := confidence a ++ [(genotype, background, priority)] |}).

(** The candidates recorded for [genotype], in recording order. *)
Definition candidates (a : Ancestry) (genotype : label) : list (label * Q) :=
  map (fun e : Edge => (snd (fst e), snd e))
      (filter (fun e : Edge => fst (fst e) = genotype) (confidence a)).

(** The first candidate of maximal priority, as Python's [max] returns it:
    a later candidate replaces the current best only when strictly
    greater. *)
Fixpoint best (current : label * Q) (rest : list (label * Q)) : label * Q :=
  match rest with
  | [] => current
  | c :: rest' =>
      if Qlt_le_dec (snd current) (snd c) then best c rest' else best current rest'
  end.

(** Modelled from the spec: [get_highest_priority] "returns the
    candidate-background label with the maximum priority among all
    recorded candidates", "on ties, the candidate recorded earliest among
    those tied at the maximum wins", and "fails with an unknown-genotype
    error if genotype has no recorded candidates and is not the root". *)
Definition get_highest_priority (a : Ancestry) (genotype : label) : result (option label) :=
  match candidates a genotype with
  | [] => if decide (genotype = initial_background_label a) then inr None
          else inl (UnknownGenotype genotype)
  | c :: rest => inr (Some (fst (best c rest)))
  end.



End AncestryGraph.

(** ** LineageWorkflow ([genotype_lineage.py]) *)

Definition Scorer : Type := Trajectory -> Trajectory -> result ScoreRecord.

Record LineageWorkflow : Type := mkLineageWorkflow {
  dlimit : Q;
  flimit : Q;
  pvalue : Q;
  debug : bool;
  genotype_nests : option Ancestry;
  scorer : Scorer;
  score_records : list ScoreRecord
}.

Definition set_genotype_nests (n : option Ancestry) (w : LineageWorkflow) : LineageWorkflow :=
  {| dlimit := dlimit w; flimit := flimit w; pvalue := pvalue w; debug := debug w;
     genotype_nests := n; scorer := scorer w; score_records := score_records w |}.

Definition append_score_record (r : ScoreRecord) (w : LineageWorkflow) : LineageWorkflow :=
  {| dlimit := dlimit w; flimit := flimit w; pvalue := pvalue w; debug := debug w;
     genotype_nests := genotype_nests w; scorer := scorer w;
     score_records := score_records w ++ [r] |}.

(** A method call on [self.genotype_nests]; the attribute is [None] until
    [run] assigns it. *)
Definition on_genotype_nests {A} (m : M Ancestry A) : M LineageWorkflow A :=
  fun w => match genotype_nests w with
           | None => (w, inl AttributeError)
           | Some a => let (a', r) := m a in (set_genotype_nests (Some a') w, r)
           end.

(** The literal ['genotype-0'] of [add_known_lineages] and [order_clusters]. *)
Definition ancestral_genotype : label := "genotype-0".

(** [known_ancestry.items()]: the entries of a dict, in insertion order. *)
Abbreviation Items := (list (label * label)) (only parsing).

Section Lineage.

(** [scoring.Score(dlimit, flimit, pvalue).score_pair]; the module
    [scoring] is not among the sources. *)
Variable Score : Q -> Q -> Q -> Scorer.

Definition LineageWorkflow_init (dlimit flimit pvalue : Q) (debug : bool) : LineageWorkflow :=
  {| dlimit := dlimit; flimit := flimit; pvalue := pvalue; debug := debug;
     genotype_nests := None;
     scorer := Score dlimit flimit pvalue;
     score_records := [] |}.

Definition add_known_lineages (known_ancestry : Items) : M LineageWorkflow unit :=
  for_each known_ancestry (fun '(identity, parent) =>
    on_genotype_nests
      (AncestryGraph.add_genotype_to_background parent ancestral_genotype 100) >>
    on_genotype_nests
      (AncestryGraph.add_genotype_to_background identity parent 100)).

(** The calls of [show_ancestry]; what it logs is left out. *)
Definition show_ancestry (sorted_genotypes : Table) : M LineageWorkflow unit :=
  for_each (index sorted_genotypes) (fun genotype_label =>
    let! candidate :=
      on_genotype_nests
        (fun a => (a, AncestryGraph.get_highest_priority a genotype_label)) in
    ret tt).

(** The sweep of [run] over the rows after the first (lines 72-79). *)
Definition sweep (sorted_genotypes : Table) : M LineageWorkflow unit :=
  for_each (drop 1 sorted_genotypes) (fun '(unnested_label, unnested_trajectory) =>
    let! sliced := lift (slice_to_label sorted_genotypes unnested_label) in
    let test_table := rev sliced in
    for_each test_table (fun '(nested_label, nested_genotype) =>
      if decide (nested_label = unnested_label) then ret tt
      else
        let! self := get in
        let! score_data := lift (scorer self nested_genotype unnested_trajectory) in
        modify (append_score_record score_data) >>
        on_genotype_nests
          (AncestryGraph.add_genotype_to_background
             unnested_label nested_label (totalScore score_data)))).

(** [known_ancestry if known_ancestry else dict()] *)
Definition items_or_empty (known_ancestry : option Items) : Items :=
  match known_ancestry with
  | Some k => k
  | None => []
  end.

(** [LineageWorkflow.run]; the branch taken when [debug] is set only logs
    the score records. *)
Definition run (sorted_genotypes : Table) (known_ancestry : option Items)
  : M LineageWorkflow (option Ancestry) :=
  let! initial_background := lift (iloc0 sorted_genotypes) in
  modify (set_genotype_nests
            (Some (AncestryGraph.new initial_background sorted_genotypes))) >>
  add_known_lineages (items_or_empty known_ancestry) >>
  sweep sorted_genotypes >>
  show_ancestry sorted_genotypes >>
  let! self := get in
  ret (genotype_nests self).

End Lineage.

(** ** order_clusters ([order.py]) *)

Section OrderClusters.

(** The three functions of the module [scoring] that [order_clusters]
    calls; the module is not among the sources. *)
Variable calculate_additive_score : Trajectory -> Trajectory -> Q -> result Q.
Variable calculate_derivative_score : Trajectory -> Trajectory -> Q -> Q -> result Q.
Variable calculate_area_score : Trajectory -> Trajectory -> result Q.

(** The injection of the manual ancestry (lines 44-49). *)
Definition order_clusters_known (known_ancestry : Items) : M Ancestry unit :=
  for_each known_ancestry (fun '(identity, parent) =>
    AncestryGraph.add_genotype_to_background parent ancestral_genotype 100 >>
    AncestryGraph.add_genotype_to_background identity parent 100).

Definition order_clusters_body (sorted_df : Table) (dlimit additive_cutoff derivative_cutoff : Q)
    (known_ancestry : Items) : M Ancestry unit :=
  order_clusters_known known_ancestry >>
  for_each (drop 1 sorted_df) (fun '(unnested_label, unnested_trajectory) =>
    let! sliced := lift (slice_to_label sorted_df unnested_label) in
    let test_table := rev sliced in
    for_each test_table (fun '(nested_label, nested_genotype) =>
      if decide (nested_label = unnested_label) then ret tt
      else
        let! score_additive :=
          lift (calculate_additive_score nested_genotype unnested_trajectory additive_cutoff) in
        let! score_derivative :=
          lift (calculate_derivative_score nested_genotype unnested_trajectory
                  dlimit derivative_cutoff) in
        let! score_area := lift (calculate_area_score nested_genotype unnested_trajectory) in
        let total_score := (score_additive + score_derivative + score_area)%Q in
        AncestryGraph.add_genotype_to_background unnested_label nested_label total_score)) >>
  for_each (index sorted_df) (fun genotype_label =>
    let! genotype_nests := get in
    let! candidate := lift (AncestryGraph.get_highest_priority genotype_nests genotype_label) in
    ret tt).

Definition order_clusters (sorted_df : Table) (dlimit additive_cutoff derivative_cutoff : Q)
    (known_ancestry : option Items) : result Ancestry :=
  let known_ancestry := items_or_empty known_ancestry in
  match iloc0 sorted_df with
  | inl e => inl e
  | inr initial_background =>
      let genotype_nests := AncestryGraph.new initial_background sorted_df in
      match order_clusters_body sorted_df dlimit additive_cutoff derivative_cutoff
              known_ancestry genotype_nests with
      | (_, inl e) => inl e
      | (genotype_nests, inr _) => inr genotype_nests
      end
  end.

End OrderClusters.

(** ** The workflow ([muller_workflow.py]) *)

Definition ACCEPTED_METHODS : list string := ["matlab"; "hierarchy"].

(** The attributes of [ProgramOptions] that the workflow reads. *)
Record ProgramOptions : Type := mkProgramOptions {
  fixed_breakpoint : option Q;
  detection_breakpoint : Q;
  significant_breakpoint : Q;
  similarity_breakpoint : Q;
  difference_breakpoint : Q;
  frequencies : list Q;
  mode : bool;
  method : string;
  is_genotype : bool;
  use_filter : bool;
  use_strict_filter : bool;
  sheetname : string;
  annotate_all : bool;
  save_pvalue : bool
}.

Definition set_fixed_breakpoint (q : Q) (o : ProgramOptions) : ProgramOptions :=
  {| fixed_breakpoint := Some q;
     detection_breakpoint := detection_breakpoint o;
     significant_breakpoint := significant_breakpoint o;
     similarity_breakpoint := similarity_breakpoint o;
     difference_breakpoint := difference_breakpoint o;
     frequencies := frequencies o;
     mode := mode o;
     method := method o;
     is_genotype := is_genotype o;
     use_filter := use_filter o;
     use_strict_filter := use_strict_filter o;
     sheetname := sheetname o;
     annotate_all := annotate_all o;
     save_pvalue := save_pvalue o |}.

(** The keyword arguments of [generate.GenotypeOptions(...)]. *)
Record GenotypeOptions : Type := mkGenotypeOptions {
  go_detection_breakpoint : Q;
  go_fixed_breakpoint : option Q;
  go_similarity_breakpoint : Q;
  go_difference_breakpoint : Q;
  go_n_binom : option Z;
  go_method : string
}.

(** The keyword arguments of [sort_genotypes.SortOptions(...)]. *)
Record SortOptions : Type := mkSortOptions {
  so_detection_breakpoint : Q;
  so_fixed_breakpoint : option Q;
  so_significant_breakpoint : Q;
  frequency_breakpoints : list Q
}.

(** The console, and whatever else the stages of the workflow act on. *)
Record World (Env : Type) : Type := mkWorld {
  stdout : list string;
  env : Env
}.
Arguments mkWorld {Env}.
Arguments stdout {Env}.
Arguments env {Env}.

Definition print {Env} (line : string) : M (World Env) unit :=
  modify (fun w => {| stdout := stdout w ++ [line]; env := env w |}).

(** The message of the ValueError: an f-string that ends with the [repr] of
    [ACCEPTED_METHODS]. *)
Definition invalid_method_message (cluster_method : string) : string :=
  (cluster_method
   ++ " is not a valid option for the --method option. Expected one of "
   ++ "['matlab', 'hierarchy']")%string.

Section Workflow.

(** What the workflow imports from modules that are not among the sources:
    the stages act on [Env], and their values are of types left open. *)
Variables Env Info GenotypeMembers GenotypeInfo LinkageMatrix Clusters
  OrderClusterParameters PairwiseCalculationCache : Type.

Variable GenotypeOptions_from_matlab : GenotypeOptions.
Variable SortOptions_from_matlab : SortOptions.
Variable OrderClusterParameters_from_matlab : OrderClusterParameters.
Variable OrderClusterParameters_from_breakpoints : Q -> Q -> OrderClusterParameters.

Variable import_genotype_table : string -> string -> M (World Env) (Table * GenotypeInfo).
Variable members : GenotypeInfo -> GenotypeMembers.
Variable import_trajectory_table : string -> string -> M (World Env) (Table * Info).
Variable generate_genotypes :
  Table -> GenotypeOptions -> M (World Env) (Table * GenotypeMembers * LinkageMatrix).
Variable filters_workflow :
  Table -> GenotypeOptions -> list Q -> bool -> M (World Env) (Table * Table * GenotypeMembers).
Variable sort_genotypes : Table -> SortOptions -> M (World Env) Table.
Variable order_clusters_order_clusters :
  Table -> GenotypeMembers -> OrderClusterParameters -> M (World Env) Clusters.
Variable PAIRWISE_CALCULATIONS : PairwiseCalculationCache.
Variable repr_options : ProgramOptions -> string.

(** The keyword arguments of the call [WorkflowData(...)] in [workflow]. *)
Record WorkflowData : Type := mkWorkflowData {
  filename : string;
  info : option Info;
  original_trajectories : option Table;
  original_genotypes : Table;
  trajectories : option Table;
  genotypes : Table;
  genotype_members : GenotypeMembers;
  clusters : Clusters;
  genotype_options : GenotypeOptions;
  sort_options : SortOptions;
  cluster_options : OrderClusterParameters;
  p_values : PairwiseCalculationCache;
  filter_cache : list (Table * Table)
}.

Variable generate_output : WorkflowData -> string -> Q -> bool -> bool -> bool -> M (World Env) unit.

Definition extract_genotypes_from_path (input_filename sheetname : string)
  : M (World Env)
      (option Table * Table * option Table * Table * GenotypeMembers * option Info) :=
  let! (mean_genotypes, genotype_info) := import_genotype_table input_filename sheetname in
  let genotype_members := members genotype_info in
  let original_genotypes := mean_genotypes in
  ret (None, original_genotypes, None, mean_genotypes, genotype_members, None).

Definition extract_genotypes_from_trajectories (input_filename : string)
    (program_options : ProgramOptions) (program_options_genotype : GenotypeOptions)
    (frequency_breakpoints : list Q)
  : M (World Env)
      (option Table * Table * option Table * Table * GenotypeMembers * option Info) :=
  let! (original_timepoints, info) :=
    import_trajectory_table input_filename (sheetname program_options) in
  let! (original_genotypes, genotype_members, linkage_matrix) :=
    generate_genotypes original_timepoints program_options_genotype in
  if use_filter program_options then
    let! (timepoints, mean_genotypes, genotype_members) :=
      filters_workflow original_timepoints program_options_genotype frequency_breakpoints
        (use_strict_filter program_options) in
    ret (Some original_timepoints, original_genotypes, Some timepoints, mean_genotypes,
         genotype_members, Some info)
  else
    ret (Some original_timepoints, original_genotypes, Some original_timepoints,
         original_genotypes, genotype_members, Some info).

(** [parse_workflow_options] assigns [fixed_breakpoint] on the object it is
    given before it checks the method: the object after the call comes with
    the result. *)
Definition parse_workflow_options (program_options : ProgramOptions)
  : ProgramOptions
    * result (ProgramOptions * GenotypeOptions * SortOptions * OrderClusterParameters) :=
  let program_options :=
    match fixed_breakpoint program_options with
    | None => set_fixed_breakpoint (1 - detection_breakpoint program_options)%Q program_options
    | Some _ => program_options
    end in
  let compatibility_mode := mode program_options in
  let '(program_options_genotype, program_options_sort, program_options_clustering) :=
    if compatibility_mode then
      (GenotypeOptions_from_matlab, SortOptions_from_matlab, OrderClusterParameters_from_matlab)
    else
      let program_options_genotype :=
        {| go_detection_breakpoint := detection_breakpoint program_options;
           go_fixed_breakpoint := fixed_breakpoint program_options;
           go_similarity_breakpoint := similarity_breakpoint program_options;
           go_difference_breakpoint := difference_breakpoint program_options;
           go_n_binom := None;
           go_method := method program_options |} in
      let program_options_clustering :=
        OrderClusterParameters_from_breakpoints
          (detection_breakpoint program_options) (significant_breakpoint program_options) in
      let program_options_sort :=
        {| so_detection_breakpoint := go_detection_breakpoint program_options_genotype;
           so_fixed_breakpoint := go_fixed_breakpoint program_options_genotype;
           so_significant_breakpoint := significant_breakpoint program_options;
           frequency_breakpoints := frequencies program_options |} in
      (program_options_genotype, program_options_sort, program_options_clustering) in
  let cluster_method := method program_options in
  if decide (cluster_method ∈ ACCEPTED_METHODS) then
    (program_options,
     inr (program_options, program_options_genotype, program_options_sort,
          program_options_clustering))
  else
    (program_options, inl (ValueError (invalid_method_message cluster_method))).

Definition workflow (input_filename output_folder : string) (program_options : ProgramOptions)
  : M (World Env) Clusters :=
  print "parsing options..." >>
  let! (program_options, program_options_genotype, program_options_sort,
         program_options_clustering) :=
    lift (snd (parse_workflow_options program_options)) in
  print (repr_options program_options) >>
  print "Importing data..." >>
  let! (original_timepoints, original_genotypes, timepoints, mean_genotypes,
         genotype_members, info) :=
    (if is_genotype program_options then
       extract_genotypes_from_path input_filename (sheetname program_options)
     else
       extract_genotypes_from_trajectories input_filename program_options
         program_options_genotype (frequency_breakpoints program_options_sort)) in
  print "sorting muller_genotypes..." >>
  let! sorted_genotypes := sort_genotypes mean_genotypes program_options_sort in
  print "nesting muller_genotypes..." >>
  let! genotype_clusters :=
    order_clusters_order_clusters sorted_genotypes genotype_members
      program_options_clustering in
  print "Generating output..." >>
  let workflow_data :=
    {| filename := input_filename;
       info := info;
       original_trajectories := original_timepoints;
       original_genotypes := original_genotypes;
       trajectories := timepoints;
       genotypes := mean_genotypes;
       genotype_members := genotype_members;
       clusters := genotype_clusters;
       genotype_options := program_options_genotype;
       sort_options := program_options_sort;
       cluster_options := program_options_clustering;
       p_values := PAIRWISE_CALCULATIONS;
       filter_cache := [] |} in
  generate_output workflow_data output_folder (detection_breakpoint program_options)
    (annotate_all program_options) (save_pvalue program_options) true >>
  ret genotype_clusters.

End Workflow.

(** ** The pair scorer *)

Module PairScorer.

(** The timepoints of a trajectory. *)
Definition timepoints_of (x : Trajectory) : list Z := map fst x.

Definition above (detection_limit frequency : Q) : bool :=
  if Qlt_le_dec detection_limit frequency then true else false.

(** The timepoints at which both trajectories are above the detection
    limit, with the two frequencies there. *)
Definition shared_timepoints (detection_limit : Q) (background descendant : Trajectory)
  : list (Z * Q * Q) :=
  List.filter (fun p : Z * Q * Q => above detection_limit (snd (fst p))
                                    && above detection_limit (snd p))
    (map (fun p : (Z * Q) * (Z * Q) => (fst (fst p), snd (fst p), snd (snd p)))
         (combine background descendant)).

Definition zero_scores : ScoreRecord :=
  {| additiveScore := 0; derivativeScore := 0; areaScore := 0; totalScore := 0 |}.

Section Components.

(** The formulas of the three components, which the spec leaves open (4.1,
    open question): each is a function of the shared timepoints and of the
    cutoffs. *)
Variable additive_component : Q -> list (Z * Q * Q) -> Q.
Variable derivative_component : Q -> Q -> list (Z * Q * Q) -> Q.
Variable area_component : list (Z * Q * Q) -> Q.

(** Modelled from the spec: [score_pair] of the module [scoring], which is
    not among the sources.  It "fails with a dimension-mismatch error if the
    two trajectories are not aligned on the same timepoints" and "returns
    all-zero component scores if fewer than two shared timepoints remain
    after detection-limit filtering"; otherwise its total is
    [additive + derivative + area]. *)
Definition score_pair (detection_limit fixed_limit additive_cutoff derivative_cutoff : Q)
    (candidate_background candidate_descendant : Trajectory) : result ScoreRecord :=
  if decide (timepoints_of candidate_background = timepoints_of candidate_descendant) then
    let shared := shared_timepoints detection_limit candidate_background candidate_descendant in
    if decide (length shared < 2)%nat then inr zero_scores
    else
      let additive := additive_component additive_cutoff shared in
      let derivative := derivative_component detection_limit derivative_cutoff shared in
      let area := area_component shared in
      inr {| additiveScore := additive; derivativeScore := derivative; areaScore := area;
             totalScore := (additive + derivative + area)%Q |}
  else inl DimensionMismatch.

End Components.

End PairScorer.

(** ** What a run is expected to record *)

(** The rows of [t] below position [i], nearest first, each paired with the
    row at position [i]. *)
Definition candidate_pairs (t : Table) (i : nat)
  : list ((label * Trajectory) * (label * Trajectory)) :=
  flat_map (fun j => match t !! j, t !! i with
                     | Some nested, Some unnested => [(nested, unnested)]
                     | _, _ => []
                     end)
           (rev (seq 0 i)).

(** Every pair the sweep visits: positions 1, 2, ... in turn. *)
Definition sweep_pairs (t : Table) : list ((label * Trajectory) * (label * Trajectory)) :=
  flat_map (candidate_pairs t) (seq 1 (length t - 1)).

Definition pair_edge (score : Trajectory -> Trajectory -> Q)
    (p : (label * Trajectory) * (label * Trajectory)) : Edge :=
  (fst (snd p), fst (fst p), score (snd (fst p)) (snd (snd p))).

Definition pair_record (score : Trajectory -> Trajectory -> ScoreRecord)
    (p : (label * Trajectory) * (label * Trajectory)) : ScoreRecord :=
  score (snd (fst p)) (snd (snd p)).

(** The two edges injected for every entry of the manual ancestry. *)
Definition known_edges (known_ancestry : Items) : list Edge :=
  flat_map (fun '(identity, parent) =>
              [(parent, ancestral_genotype, 100%Q); (identity, parent, 100%Q)])
           known_ancestry.

(** The candidates that the edges [es] give to [genotype]. *)
Definition edge_candidates (es : list Edge) (genotype : label) : list (label * Q) :=
  map (fun e : Edge => (snd (fst e), snd e))
      (filter (fun e : Edge => fst (fst e) = genotype) es).

Definition extend (es : list Edge) (a : Ancestry) : Ancestry :=
  {| initial_background_label := initial_background_label a;
     timepoints := timepoints a;
     confidence := confidence a ++ es |}.

(** [w] after the edges [es] and the score records [rs] were recorded. *)
Definition recorded (es : list Edge) (rs : list ScoreRecord) (w : LineageWorkflow)
  : LineageWorkflow :=
  {| dlimit := dlimit w; flimit := flimit w; pvalue := pvalue w; debug := debug w;
     genotype_nests := extend es <$> genotype_nests w;
     scorer := scorer w;
     score_records := score_records w ++ rs |}.

Definition total (score : Trajectory -> Trajectory -> ScoreRecord)
  : Trajectory -> Trajectory -> Q :=
  fun nested unnested => totalScore (score nested unnested).

(** The edges of a run in recording order: the injected ones, then the
    sweep's. *)
Definition run_edges (score : Trajectory -> Trajectory -> ScoreRecord) (t : Table)
    (known_ancestry : option Items) : list Edge :=
  known_edges (items_or_empty known_ancestry)
  ++ map (pair_edge (total score)) (sweep_pairs t).

Definition run_graph (score : Trajectory -> Trajectory -> ScoreRecord) (t : Table)
    (known_ancestry : option Items) (row0 : label * Trajectory) : Ancestry :=
  {| initial_background_label := fst row0;
     timepoints := t;
     confidence := run_edges score t known_ancestry |}.

(** The scorer answers on the rows of [t], with the records [score] gives. *)
Definition scores_on (t : Table) (s : Scorer)
    (score : Trajectory -> Trajectory -> ScoreRecord) : Prop :=
  forall a b, In a (map snd t) -> In b (map snd t) -> s a b = inr (score a b).

(** The three scoring functions of [order_clusters] answer on the rows of
    [t], with the values [additive], [derivative] and [area] give. *)
Definition components_on (t : Table)
    (calculate_additive_score : Trajectory -> Trajectory -> Q -> result Q)
    (calculate_derivative_score : Trajectory -> Trajectory -> Q -> Q -> result Q)
    (calculate_area_score : Trajectory -> Trajectory -> result Q)
    (dlimit additive_cutoff derivative_cutoff : Q)
    (additive derivative area : Trajectory -> Trajectory -> Q) : Prop :=
  forall a b, In a (map snd t) -> In b (map snd t) ->
    calculate_additive_score a b additive_cutoff = inr (additive a b)
    /\ calculate_derivative_score a b dlimit derivative_cutoff = inr (derivative a b)
    /\ calculate_area_score a b = inr (area a b).

(** [score_additive + score_derivative + score_area] *)
Definition sum_of (additive derivative area : Trajectory -> Trajectory -> Q)
  : Trajectory -> Trajectory -> Q :=
  fun nested unnested =>
    (additive nested unnested + derivative nested unnested + area nested unnested)%Q.

(** An entry of the manual ancestry that [add_genotype_to_background]
    accepts: neither of its two edges joins a label to itself. *)
Definition accepted (entry : label * label) : Prop :=
  snd entry <> ancestral_genotype /\ fst entry <> snd entry.

(** ** The log, and the labels pinned by the manual ancestry *)

(** [w'] holds the score records of [w] and then some more. *)
Definition grows (w w' : LineageWorkflow) : Prop :=
  exists rs, score_records w' = score_records w ++ rs.

Definition appends {A} (m : M LineageWorkflow A) : Prop :=
  forall w, grows w (fst (m w)).








(** ** Examples *)

(** A table of three genotypes, a scorer that prefers the nearest row, and
    a workflow built on it. *)
Module Example.

Definition table : Table :=
  [("genotype-0", [(0%Z, 1%Q); (1%Z, 1%Q)]);
   ("genotype-1", [(0%Z, 0%Q); (1%Z, 0.5%Q)]);
   ("genotype-2", [(0%Z, 0%Q); (1%Z, 0.25%Q)])].

Definition first_frequency (x : Trajectory) : Q :=
  match x with
  | [] => 0
  | (_, f) :: _ => f
  end.

Definition record (nested unnested : Trajectory) : ScoreRecord :=
  {| additiveScore := 1; derivativeScore := 0;
     areaScore := - first_frequency nested;
     totalScore := 1 + 0 + - first_frequency nested |}.

Definition Score : Q -> Q -> Q -> Scorer := fun _ _ _ nested unnested =>
  inr (record nested unnested).

Definition workflow : LineageWorkflow := LineageWorkflow_init Score 0.03 0.97 0.05 true.

Definition additive (nested unnested : Trajectory) : Q := 1.
Definition derivative (nested unnested : Trajectory) : Q := 0.
Definition area (nested unnested : Trajectory) : Q := - first_frequency nested.

(** A scorer for which every pair ties. *)
Definition flat_record (nested unnested : Trajectory) : ScoreRecord :=
  {| additiveScore := 0; derivativeScore := 0; areaScore := 0; totalScore := 0 |}.

Definition FlatScore : Q -> Q -> Q -> Scorer := fun _ _ _ nested unnested =>
  inr (flat_record nested unnested).

Definition flat_workflow : LineageWorkflow :=
  LineageWorkflow_init FlatScore 0.03 0.97 0.05 false.

End Example.

Definition example_options : ProgramOptions :=
  {| fixed_breakpoint := None;
     detection_breakpoint := 0.03;
     significant_breakpoint := 0.15;
     similarity_breakpoint := 0.05;
     difference_breakpoint := 0.10;
     frequencies := [1%Q; 0.9%Q; 0.8%Q];
     mode := false;
     method := "twostep";
     is_genotype := true;
     use_filter := false;
     use_strict_filter := false;
     sheetname := "Sheet1";
     annotate_all := false;
     save_pvalue := false |}.

(** ** More of [genotype_lineage.py] and [order.py] *)


(** The settings of a workflow, which [__init__] assigns. *)
Definition same_settings (w w' : LineageWorkflow) : Prop :=
  dlimit w' = dlimit w /\ flimit w' = flimit w /\ pvalue w' = pvalue w
  /\ debug w' = debug w /\ scorer w' = scorer w.

(** The graph of [w], if it has one, is still the graph of [w'], on the same
    root and table. *)
Definition same_graph (w w' : LineageWorkflow) : Prop :=
  forall a, genotype_nests w = Some a ->
    exists a', genotype_nests w' = Some a'
               /\ initial_background_label a' = initial_background_label a
               /\ timepoints a' = timepoints a.

(** What the body of the inner loop of [run] does with a pair of rows that
    it does not skip. *)
Definition score_and_record (pair : (label * Trajectory) * (label * Trajectory))
  : M LineageWorkflow unit :=
  let! self := get in
  let! score_data := lift (scorer self (snd (fst pair)) (snd (snd pair))) in
  modify (append_score_record score_data) >>
  on_genotype_nests
    (AncestryGraph.add_genotype_to_background
       (fst (snd pair)) (fst (fst pair)) (totalScore score_data)).

(** The computation [m] leaves every workflow related by [R] to the one it
    started from, whether it raises or not. *)
Definition keeps (R : LineageWorkflow -> LineageWorkflow -> Prop) {A}
    (m : M LineageWorkflow A) : Prop :=
  forall w, R w (fst (m w)).

(** A scorer that raises on the row genotype-1 of the example table as
    background, and a workflow built on it. *)
Module FailingExample.

Definition Score : Q -> Q -> Q -> Scorer := fun _ _ _ nested unnested =>
  match nested with
  | [_; (_, f)] =>
      if Qeq_bool f 0.5 then inl DimensionMismatch
      else inr (Example.flat_record nested unnested)
  | _ => inr (Example.flat_record nested unnested)
  end.

Definition workflow : LineageWorkflow := LineageWorkflow_init Score 0.03 0.97 0.05 false.

End FailingExample.

(** A table in which genotype-1 labels the second and the fourth row. *)
Module SeparatedExample.

Definition table : Table :=
  [("genotype-0", [(0%Z, 1%Q); (1%Z, 1%Q)]);
   ("genotype-1", [(0%Z, 0%Q); (1%Z, 0.5%Q)]);
   ("genotype-2", [(0%Z, 0%Q); (1%Z, 0.25%Q)]);
   ("genotype-1", [(0%Z, 0%Q); (1%Z, 0.125%Q)])].

End SeparatedExample.

(** ** More of [parse_workflow_options] *)

(** The fixed breakpoint the options carry after [parse_workflow_options]:
    the one given, or [1 - detection_breakpoint]. *)
Definition fixed_or_default (program_options : ProgramOptions) : Q :=
  match fixed_breakpoint program_options with
  | Some q => q
  | None => (1 - detection_breakpoint program_options)%Q
  end.

(** Options that [parse_workflow_options] accepts, in compatibility mode. *)
Definition matlab_options : ProgramOptions :=
  {| fixed_breakpoint := Some 0.9%Q;
     detection_breakpoint := 0.1;
     significant_breakpoint := 0.2;
     similarity_breakpoint := 0.3;
     difference_breakpoint := 0.4;
     frequencies := [1%Q; 0.5%Q];
     mode := true;
     method := "matlab";
     is_genotype := true;
     use_filter := false;
     use_strict_filter := false;
     sheetname := "Sheet1";
     annotate_all := false;
     save_pvalue := false |}.

(** Other options in compatibility mode: every breakpoint and the method
    differ from those of [matlab_options]. *)
Definition other_matlab_options : ProgramOptions :=
  {| fixed_breakpoint := None;
     detection_breakpoint := 0.03;
     significant_breakpoint := 0.15;
     similarity_breakpoint := 0.05;
     difference_breakpoint := 0.10;
     frequencies := [1%Q; 0.9%Q; 0.8%Q];
     mode := true;
     method := "hierarchy";
     is_genotype := false;
     use_filter := true;
     use_strict_filter := false;
     sheetname := "Sheet1";
     annotate_all := false;
     save_pvalue := false |}.

(** The example options with an accepted method. *)
Definition hierarchy_options : ProgramOptions :=
  {| fixed_breakpoint := None;
     detection_breakpoint := 0.03;
     significant_breakpoint := 0.15;
     similarity_breakpoint := 0.05;
     difference_breakpoint := 0.10;
     frequencies := [1%Q; 0.9%Q; 0.8%Q];
     mode := false;
     method := "hierarchy";
     is_genotype := true;
     use_filter := false;
     use_strict_filter := false;
     sheetname := "Sheet1";
     annotate_all := false;
     save_pvalue := false |}.

(** Options for a table of trajectories, without the filters. *)
Definition trajectory_options : ProgramOptions :=
  {| fixed_breakpoint := None;
     detection_breakpoint := 0.03;
     significant_breakpoint := 0.15;
     similarity_breakpoint := 0.05;
     difference_breakpoint := 0.10;
     frequencies := [1%Q; 0.9%Q; 0.8%Q];
     mode := false;
     method := "hierarchy";
     is_genotype := false;
     use_filter := false;
     use_strict_filter := false;
     sheetname := "Sheet1";
     annotate_all := false;
     save_pvalue := false |}.

(** ** Output folders and file names ([save_output.py]) *)

Module SaveOutput.

(** A [pathlib] path on POSIX: its root (empty, one slash or two) and its
    parts. *)
Abbreviation Path := (string * list string)%type (only parsing).

(** [s.split(sep)], for a separator of one character. *)
Fixpoint str_split (sep : ascii) (s : string) : list string :=
  match s with
  | EmptyString => [""]
  | String c s' =>
      if decide (c = sep) then "" :: str_split sep s'
      else match str_split sep s' with
           | p :: ps => String c p :: ps
           | [] => [String c ""]
           end
  end.

(** The root of a path written as [s]: two leading slashes are kept, any
    other number of them is one. *)
Definition splitroot (s : string) : string :=
  match s with
  | String "/" (String "/" (String "/" _)) => "/"
  | String "/" (String "/" _) => "//"
  | String "/" _ => "/"
  | _ => ""
  end.

(** [p / s]: the parts of [s] are added to those of [p], but for a rooted
    [s], which replaces [p]; empty parts and single dots are dropped. *)
Definition joinpath (p : Path) (s : string) : Path :=
  let parts := filter (fun part => part <> "" /\ part <> ".") (str_split "/" s) in
  if decide (splitroot s = "") then (fst p, snd p ++ parts) else (splitroot s, parts).

(** [p.parent] *)
Definition parent (p : Path) : Path := (fst p, removelast (snd p)).

Inductive Kind : Type := File | Directory.

Inductive OSError : Type := FileExistsError | FileNotFoundError | NotADirectoryError.

(** The files and directories there are, apart from the roots and the
    working directory, which are always there; no links, and no part of a
    path is a double dot. *)
Abbreviation FileSystem := (gmap (string * list string) Kind) (only parsing).

Definition OS (A : Type) : Type := FileSystem -> FileSystem * (OSError + A).

#[global] Instance os_ret : MRet OS := fun A a fs => (fs, inr a).

#[global] Instance os_bind : MBind OS := fun A B k m fs =>
  match m fs with
  | (fs', inl e) => (fs', inl e)
  | (fs', inr a) => k a fs'
  end.

Definition kind_of (fs : FileSystem) (p : Path) : option Kind :=
  match snd p with
  | [] => Some Directory
  | _ => fs !! p
  end.

(** [p.exists()] *)
Definition path_exists (p : Path) : OS bool :=
  fun fs => (fs, inr (bool_decide (is_Some (kind_of fs p)))).

(** [p.mkdir()]: neither [parents] nor [exist_ok] is set. *)
Definition mkdir (p : Path) : OS unit :=
  fun fs =>
    match kind_of fs p with
    | Some _ => (fs, inl FileExistsError)
    | None =>
        match kind_of fs (parent p) with
        | None => (fs, inl FileNotFoundError)
        | Some File => (fs, inl NotADirectoryError)
        | Some Directory => (<[p := Directory]> fs, inr tt)
        end
    end.

(** The function [check_folder] nested in [OutputFilenames.__init__]. *)
Definition check_folder (path : Path) : OS Path :=
  found ← path_exists path;
  (if negb found then mkdir path else mret tt);;
  mret path.

Definition _make_folder (folder : Path) : OS unit :=
  found ← path_exists folder;
  if negb found then mkdir folder else mret tt.

Record OutputFilenames : Type := mkOutputFilenames {
  suffix : string;
  trajectory : Path;
  genotype : Path;
  muller_plot_annotated : Path;
  mermaid_render : Path;
  genotype_plot_filtered : Path;
  original_trajectory : Path;
  original_genotype : Path;
  population : Path;
  edges : Path;
  muller_table : Path;
  calculation_matrix_X : Path;
  linkage_matrix_table : Path;
  p_value : Path;
  calculation_matrix_p : Path;
  muller_plot_basic : Path;
  muller_plot_unannotated : Path;
  muller_plot_annotated_pdf : Path;
  muller_plot_annotated_svg : Path;
  genotype_plot : Path;
  p_value_heatmap : Path;
  distance_heatmap : Path;
  linkage_plot : Path;
  r_script : Path;
  mermaid_script : Path;
  parameters : Path;
  calculation_json : Path
}.

(** The default of [suffix]: a tab. *)
Definition default_suffix : string := String (ascii_of_nat 9) "".

(** [OutputFilenames.__init__] *)
Definition OutputFilenames_init (output_folder : Path) (name : string) (suffix : string)
  : OS OutputFilenames :=
  output_folder ← check_folder output_folder;
  supplementary_folder ← check_folder (joinpath output_folder "supplementary-files");
  graphics_folder ← check_folder (joinpath output_folder "graphics");
  tables_folder ← check_folder (joinpath output_folder "tables");
  scripts_folder ← check_folder (joinpath output_folder "scripts");
  mret {|
    suffix := suffix;
    trajectory := joinpath output_folder (name ++ ".trajectories." ++ suffix);
    genotype := joinpath output_folder (name ++ ".muller_genotypes." ++ suffix);
    muller_plot_annotated := joinpath output_folder (name ++ ".muller.annotated.png");
    mermaid_render := joinpath output_folder (name ++ ".mermaid.png");
    genotype_plot_filtered := joinpath output_folder (name ++ ".filtered.png");
    original_trajectory :=
      joinpath tables_folder (name ++ ".trajectories.original." ++ suffix);
    original_genotype :=
      joinpath tables_folder (name ++ ".muller_genotypes.original." ++ suffix);
    population := joinpath tables_folder (name ++ ".ggmuller.populations." ++ suffix);
    edges := joinpath tables_folder (name ++ ".ggmuller.edges." ++ suffix);
    muller_table := joinpath tables_folder (name ++ ".muller.csv");
    calculation_matrix_X :=
      joinpath tables_folder (name ++ ".calculation.matrix.distance." ++ suffix);
    linkage_matrix_table := joinpath tables_folder (name ++ ".linkagematrix.tsv");
    p_value := joinpath tables_folder (name ++ ".pvalues.tsv");
    calculation_matrix_p :=
      joinpath tables_folder (name ++ ".calculation.matrix.pvalues." ++ suffix);
    muller_plot_basic := joinpath graphics_folder (name ++ ".muller.basic.png");
    muller_plot_unannotated := joinpath graphics_folder (name ++ ".muller.unannotated.png");
    muller_plot_annotated_pdf := joinpath graphics_folder (name ++ ".muller.annotated.pdf");
    muller_plot_annotated_svg := joinpath graphics_folder (name ++ ".muller.annotated.svg");
    genotype_plot := joinpath graphics_folder (name ++ ".png");
    p_value_heatmap := joinpath graphics_folder (name ++ ".heatmap.pvalues.png");
    distance_heatmap := joinpath graphics_folder (name ++ ".heatmap.distance.png");
    linkage_plot := joinpath graphics_folder (name ++ ".dendrogram.png");
    r_script := joinpath scripts_folder (name ++ ".r");
    mermaid_script := joinpath scripts_folder (name ++ ".mermaid.md");
    parameters := joinpath supplementary_folder (name ++ ".json");
    calculation_json := joinpath supplementary_folder (name ++ ".calculations.json")
  |}.

(** *** The annotations of the genotypes *)

(** A cell of a column of strings: a string, or a float where the table has
    no value. *)
Inductive Cell : Type :=
| Text (s : string)
| Float.

(** The columns ['Gene'] and ['Amino Acid'] of a table, where it has them. *)
Record Subtable : Type := mkSubtable {
  gene_column : option (list Cell);
  aa_column : option (list Cell)
}.

(** [d[k] = v] on a dict, whose entries are kept in insertion order. *)
Fixpoint dict_set {V} (k : string) (v : V) (d : list (string * V)) : list (string * V) :=
  match d with
  | [] => [(k, v)]
  | (k', v') :: d' =>
      if decide (k' = k) then (k, v) :: d' else (k', v') :: dict_set k v d'
  end.

(** [d.get(k)] *)
Fixpoint dict_get {V} (k : string) (d : list (string * V)) : option V :=
  match d with
  | [] => None
  | (k', v') :: d' => if decide (k' = k) then Some v' else dict_get k d'
  end.

(** [itertools.zip_longest] *)
Fixpoint zip_longest {A B} (l1 : list A) (l2 : list B) : list (option A * option B) :=
  match l1 with
  | [] => map (fun b => (None, Some b)) l2
  | a :: l1' =>
      match l2 with
      | [] => (Some a, None) :: zip_longest l1' []
      | b :: l2' => (Some a, Some b) :: zip_longest l1' l2'
      end
  end.

(** [s.replace('', new)]: [new] before every character and at the end. *)
Fixpoint insert_between (new s : string) : string :=
  match s with
  | EmptyString => new
  | String c s' => (new ++ String c (insert_between new s'))%string
  end.

(** [s.replace(old, new)] for an [old] that is not empty, from left to
    right; [skip] characters of the occurrence just replaced are still to
    be passed over. *)
Fixpoint replace_from (old new : string) (skip : nat) (s : string) : string :=
  match s with
  | EmptyString => ""
  | String c s' =>
      match skip with
      | S n => replace_from old new n s'
      | O =>
          if String.prefix old s
          then (new ++ replace_from old new (String.length old - 1) s')%string
          else String c (replace_from old new 0 s')
      end
  end.

(** [s.replace(old, new)] *)
Definition replace (old new s : string) : string :=
  if decide (old = "") then insert_between new s else replace_from old new 0 s.

Definition tab : ascii := ascii_of_nat 9.

Definition newline : ascii := ascii_of_nat 10.

(** The target [i, j] of the dict comprehension, which takes a list of two
    fields. *)
Definition unpack_pair (fields : list string) : result (string * string) :=
  match fields with
  | [i; j] => inr (i, j)
  | [] => inl (ValueError "not enough values to unpack (expected 2, got 0)")
  | [_] => inl (ValueError "not enough values to unpack (expected 2, got 1)")
  | _ => inl (ValueError "too many values to unpack (expected 2)")
  end.

(** [{i: j for i, j in lines}] *)
Fixpoint dict_of_lines (lines : list (list string)) (d : list (string * string))
  : result (list (string * string)) :=
  match lines with
  | [] => inr d
  | fields :: lines' =>
      match unpack_pair fields with
      | inl e => inl e
      | inr (i, j) => dict_of_lines lines' (dict_set i j d)
      end
  end.

(** The lines of the alias file that are not empty. *)
Definition alias_lines (contents : string) : list string :=
  filter (fun line => line <> "") (str_split newline contents).

(** The dict [gene_aliases] of [generate_genotype_annotations], from the
    text of the alias file (lines 149-152). *)
Definition gene_aliases (contents : string) : result (list (string * string)) :=
  let lines := map (str_split tab) (alias_lines contents) in
  match dict_of_lines lines [] with
  | inl e => inl e
  | inr gene_aliases => inr (dict_set "patA" "dltB" gene_aliases)
  end.

(** One turn of the loop over the rows (lines 169-183). *)
Definition annotate_row (gene_aliases : list (string * string))
    (row : option Cell * option Cell) : result string :=
  let (i, j) := row in
  match (match i with
         | Some Float => inr ""
         | Some (Text i) => inr (hd "" (str_split "<" i))
         | None => inl AttributeError
         end) with
  | inl e => inl e
  | inr gene =>
      let gene := fold_left (fun gene '(k, v) => replace k v gene) gene_aliases gene in
      let effect :=
        match j with
        | Some Float => ""
        | None => ""
        | Some (Text j) => hd "" (str_split "(" j)
        end in
      inr (gene ++ " " ++ effect)%string
  end.

Fixpoint annotate_rows (gene_aliases : list (string * string))
    (rows : list (option Cell * option Cell)) : result (list string) :=
  match rows with
  | [] => inr []
  | row :: rows' =>
      match annotate_row gene_aliases row with
      | inl e => inl e
      | inr entry =>
          match annotate_rows gene_aliases rows' with
          | inl e => inl e
          | inr annotation => inr (entry :: annotation)
          end
      end
  end.

Definition column_values (column : option (list Cell)) : list Cell :=
  match column with
  | Some values => values
  | None => []
  end.

(** The loop over the genotypes (lines 156-184); [loc] is [info.loc[...]],
    and [info] is [None] when the workflow was given a table of genotypes. *)
Fixpoint annotate_genotypes {Info} (loc : Info -> list string -> result Subtable)
    (gene_aliases : list (string * string)) (info : option Info)
    (genotype_members : list (string * string))
    (annotations : list (string * list string)) : result (list (string * list string)) :=
  match genotype_members with
  | [] => inr annotations
  | (genotype_label, members) :: rest =>
      let trajectory_labels := str_split "|" members in
      match info with
      | None => inl AttributeError
      | Some table =>
          match loc table trajectory_labels with
          | inl e => inl e
          | inr trajectory_subtable =>
              let gene_column_values := column_values (gene_column trajectory_subtable) in
              let aa_column_values := column_values (aa_column trajectory_subtable) in
              match annotate_rows gene_aliases
                      (zip_longest gene_column_values aa_column_values) with
              | inl e => inl e
              | inr annotation =>
                  annotate_genotypes loc gene_aliases info rest
                    (dict_set genotype_label annotation annotations)
              end
          end
      end
  end.

(** [generate_genotype_annotations]; [read_text] is what reading the alias
    file gives, the text or the error. *)
Definition generate_genotype_annotations {Info} (read_text : result string)
    (loc : Info -> list string -> result Subtable)
    (genotype_members : list (string * string)) (info : option Info)
  : result (list (string * list string)) :=
  match read_text with
  | inl e => inl e
  | inr contents =>
      match gene_aliases contents with
      | inl e => inl e
      | inr gene_aliases => annotate_genotypes loc gene_aliases info genotype_members []
      end
  end.

(** The rows of the genotype [entry] can be annotated: [loc] finds its
    members in [table], and the column of amino acids is not longer than
    the column of genes. *)
Definition annotated {Info} (loc : Info -> list string -> result Subtable) (table : Info)
    (entry : string * string) : Prop :=
  exists sub,
    loc table (str_split "|" (snd entry)) = inr sub
    /\ (length (column_values (aa_column sub))
        <= length (column_values (gene_column sub)))%nat.

(** A table with both columns, one with the amino acids only, and their
    [loc]. *)
Definition example_subtable : Subtable :=
  {| gene_column := Some [Text "patA<1>"; Float];
     aa_column := Some [Text "K12E(3)"; Float] |}.

Definition example_loc (table : Subtable) (labels : list string) : result Subtable :=
  inr table.

Definition amino_acids_only : Subtable :=
  {| gene_column := None; aa_column := Some [Text "K12E(3)"] |}.

(** The five folders of the output. *)
Definition folders (output_folder : Path) : list Path :=
  [output_folder;
   joinpath output_folder "supplementary-files";
   joinpath output_folder "graphics";
   joinpath output_folder "tables";
   joinpath output_folder "scripts"].

(** The paths an [OutputFilenames] holds. *)
Definition files (self : OutputFilenames) : list Path :=
  [trajectory self; genotype self; muller_plot_annotated self; mermaid_render self;
   genotype_plot_filtered self; original_trajectory self; original_genotype self;
   population self; edges self; muller_table self; calculation_matrix_X self;
   linkage_matrix_table self; p_value self; calculation_matrix_p self;
   muller_plot_basic self; muller_plot_unannotated self; muller_plot_annotated_pdf self;
   muller_plot_annotated_svg self; genotype_plot self; p_value_heatmap self;
   distance_heatmap self; linkage_plot self; r_script self; mermaid_script self;
   parameters self; calculation_json self].

Fixpoint has_slash (s : string) : bool :=
  match s with
  | EmptyString => false
  | String c s' => if decide (c = "/"%char) then true else has_slash s'
  end.

(** The file system once [p] is made sure of. *)
Definition ensure (p : Path) (fs : FileSystem) : FileSystem :=
  match kind_of fs p with
  | Some _ => fs
  | None => <[p := Directory]> fs
  end.

(** *** The output of a workflow *)

(** The property [delimiter]. *)
Definition delimiter (self : OutputFilenames) : string :=
  if decide (suffix self = default_suffix) then "tsv" else "csv".

(** [p.name]: the last part of a path, empty when it has none. *)
Definition path_name (p : Path) : string := List.last (snd p) "".

(** [p.stem]: the name up to its last dot, when that dot is neither the
    first nor the last character of the name. *)
Definition stem (p : Path) : string :=
  let name := path_name p in
  let pieces := str_split "." name in
  let front := String.concat "." (removelast pieces) in
  if decide (front <> "" /\ List.last pieces "" <> "") then front else name.

(** What the calls of [generate_output] raise: the exceptions above, those
    of the file system, and two more of Python's own. *)
Inductive Exception : Type :=
| Raised (e : error)
| OSFailure (e : OSError)
| TypeError
| UnboundLocalError.

(** The files and directories, and whatever else the calls act on. *)
Record Machine (Env : Type) : Type := mkMachine {
  machine_files : gmap (string * list string) Kind;
  machine_env : Env
}.
Arguments mkMachine {Env}.
Arguments machine_files {Env}.
Arguments machine_env {Env}.

Definition IO (Env A : Type) : Type := Machine Env -> Machine Env * (Exception + A).

#[global] Instance io_ret {Env} : MRet (IO Env) := fun A a w => (w, inr a).

#[global] Instance io_bind {Env} : MBind (IO Env) := fun A B k m w =>
  match m w with
  | (w', inl e) => (w', inl e)
  | (w', inr a) => k a w'
  end.

Definition io_raise {Env A} (e : Exception) : IO Env A := fun w => (w, inl e).

(** A call that acts on the file system only. *)
Definition on_files {Env A} (m : OS A) : IO Env A :=
  fun w =>
    match m (machine_files w) with
    | (fs, inl e) => ({| machine_files := fs; machine_env := machine_env w |}, inl (OSFailure e))
    | (fs, inr a) => ({| machine_files := fs; machine_env := machine_env w |}, inr a)
    end.

(** The attributes of the cluster options that [get_workflow_parameters]
    reads. *)
Record ClusterOptions : Type := mkClusterOptions {
  additive_background_double_cutoff : Q;
  additive_background_single_cutoff : Q;
  subtractive_background_double_cutoff : Q;
  subtractive_background_single_cutoff : Q;
  derivative_detection_cutoff : Q;
  derivative_check_cutoff : Q
}.

(** The dataclass [WorkflowData]; a [Value] is a Python object that
    [generate_output] only hands on: a table, a palette, a cache. *)
Record WorkflowData (Value : Type) : Type := mkWorkflowData {
  filename : Path;
  info : option Value;
  original_trajectories : option Value;
  original_genotypes : option Value;
  trajectories : option Value;
  genotypes : Value;
  genotype_members : list (string * string);
  clusters : Value;
  genotype_options : GenotypeOptions;
  sort_options : SortOptions;
  cluster_options : ClusterOptions;
  p_values : Value;
  filter_cache : Value;
  linkage_matrix : option Value;
  genotype_palette_filename : option Path
}.
Arguments mkWorkflowData {Value}.
Arguments filename {Value}.
Arguments info {Value}.
Arguments original_trajectories {Value}.
Arguments original_genotypes {Value}.
Arguments trajectories {Value}.
Arguments genotypes {Value}.
Arguments genotype_members {Value}.
Arguments clusters {Value}.
Arguments genotype_options {Value}.
Arguments sort_options {Value}.
Arguments cluster_options {Value}.
Arguments p_values {Value}.
Arguments filter_cache {Value}.
Arguments linkage_matrix {Value}.
Arguments genotype_palette_filename {Value}.

(** The values of the dict of parameters. *)
Inductive JsonValue (Value : Type) : Type :=
| Number (q : Q)
| NoValue
| Numbers (qs : list Q)
| Palette (colors : Value).
Arguments Number {Value}.
Arguments NoValue {Value}.
Arguments Numbers {Value}.
Arguments Palette {Value}.

Definition number_or_none {Value} (q : option Q) : JsonValue Value :=
  match q with
  | Some q => Number q
  | None => NoValue
  end.

Definition get_workflow_parameters {Value} (workflow_data : WorkflowData Value)
    (genotype_colors : Value) : list (string * JsonValue Value) :=
  [("detectionCutoff",
    Number (go_detection_breakpoint (genotype_options workflow_data)));
   ("fixedCutoff",
    number_or_none (go_fixed_breakpoint (genotype_options workflow_data)));
   ("similarityCutoff",
    Number (go_similarity_breakpoint (genotype_options workflow_data)));
   ("differenceCutoff",
    Number (go_difference_breakpoint (genotype_options workflow_data)));
   ("significanceCutoff",
    Number (so_significant_breakpoint (sort_options workflow_data)));
   ("frequencyCutoffs",
    Numbers (frequency_breakpoints (sort_options workflow_data)));
   ("additiveBackgroundDoubleCheckCutoff",
    Number (additive_background_double_cutoff (cluster_options workflow_data)));
   ("additiveBackgroundSingleCheckCutoff",
    Number (additive_background_single_cutoff (cluster_options workflow_data)));
   ("subtractiveBackgroundDoubleCheckCutoff",
    Number (subtractive_background_double_cutoff (cluster_options workflow_data)));
   ("subtractiveBackgroundSingleCheckCutoff",
    Number (subtractive_background_single_cutoff (cluster_options workflow_data)));
   ("derivativeDetectionCutoff",
    Number (derivative_detection_cutoff (cluster_options workflow_data)));
   ("derivativeCheckCutoff",
    Number (derivative_check_cutoff (cluster_options workflow_data)));
   ("genotypePalette", Palette genotype_colors)].

(** What [generate_output] calls of pandas, json, pathlib and of the modules
    of the package that are not among the sources. *)
Record Library (Env Value : Type) : Type := mkLibrary {
  map_trajectories_to_genotype : list (string * string) -> IO Env Value;
  to_csv : Value -> Path -> string -> bool -> IO Env unit;
  generate_ggmuller_edges_table : Value -> IO Env Value;
  generate_ggmuller_population_table : Value -> Value -> Q -> bool -> IO Env Value;
  generate_clade_palette : Value -> IO Env Value;
  generate_missing_trajectories_table : Value -> option Value -> IO Env Value;
  generate_trajectory_table : Value -> Value -> option Value -> IO Env Value;
  trajectory_colors_of : Value -> Value -> Value -> IO Env Value;
  json_dumps : list (string * JsonValue Value) -> IO Env string;
  write_text : Path -> string -> IO Env unit;
  generate_mermaid_script : Value -> Value -> IO Env Value;
  excecute_mermaid_script : Path -> Value -> Path -> IO Env unit;
  identity_labels : Value -> IO Env Value;
  generate_r_script :
    Path -> Path -> Path -> Path -> Path -> Path -> Value -> Value -> IO Env (option Value);
  plot_genotypes : option Value -> Value -> Path -> Value -> Value -> IO Env unit;
  read_text : Path -> IO Env string;
  loc : Value -> list string -> result Subtable;
  generate_muller_plot :
    Value -> option Value -> Value -> Path + list Path
    -> option (list (string * list string)) -> IO Env unit;
  len : Value -> IO Env Value;
  format_linkage_matrix : Value -> Value -> IO Env Value;
  plot_dendrogram : Value -> Value -> Path -> Value -> IO Env unit;
  save : Value -> Path -> IO Env unit;
  squareform : Value -> IO Env Value;
  plot_heatmap : Value -> Path -> IO Env unit
}.
Arguments map_trajectories_to_genotype {Env Value}.
Arguments to_csv {Env Value}.
Arguments generate_ggmuller_edges_table {Env Value}.
Arguments generate_ggmuller_population_table {Env Value}.
Arguments generate_clade_palette {Env Value}.
Arguments generate_missing_trajectories_table {Env Value}.
Arguments generate_trajectory_table {Env Value}.
Arguments trajectory_colors_of {Env Value}.
Arguments json_dumps {Env Value}.
Arguments write_text {Env Value}.
Arguments generate_mermaid_script {Env Value}.
Arguments excecute_mermaid_script {Env Value}.
Arguments identity_labels {Env Value}.
Arguments generate_r_script {Env Value}.
Arguments plot_genotypes {Env Value}.
Arguments read_text {Env Value}.
Arguments loc {Env Value}.
Arguments generate_muller_plot {Env Value}.
Arguments len {Env Value}.
Arguments format_linkage_matrix {Env Value}.
Arguments plot_dendrogram {Env Value}.
Arguments save {Env Value}.
Arguments squareform {Env Value}.
Arguments plot_heatmap {Env Value}.

(** The alias file of [generate_genotype_annotations]. *)
Definition gene_alias_filename : Path :=
  ("/", ["home"; "cld100"; "Documents"; "projects"; "rosch"; "prokka_gene_search";
         "prokka_gene_map.txt"]).

(** [table.to_csv(...)] on a table that may be [None]. *)
Definition to_csv_of {Env Value} (lib : Library Env Value) (table : option Value)
    (path : Path) (sep : string) (index : bool) : IO Env unit :=
  match table with
  | Some table => to_csv lib table path sep index
  | None => io_raise (Raised AttributeError)
  end.

Definition generate_output {Env Value} (lib : Library Env Value)
    (workflow_data : WorkflowData Value) (output_folder : Path) (detection_cutoff : Q)
    (annotate_all save_pvalues adjust_populations : bool) : IO Env unit :=
  filenames ← on_files
    (OutputFilenames_init output_folder (stem (filename workflow_data)) default_suffix);
  let delimiter := delimiter filenames in
  parent_genotypes ← map_trajectories_to_genotype lib (genotype_members workflow_data);
  to_csv_of lib (original_genotypes workflow_data) (original_genotype filenames)
    delimiter true;;
  to_csv lib (genotypes workflow_data) (genotype filenames) delimiter true;;
  edges_table ← generate_ggmuller_edges_table lib (clusters workflow_data);
  population_table ← generate_ggmuller_population_table lib (genotypes workflow_data)
    edges_table detection_cutoff adjust_populations;
  to_csv lib population_table (population filenames) delimiter false;;
  to_csv lib edges_table (edges filenames) delimiter false;;
  genotype_colors ← generate_clade_palette lib edges_table;
  match original_trajectories workflow_data with
  | Some table => to_csv lib table (original_trajectory filenames) delimiter true
  | None => mret tt
  end;;
  from_trajectories ←
    match trajectories workflow_data with
    | Some table =>
        filtered_trajectories ← generate_missing_trajectories_table lib table
          (original_trajectories workflow_data);
        trajectories ← generate_trajectory_table lib table parent_genotypes
          (info workflow_data);
        trajectory_colors ← trajectory_colors_of lib genotype_colors parent_genotypes table;
        to_csv lib trajectories (trajectory filenames) delimiter true;;
        mret (Some (filtered_trajectories, trajectory_colors))
    | None => mret None
    end;
  text ← json_dumps lib (get_workflow_parameters workflow_data genotype_colors);
  write_text lib (parameters filenames) text;;
  mermaid_diagram ← generate_mermaid_script lib edges_table genotype_colors;
  excecute_mermaid_script lib (mermaid_script filenames) mermaid_diagram
    (mermaid_render filenames);;
  genotype_labels ← identity_labels lib population_table;
  muller_df ← generate_r_script lib (trajectory filenames) (population filenames)
    (edges filenames) (muller_table filenames) (muller_plot_basic filenames)
    (r_script filenames) genotype_colors genotype_labels;
  plot_genotypes lib (trajectories workflow_data) (genotypes workflow_data)
    (genotype_plot filenames) genotype_colors parent_genotypes;;
  match from_trajectories with
  | Some (filtered_trajectories, _) =>
      plot_genotypes lib (Some filtered_trajectories) (genotypes workflow_data)
        (genotype_plot_filtered filenames) genotype_colors parent_genotypes
  | None => mret tt
  end;;
  match muller_df with
  | Some muller_df =>
      contents ← read_text lib gene_alias_filename;
      genotype_annotations ←
        match generate_genotype_annotations (inr contents) (loc lib)
                (genotype_members workflow_data) (info workflow_data) with
        | inl e => io_raise (Raised e)
        | inr annotations => mret annotations
        end;
      generate_muller_plot lib muller_df (trajectories workflow_data) genotype_colors
        (inr [muller_plot_annotated filenames; muller_plot_annotated_pdf filenames;
              muller_plot_annotated_svg filenames])
        (Some genotype_annotations);;
      generate_muller_plot lib muller_df (trajectories workflow_data) genotype_colors
        (inl (muller_plot_unannotated filenames)) None
  | None => mret tt
  end;;
  match linkage_matrix workflow_data with
  | Some linkage =>
      num_trajectories ←
        match trajectories workflow_data with
        | Some table => len lib table
        | None => io_raise TypeError
        end;
      linkage_table ← format_linkage_matrix lib linkage num_trajectories;
      to_csv lib linkage_table (linkage_matrix_table filenames) delimiter false;;
      trajectory_colors ←
        match from_trajectories with
        | Some (_, trajectory_colors) => mret trajectory_colors
        | None => io_raise UnboundLocalError
        end;
      plot_dendrogram lib linkage (p_values workflow_data) (linkage_plot filenames)
        trajectory_colors
  | None => mret tt
  end;;
  save lib (p_values workflow_data) (calculation_json filenames);;
  if save_pvalues then
    save lib (p_values workflow_data) (calculation_matrix_p filenames);;
    pvalues_matrix ← squareform lib (p_values workflow_data);
    plot_heatmap lib pvalues_matrix (p_value_heatmap filenames)
  else mret tt.

(** The library [lib] with another [to_csv]. *)
Definition with_to_csv {Env Value} (f : Value -> Path -> string -> bool -> IO Env unit)
    (lib : Library Env Value) : Library Env Value :=
  {| map_trajectories_to_genotype := map_trajectories_to_genotype lib;
     to_csv := f;
     generate_ggmuller_edges_table := generate_ggmuller_edges_table lib;
     generate_ggmuller_population_table := generate_ggmuller_population_table lib;
     generate_clade_palette := generate_clade_palette lib;
     generate_missing_trajectories_table := generate_missing_trajectories_table lib;
     generate_trajectory_table := generate_trajectory_table lib;
     trajectory_colors_of := trajectory_colors_of lib;
     json_dumps := json_dumps lib;
     write_text := write_text lib;
     generate_mermaid_script := generate_mermaid_script lib;
     excecute_mermaid_script := excecute_mermaid_script lib;
     identity_labels := identity_labels lib;
     generate_r_script := generate_r_script lib;
     plot_genotypes := plot_genotypes lib;
     read_text := read_text lib;
     loc := loc lib;
     generate_muller_plot := generate_muller_plot lib;
     len := len lib;
     format_linkage_matrix := format_linkage_matrix lib;
     plot_dendrogram := plot_dendrogram lib;
     save := save lib;
     squareform := squareform lib;
     plot_heatmap := plot_heatmap lib |}.

(** The library [lib] with other calls for what [generate_output] does
    after the annotations of the genotypes: the muller plots, the length of
    the table of trajectories, the linkage table, the dendrogram, and the
    calculations saved and plotted. *)
Definition with_late_calls {Env Value}
    (muller_plot :
       Value -> option Value -> Value -> Path + list Path
       -> option (list (string * list string)) -> IO Env unit)
    (length_of : Value -> IO Env Value)
    (linkage_table : Value -> Value -> IO Env Value)
    (dendrogram : Value -> Value -> Path -> Value -> IO Env unit)
    (save_cache : Value -> Path -> IO Env unit)
    (square : Value -> IO Env Value)
    (heatmap : Value -> Path -> IO Env unit)
    (lib : Library Env Value) : Library Env Value :=
  {| map_trajectories_to_genotype := map_trajectories_to_genotype lib;
     to_csv := to_csv lib;
     generate_ggmuller_edges_table := generate_ggmuller_edges_table lib;
     generate_ggmuller_population_table := generate_ggmuller_population_table lib;
     generate_clade_palette := generate_clade_palette lib;
     generate_missing_trajectories_table := generate_missing_trajectories_table lib;
     generate_trajectory_table := generate_trajectory_table lib;
     trajectory_colors_of := trajectory_colors_of lib;
     json_dumps := json_dumps lib;
     write_text := write_text lib;
     generate_mermaid_script := generate_mermaid_script lib;
     excecute_mermaid_script := excecute_mermaid_script lib;
     identity_labels := identity_labels lib;
     generate_r_script := generate_r_script lib;
     plot_genotypes := plot_genotypes lib;
     read_text := read_text lib;
     loc := loc lib;
     generate_muller_plot := muller_plot;
     len := length_of;
     format_linkage_matrix := linkage_table;
     plot_dendrogram := dendrogram;
     save := save_cache;
     squareform := square;
     plot_heatmap := heatmap |}.

(** A library whose calls all return, on values that are all [tt]; its R
    script gives a table. *)
Definition example_library : Library unit unit :=
  {| map_trajectories_to_genotype := fun _ => mret tt;
     to_csv := fun _ _ _ _ => mret tt;
     generate_ggmuller_edges_table := fun _ => mret tt;
     generate_ggmuller_population_table := fun _ _ _ _ => mret tt;
     generate_clade_palette := fun _ => mret tt;
     generate_missing_trajectories_table := fun _ _ => mret tt;
     generate_trajectory_table := fun _ _ _ => mret tt;
     trajectory_colors_of := fun _ _ _ => mret tt;
     json_dumps := fun _ => mret "{}";
     write_text := fun _ _ => mret tt;
     generate_mermaid_script := fun _ _ => mret tt;
     excecute_mermaid_script := fun _ _ _ => mret tt;
     identity_labels := fun _ => mret tt;
     generate_r_script := fun _ _ _ _ _ _ _ _ => mret (Some tt);
     plot_genotypes := fun _ _ _ _ _ => mret tt;
     read_text := fun _ => mret "";
     loc := fun _ _ => inr example_subtable;
     generate_muller_plot := fun _ _ _ _ _ => mret tt;
     len := fun _ => mret tt;
     format_linkage_matrix := fun _ _ => mret tt;
     plot_dendrogram := fun _ _ _ _ => mret tt;
     save := fun _ _ => mret tt;
     squareform := fun _ => mret tt;
     plot_heatmap := fun _ _ => mret tt |}.

(** The data [workflow_data] without its linkage matrix. *)
Definition without_linkage {Value} (workflow_data : WorkflowData Value) : WorkflowData Value :=
  {| filename := filename workflow_data;
     info := info workflow_data;
     original_trajectories := original_trajectories workflow_data;
     original_genotypes := original_genotypes workflow_data;
     trajectories := trajectories workflow_data;
     genotypes := genotypes workflow_data;
     genotype_members := genotype_members workflow_data;
     clusters := clusters workflow_data;
     genotype_options := genotype_options workflow_data;
     sort_options := sort_options workflow_data;
     cluster_options := cluster_options workflow_data;
     p_values := p_values workflow_data;
     filter_cache := filter_cache workflow_data;
     linkage_matrix := None;
     genotype_palette_filename := genotype_palette_filename workflow_data |}.

(** The example library with late calls that would make the state known:
    each of them raises. *)
Definition raising_late_calls : Library unit unit :=
  with_late_calls (fun _ _ _ _ _ => io_raise UnboundLocalError)
    (fun _ => io_raise UnboundLocalError) (fun _ _ => io_raise UnboundLocalError)
    (fun _ _ _ _ => io_raise UnboundLocalError) (fun _ _ => io_raise UnboundLocalError)
    (fun _ => io_raise UnboundLocalError) (fun _ _ => io_raise UnboundLocalError)
    example_library.

(** The data of a workflow that was given a table of genotypes: no
    trajectories and no information on them; [linkage] is its linkage
    matrix. *)
Definition genotype_data (linkage : option unit) : WorkflowData unit :=
  {| filename := ("", ["data"; "run.xlsx"]);
     info := None;
     original_trajectories := None;
     original_genotypes := Some tt;
     trajectories := None;
     genotypes := tt;
     genotype_members := [("genotype-1", "t1|t2")];
     clusters := tt;
     genotype_options := mkGenotypeOptions 0.03 (Some 0.97%Q) 0.05 0.10 None "hierarchy";
     sort_options := mkSortOptions 0.03 (Some 0.97%Q) 0.15 [];
     cluster_options := mkClusterOptions 0 0 0 0 0 0;
     p_values := tt;
     filter_cache := tt;
     linkage_matrix := linkage;
     genotype_palette_filename := None |}.

(** Data with a linkage matrix, with neither trajectories nor genotypes. *)
Definition linkage_data : WorkflowData unit :=
  {| filename := ("", ["data"; "run.xlsx"]);
     info := None;
     original_trajectories := None;
     original_genotypes := Some tt;
     trajectories := None;
     genotypes := tt;
     genotype_members := [];
     clusters := tt;
     genotype_options := mkGenotypeOptions 0.03 (Some 0.97%Q) 0.05 0.10 None "hierarchy";
     sort_options := mkSortOptions 0.03 (Some 0.97%Q) 0.15 [];
     cluster_options := mkClusterOptions 0 0 0 0 0 0;
     p_values := tt;
     filter_cache := tt;
     linkage_matrix := Some tt;
     genotype_palette_filename := None |}.

End SaveOutput.

(** ** Manual ancestries outside the contract *)

(** The scorer of the spec with the components 50, 50 and 1, each below
    100, and three genotypes that are above the detection limit at both
    timepoints: every pair gets the total 101. *)
Module HighExample.

Definition table : Table :=
  [("genotype-0", [(0%Z, 1%Q); (1%Z, 1%Q)]);
   ("genotype-1", [(0%Z, 0.5%Q); (1%Z, 0.5%Q)]);
   ("genotype-2", [(0%Z, 0.25%Q); (1%Z, 0.25%Q)])].

Definition Score : Q -> Q -> Q -> Scorer := fun dlimit flimit pvalue =>
  PairScorer.score_pair (fun _ _ => 50%Q) (fun _ _ _ => 50%Q) (fun _ => 1%Q)
    dlimit flimit 0.15 0.01.

Definition workflow : LineageWorkflow := LineageWorkflow_init Score 0.03 0.97 0.05 false.

End HighExample.

(** The scorer of the spec with components that are 50, 50 and 1 when the
    background is at frequency 0.5 at the first shared timepoint, as
    genotype-1 is, and 0 otherwise: the pairs whose background is
    genotype-1 get the total 101, the others 0. *)
Module CycleExample.

Definition at_half (shared : list (Z * Q * Q)) : bool :=
  match shared with
  | (_, background, _) :: _ => Qeq_bool background 0.5
  | [] => false
  end.

Definition Score : Q -> Q -> Q -> Scorer := fun dlimit flimit pvalue =>
  PairScorer.score_pair
    (fun _ shared => if at_half shared then 50%Q else 0%Q)
    (fun _ _ shared => if at_half shared then 50%Q else 0%Q)
    (fun shared => if at_half shared then 1%Q else 0%Q)
    dlimit flimit 0.15 0.01.

Definition workflow : LineageWorkflow := LineageWorkflow_init Score 0.03 0.97 0.05 false.

End CycleExample.

(** The scorer of the spec with three components of 30 each, on the same
    table: every pair gets the total 90. *)
Module BoundedExample.

Definition Score : Q -> Q -> Q -> Scorer := fun dlimit flimit pvalue =>
  PairScorer.score_pair (fun _ _ => 30%Q) (fun _ _ _ => 30%Q) (fun _ => 30%Q)
    dlimit flimit 0.15 0.01.

Definition workflow : LineageWorkflow := LineageWorkflow_init Score 0.03 0.97 0.05 false.

Definition record (nested unnested : Trajectory) : ScoreRecord :=
  match Score 0.03 0.97 0.05 nested unnested with
  | inr score_data => score_data
  | inl _ => PairScorer.zero_scores
  end.

End BoundedExample.

(** The example table with another label on its first row. *)
Module RenamedExample.

Definition table : Table :=
  [("ancestor", [(0%Z, 1%Q); (1%Z, 1%Q)]);
   ("genotype-1", [(0%Z, 0%Q); (1%Z, 0.5%Q)]);
   ("genotype-2", [(0%Z, 0%Q); (1%Z, 0.25%Q)])].

End RenamedExample.

(** ** Lemmas on the monad and on loops *)

Lemma for_each_app {S A} (l1 l2 : list A) (body : A -> M S unit) s :
  for_each (l1 ++ l2) body s = (for_each l1 body >> for_each l2 body) s.
Proof.
  revert s. induction l1 as [|x l1 IH]; intros s; simpl.
  - reflexivity.
  - unfold bind in *. destruct (body x s) as [s1 [e|[]]]; [reflexivity|].
    apply IH.
Qed.

Lemma extend_nil a : extend [] a = a.
Proof. destruct a; unfold extend; simpl. now rewrite app_nil_r. Qed.

Lemma extend_extend es1 es2 a : extend es2 (extend es1 a) = extend (es1 ++ es2) a.
Proof. unfold extend; simpl. now rewrite <- app_assoc. Qed.

Lemma recorded_nil w : recorded [] [] w = w.
Proof.
  destruct w as [d f p dbg n sc rs]; unfold recorded; simpl.
  rewrite app_nil_r. destruct n as [a|]; simpl; [now rewrite extend_nil | reflexivity].
Qed.

Lemma recorded_recorded es1 rs1 es2 rs2 w :
  recorded es2 rs2 (recorded es1 rs1 w) = recorded (es1 ++ es2) (rs1 ++ rs2) w.
Proof.
  unfold recorded; simpl. rewrite <- app_assoc.
  destruct (genotype_nests w); simpl; [now rewrite extend_extend | reflexivity].
Qed.

Lemma add_background_ok w a g b p :
  genotype_nests w = Some a -> g <> b ->
  on_genotype_nests (AncestryGraph.add_genotype_to_background g b p) w
  = (recorded [(g, b, p)] [] w, inr tt).
Proof.
  intros Ha Hne. unfold on_genotype_nests, AncestryGraph.add_genotype_to_background.
  rewrite Ha. destruct (decide (g = b)) as [->|_]; [contradiction|].
  unfold modify, recorded, set_genotype_nests, extend; simpl.
  now rewrite Ha, app_nil_r.
Qed.

Lemma recorded_nests es rs w a :
  genotype_nests w = Some a -> genotype_nests (recorded es rs w) = Some (extend es a).
Proof. intros H. unfold recorded; simpl. now rewrite H. Qed.

(** ** Slicing a table with unique labels *)

Lemma last_loc_absent l ls : ~ In l ls -> last_loc l ls = None.
Proof.
  induction ls as [|x ls IH]; simpl; intros H; [reflexivity|].
  rewrite IH by tauto. destruct (decide (x = l)); [tauto | reflexivity].
Qed.

Lemma occurrences_absent l ls : ~ In l ls -> occurrences l ls = 0%nat.
Proof.
  unfold occurrences. induction ls as [|x ls IH]; simpl; intros H; [reflexivity|].
  rewrite filter_cons. destruct (decide (x = l)); [tauto|]. apply IH. tauto.
Qed.

Lemma lookup_In {A} (l : list A) i x : l !! i = Some x -> In x l.
Proof. intros H. apply list_elem_of_In. eapply list_elem_of_lookup_2, H. Qed.

Lemma locs_unique l ls i :
  NoDup ls -> ls !! i = Some l ->
  first_loc l ls = Some i /\ last_loc l ls = Some i /\ occurrences l ls = 1%nat.
Proof.
  intros Hnd. revert i. induction Hnd as [|x ls Hx Hnd IH]; intros i Hi; [discriminate|].
  rewrite list_elem_of_In in Hx.
  destruct i as [|i]; simpl in Hi.
  - injection Hi as ->. simpl. unfold occurrences. rewrite filter_cons.
    destruct (decide (l = l)); [|contradiction].
    rewrite last_loc_absent by assumption. simpl.
    fold (occurrences l ls). now rewrite occurrences_absent.
  - destruct (IH i Hi) as (Hf & Hl & Ho).
    assert (x <> l) by (intros ->; apply Hx; eapply lookup_In, Hi).
    simpl. unfold occurrences. rewrite filter_cons.
    destruct (decide (x = l)); [contradiction|].
    rewrite Hf, Hl. auto.
Qed.

Lemma index_lookup (t : Table) i r : t !! i = Some r -> index t !! i = Some (fst r).
Proof.
  revert i. induction t as [|x t IH]; intros [|i] H; try discriminate; simpl in *.
  - now injection H as ->.
  - now apply IH.
Qed.

Lemma slice_to_label_unique t i l tr :
  NoDup (index t) -> t !! i = Some (l, tr) ->
  slice_to_label t l = inr (take (S i) t).
Proof.
  intros Hnd Hi.
  assert (Hl : index t !! i = Some l) by apply (index_lookup _ _ _ Hi).
  destruct (locs_unique _ _ _ Hnd Hl) as (Hf & Hla & Ho).
  unfold slice_to_label. rewrite Hf, Hla, Ho, Nat.sub_diag.
  destruct (decide (1%nat = 1%nat)); [reflexivity | contradiction].
Qed.

Lemma labels_differ (t : Table) i j r1 r2 :
  NoDup (index t) -> t !! i = Some r1 -> t !! j = Some r2 -> i <> j -> fst r1 <> fst r2.
Proof.
  intros Hnd H1 H2 Hij Heq. apply Hij.
  eapply NoDup_lookup; [exact Hnd | apply (index_lookup _ _ _ H1) |].
  rewrite Heq. apply (index_lookup _ _ _ H2).
Qed.

Lemma pairs_below (t : Table) (r : label * Trajectory) i j :
  t !! i = Some r -> (j <= length t)%nat ->
  flat_map (fun j => match t !! j, t !! i with
                     | Some nested, Some unnested => [(nested, unnested)]
                     | _, _ => []
                     end)
           (rev (seq 0 j))
  = map (fun n => (n, r)) (rev (take j t)).
Proof.
  intros Hi. induction j as [|j IH]; intros Hj.
  - rewrite take_0. reflexivity.
  - rewrite seq_S, rev_app_distr, Nat.add_0_l. cbn [rev app flat_map].
    destruct (lookup_lt_is_Some_2 t j Hj) as [n Hn].
    rewrite IH by apply Nat.lt_le_incl, Hj.
    rewrite Hn, Hi. erewrite take_S_r by exact Hn.
    rewrite rev_app_distr. reflexivity.
Qed.

Lemma candidate_pairs_take t i r :
  t !! i = Some r -> candidate_pairs t i = map (fun n => (n, r)) (rev (take i t)).
Proof.
  intros Hi. apply pairs_below; [exact Hi|].
  apply Nat.lt_le_incl, (lookup_lt_Some _ _ _ Hi).
Qed.

(** ** The sweep of [run] *)

Lemma recorded_append e r w :
  recorded [e] [] (append_score_record r w) = recorded [e] [r] w.
Proof. unfold recorded, append_score_record; simpl. now rewrite app_nil_r. Qed.

(** The inner loop over rows that are all labelled differently from the
    genotype being nested. *)
Lemma run_inner_loop score w a (u : label) (ut : Trajectory) (rows : Table) :
  genotype_nests w = Some a ->
  (forall r, In r rows -> fst r <> u /\ scorer w (snd r) ut = inr (score (snd r) ut)) ->
  for_each rows (fun '(nested_label, nested_genotype) =>
      if decide (nested_label = u) then ret tt
      else
        let! self := get in
        let! score_data := lift (scorer self nested_genotype ut) in
        modify (append_score_record score_data) >>
        on_genotype_nests
          (AncestryGraph.add_genotype_to_background u nested_label (totalScore score_data))) w
  = (recorded (map (fun r => (u, fst r, totalScore (score (snd r) ut))) rows)
              (map (fun r => score (snd r) ut) rows) w, inr tt).
Proof.
  revert w a. induction rows as [|[n nt] rows IH]; intros w a Ha Hrows.
  - simpl. now rewrite recorded_nil.
  - destruct (Hrows (n, nt) (or_introl eq_refl)) as [Hne Hsc]. simpl in Hne, Hsc.
    cbn [for_each]. unfold bind at 1.
    destruct (decide (n = u)) as [|_]; [contradiction|].
    unfold bind at 1. unfold get at 1. unfold bind at 1. unfold lift at 1.
    rewrite Hsc. unfold bind at 1. unfold modify at 1.
    assert (Ha' : genotype_nests (append_score_record (score nt ut) w) = Some a)
      by exact Ha.
    rewrite (add_background_ok _ _ u n _ Ha') by congruence.
    rewrite recorded_append.
    rewrite (IH _ (extend [(u, n, totalScore (score nt ut))] a)).
    + rewrite recorded_recorded. reflexivity.
    + apply recorded_nests, Ha.
    + intros r Hr. apply Hrows. now right.
Qed.

Lemma In_take {A} (l : list A) k x : In x (take k l) -> exists j, (j < k)%nat /\ l !! j = Some x.
Proof.
  intros H. apply list_elem_of_In, list_elem_of_lookup in H. destruct H as [j Hj].
  apply lookup_take_Some in Hj. destruct Hj as [Hj Hlt]. eauto.
Qed.

Lemma In_snd (t : Table) i r : t !! i = Some r -> In (snd r) (map snd t).
Proof. intros H. apply in_map, (lookup_In _ _ _ H). Qed.

Lemma sweep_from score (t : Table) :
  NoDup (index t) ->
  forall n k w a,
    (length t - k = n)%nat ->
    genotype_nests w = Some a ->
    scores_on t (scorer w) score ->
    for_each (drop k t) (fun '(unnested_label, unnested_trajectory) =>
      let! sliced := lift (slice_to_label t unnested_label) in
      let test_table := rev sliced in
      for_each test_table (fun '(nested_label, nested_genotype) =>
        if decide (nested_label = unnested_label) then ret tt
        else
          let! self := get in
          let! score_data := lift (scorer self nested_genotype unnested_trajectory) in
          modify (append_score_record score_data) >>
          on_genotype_nests
            (AncestryGraph.add_genotype_to_background
               unnested_label nested_label (totalScore score_data)))) w
    = (recorded
         (map (pair_edge (fun x y => totalScore (score x y)))
              (flat_map (candidate_pairs t) (seq k n)))
         (map (pair_record score) (flat_map (candidate_pairs t) (seq k n))) w, inr tt).
Proof.
  intros Hnd. induction n as [|n IH]; intros k w a Hlen Ha Hsc.
  - rewrite drop_ge by lia. simpl. now rewrite recorded_nil.
  - destruct (lookup_lt_is_Some_2 t k) as [[u ut] Hk]; [lia|].
    rewrite (drop_S _ _ _ Hk). cbn [for_each]. unfold bind at 1. unfold bind at 1.
    unfold lift at 1. rewrite (slice_to_label_unique _ _ _ _ Hnd Hk).
    erewrite take_S_r by exact Hk. rewrite rev_app_distr. cbn [rev app for_each].
    unfold bind at 1. destruct (decide (u = u)) as [_|]; [|contradiction].
    unfold ret at 1.
    rewrite (run_inner_loop score w a u ut); [| exact Ha |].
    + erewrite (IH (S k)); [| lia | apply recorded_nests, Ha | exact Hsc].
      rewrite recorded_recorded. cbn [seq flat_map].
      rewrite !map_app, (candidate_pairs_take _ _ _ Hk), !map_map. reflexivity.
    + intros r Hr. apply in_rev, In_take in Hr. destruct Hr as (j & Hj & Hr).
      split.
      * apply (labels_differ t j k r (u, ut) Hnd Hr Hk). lia.
      * apply Hsc; [apply (In_snd _ _ _ Hr) | apply (In_snd _ _ _ Hk)].
Qed.

(** ** Injection of the manual ancestry and the final read-out *)

Lemma add_known_lineages_ok known w a :
  Forall accepted known -> genotype_nests w = Some a ->
  add_known_lineages known w = (recorded (known_edges known) [] w, inr tt).
Proof.
  intros Hok. revert w a. induction Hok as [|[identity parent] known [Hp Hi] Hok IH];
    intros w a Ha.
  - simpl. now rewrite recorded_nil.
  - simpl in Hp, Hi. unfold add_known_lineages in *. cbn [for_each].
    unfold bind at 1. unfold bind at 1.
    rewrite (add_background_ok _ _ _ _ _ Ha Hp).
    rewrite (add_background_ok _ (extend [(parent, ancestral_genotype, 100%Q)] a));
      [| apply recorded_nests, Ha | exact Hi].
    rewrite recorded_recorded.
    erewrite IH by (apply recorded_nests, Ha).
    rewrite recorded_recorded. reflexivity.
Qed.

Lemma set_genotype_nests_same w a :
  genotype_nests w = Some a -> set_genotype_nests (Some a) w = w.
Proof. destruct w; simpl; intros ->; reflexivity. Qed.

Lemma show_ancestry_ok (t : Table) w a :
  genotype_nests w = Some a ->
  (forall l, In l (index t) ->
     exists r, AncestryGraph.get_highest_priority a l = inr r) ->
  show_ancestry t w = (w, inr tt).
Proof.
  intros Ha. unfold show_ancestry. generalize (index t) as ls.
  induction ls as [|l ls IH]; intros Hls; [reflexivity|].
  cbn [for_each]. unfold bind at 1. unfold bind at 1. unfold on_genotype_nests at 1.
  rewrite Ha. destruct (Hls l (or_introl eq_refl)) as [r ->].
  rewrite (set_genotype_nests_same _ _ Ha). unfold ret at 1.
  apply IH. intros l' Hl'. apply Hls. now right.
Qed.

Lemma candidates_In a (e : Edge) :
  In e (confidence a) -> AncestryGraph.candidates a (fst (fst e)) <> [].
Proof.
  intros He. unfold AncestryGraph.candidates.
  assert (H : In e (filter (fun e' : Edge => fst (fst e') = fst (fst e)) (confidence a))).
  { apply list_elem_of_In, list_elem_of_filter. split; [reflexivity|].
    now apply list_elem_of_In. }
  destruct (filter _ (confidence a)); [destruct H | discriminate].
Qed.

Lemma get_highest_priority_candidates a l :
  AncestryGraph.candidates a l <> [] ->
  exists r, AncestryGraph.get_highest_priority a l = inr r.
Proof.
  unfold AncestryGraph.get_highest_priority.
  destruct (AncestryGraph.candidates a l); [contradiction | eauto].
Qed.

Lemma get_highest_priority_root a :
  exists r, AncestryGraph.get_highest_priority a (initial_background_label a) = inr r.
Proof.
  unfold AncestryGraph.get_highest_priority.
  destruct (AncestryGraph.candidates a _); [|eauto].
  destruct (decide _); [eauto | contradiction].
Qed.

Lemma sweep_pairs_In (t : Table) i j ri rj :
  t !! i = Some ri -> t !! j = Some rj -> (j < i)%nat -> In (rj, ri) (sweep_pairs t).
Proof.
  intros Hi Hj Hlt. unfold sweep_pairs. apply in_flat_map. exists i. split.
  - apply in_seq. pose proof (lookup_lt_Some _ _ _ Hi). lia.
  - rewrite (candidate_pairs_take _ _ _ Hi). apply in_map_iff. exists rj.
    split; [reflexivity|]. apply in_rev. rewrite rev_involutive.
    apply (lookup_In _ j). now apply lookup_take_Some.
Qed.

(** After the sweep every label of the table can be read out. *)
Lemma swept_labels_readable (t : Table) row0 f es l :
  t !! 0%nat = Some row0 -> In l (index t) ->
  exists r,
    AncestryGraph.get_highest_priority
      {| initial_background_label := fst row0; timepoints := t;
         confidence := es ++ map (pair_edge f) (sweep_pairs t) |} l = inr r.
Proof.
  intros H0 Hl. apply in_map_iff in Hl. destruct Hl as ([l' tr] & <- & Hl).
  apply list_elem_of_In, list_elem_of_lookup in Hl. destruct Hl as [i Hi].
  destruct i as [|i].
  - rewrite H0 in Hi. injection Hi as ->.
    apply (get_highest_priority_root (mkAncestry _ _ _)).
  - apply get_highest_priority_candidates.
    apply (candidates_In (mkAncestry _ _ _) (pair_edge f (row0, (l', tr)))).
    simpl. apply in_or_app. right. apply in_map.
    apply (sweep_pairs_In t (S i) 0); [assumption | assumption | lia].
Qed.

(** ** A whole run *)

Lemma run_ok score (t : Table) known w row0 :
  NoDup (index t) -> t !! 0%nat = Some row0 ->
  scores_on t (scorer w) score ->
  Forall accepted (items_or_empty known) ->
  run t known w
  = (recorded (run_edges score t known) (map (pair_record score) (sweep_pairs t))
       (set_genotype_nests (Some (AncestryGraph.new row0 t)) w),
     inr (Some (run_graph score t known row0))).
Proof.
  intros Hnd H0 Hsc Hok. unfold run.
  assert (Hi : iloc0 t = inr row0).
  { destruct t; [discriminate | simpl in H0; injection H0 as ->; reflexivity]. }
  unfold bind at 1. unfold lift at 1. rewrite Hi.
  unfold bind at 1. unfold modify at 1.
  set (w0 := set_genotype_nests (Some (AncestryGraph.new row0 t)) w).
  assert (Ha0 : genotype_nests w0 = Some (AncestryGraph.new row0 t)) by reflexivity.
  unfold bind at 1. rewrite (add_known_lineages_ok _ _ _ Hok Ha0).
  unfold bind at 1. unfold sweep.
  erewrite (sweep_from score t Hnd (length t - 1) 1);
    [| reflexivity | apply recorded_nests, Ha0 | exact Hsc].
  rewrite recorded_recorded. fold (sweep_pairs t). simpl app.
  unfold bind at 1.
  erewrite show_ancestry_ok.
  - unfold bind, get, ret. reflexivity.
  - apply recorded_nests, Ha0.
  - intros l Hl. apply (swept_labels_readable t row0 _ _ l H0 Hl).
Qed.

(** ** [order_clusters] *)

Lemma cluster_add_ok a g b p :
  g <> b ->
  AncestryGraph.add_genotype_to_background g b p a = (extend [(g, b, p)] a, inr tt).
Proof.
  intros Hne. unfold AncestryGraph.add_genotype_to_background.
  destruct (decide (g = b)); [contradiction | reflexivity].
Qed.

Lemma cluster_known_ok known a :
  Forall accepted known ->
  order_clusters_known known a = (extend (known_edges known) a, inr tt).
Proof.
  intros Hok. revert a. induction Hok as [|[identity parent] known [Hp Hi] Hok IH]; intros a.
  - simpl. now rewrite extend_nil.
  - simpl in Hp, Hi. unfold order_clusters_known in *. cbn [for_each]. unfold bind at 1. unfold bind at 1.
    rewrite (cluster_add_ok _ _ _ _ Hp). rewrite (cluster_add_ok _ _ _ _ Hi).
    rewrite IH, !extend_extend. reflexivity.
Qed.

Section ClusterSweep.

Variable calculate_additive_score : Trajectory -> Trajectory -> Q -> result Q.
Variable calculate_derivative_score : Trajectory -> Trajectory -> Q -> Q -> result Q.
Variable calculate_area_score : Trajectory -> Trajectory -> result Q.
Variables dlimit additive_cutoff derivative_cutoff : Q.
Variables additive derivative area : Trajectory -> Trajectory -> Q.
Variable t : Table.

Hypothesis components :
  components_on t calculate_additive_score calculate_derivative_score
    calculate_area_score dlimit additive_cutoff derivative_cutoff
    additive derivative area.

Local Abbreviation total_score := (sum_of additive derivative area).

Lemma cluster_inner_loop a (u : label) (ut : Trajectory) (rows : Table) :
  In ut (map snd t) ->
  (forall r, In r rows -> fst r <> u /\ In (snd r) (map snd t)) ->
  for_each rows (fun '(nested_label, nested_genotype) =>
      if decide (nested_label = u) then ret tt
      else
        let! score_additive :=
          lift (calculate_additive_score nested_genotype ut additive_cutoff) in
        let! score_derivative :=
          lift (calculate_derivative_score nested_genotype ut dlimit derivative_cutoff) in
        let! score_area := lift (calculate_area_score nested_genotype ut) in
        let total_score := (score_additive + score_derivative + score_area)%Q in
        AncestryGraph.add_genotype_to_background u nested_label total_score) a
  = (extend (map (fun r => (u, fst r, total_score (snd r) ut)) rows) a, inr tt).
Proof.
  intros Hut. revert a. induction rows as [|[n nt] rows IH]; intros a Hrows.
  - simpl. now rewrite extend_nil.
  - destruct (Hrows (n, nt) (or_introl eq_refl)) as [Hne Hnt]. simpl in Hne, Hnt.
    destruct (components nt ut Hnt Hut) as (Ha & Hd & Hr).
    cbn [for_each]. unfold bind at 1.
    destruct (decide (n = u)) as [|_]; [contradiction|].
    unfold bind at 1. unfold lift at 1. rewrite Ha.
    unfold bind at 1. unfold lift at 1. rewrite Hd.
    unfold bind at 1. unfold lift at 1. rewrite Hr.
    rewrite cluster_add_ok by congruence.
    rewrite IH by (intros r Hr'; apply Hrows; now right).
    rewrite extend_extend. reflexivity.
Qed.

Lemma cluster_sweep_from :
  NoDup (index t) ->
  forall n k a,
    (length t - k = n)%nat ->
    for_each (drop k t) (fun '(unnested_label, unnested_trajectory) =>
      let! sliced := lift (slice_to_label t unnested_label) in
      let test_table := rev sliced in
      for_each test_table (fun '(nested_label, nested_genotype) =>
        if decide (nested_label = unnested_label) then ret tt
        else
          let! score_additive :=
            lift (calculate_additive_score nested_genotype unnested_trajectory
                    additive_cutoff) in
          let! score_derivative :=
            lift (calculate_derivative_score nested_genotype unnested_trajectory
                    dlimit derivative_cutoff) in
          let! score_area :=
            lift (calculate_area_score nested_genotype unnested_trajectory) in
          let total_score := (score_additive + score_derivative + score_area)%Q in
          AncestryGraph.add_genotype_to_background
            unnested_label nested_label total_score)) a
    = (extend (map (pair_edge total_score) (flat_map (candidate_pairs t) (seq k n))) a,
       inr tt).
Proof.
  intros Hnd. induction n as [|n IH]; intros k a Hlen.
  - rewrite drop_ge by lia. simpl. now rewrite extend_nil.
  - destruct (lookup_lt_is_Some_2 t k) as [[u ut] Hk]; [lia|].
    rewrite (drop_S _ _ _ Hk). cbn [for_each]. unfold bind at 1. unfold bind at 1.
    unfold lift at 1. rewrite (slice_to_label_unique _ _ _ _ Hnd Hk).
    erewrite take_S_r by exact Hk. rewrite rev_app_distr. cbn [rev app for_each].
    unfold bind at 1. destruct (decide (u = u)) as [_|]; [|contradiction].
    unfold ret at 1.
    rewrite (cluster_inner_loop a u ut).
    + rewrite (IH (S k)) by lia.
      rewrite extend_extend. cbn [seq flat_map].
      rewrite !map_app, (candidate_pairs_take _ _ _ Hk), !map_map. reflexivity.
    + apply (In_snd _ _ _ Hk).
    + intros r Hr. apply in_rev, In_take in Hr. destruct Hr as (j & Hj & Hr).
      split.
      * apply (labels_differ t j k r (u, ut) Hnd Hr Hk). lia.
      * apply (In_snd _ _ _ Hr).
Qed.

Lemma order_clusters_ok known row0 :
  NoDup (index t) -> t !! 0%nat = Some row0 ->
  Forall accepted (items_or_empty known) ->
  order_clusters calculate_additive_score calculate_derivative_score
    calculate_area_score t dlimit additive_cutoff derivative_cutoff known
  = inr {| initial_background_label := fst row0;
           timepoints := t;
           confidence := known_edges (items_or_empty known)
                         ++ map (pair_edge total_score) (sweep_pairs t) |}.
Proof.
  intros Hnd H0 Hok. unfold order_clusters.
  assert (Hi : iloc0 t = inr row0).
  { destruct t; [discriminate | simpl in H0; injection H0 as ->; reflexivity]. }
  rewrite Hi. unfold order_clusters_body.
  unfold bind at 1. rewrite (cluster_known_ok _ _ Hok).
  unfold bind at 1. rewrite (cluster_sweep_from Hnd (length t - 1) 1) by reflexivity.
  rewrite extend_extend. fold (sweep_pairs t).
  set (a := extend _ _).
  assert (Hread : forall ls, (forall l, In l ls -> In l (index t)) ->
            for_each ls (fun genotype_label =>
              let! genotype_nests := get in
              let! candidate :=
                lift (AncestryGraph.get_highest_priority genotype_nests genotype_label) in
              ret tt) a = (a, inr tt)).
  { induction ls as [|l ls IH]; intros Hls; [reflexivity|].
    cbn [for_each]. unfold bind at 1. unfold bind at 1. unfold get at 1.
    unfold bind at 1. unfold lift at 1.
    destruct (swept_labels_readable t row0 total_score
                (known_edges (items_or_empty known)) l H0 (Hls l (or_introl eq_refl)))
      as [r Hr].
    change (AncestryGraph.get_highest_priority a l = inr r) in Hr. rewrite Hr.
    unfold ret at 1. apply IH. intros l' Hl'. apply Hls. now right. }
  rewrite Hread by auto. reflexivity.
Qed.

End ClusterSweep.

(** ** The order of the sweep *)

Lemma sweep_edges_no_loop f (t : Table) :
  NoDup (index t) ->
  Forall (fun e : Edge => fst (fst e) <> snd (fst e)) (map (pair_edge f) (sweep_pairs t)).
Proof.
  intros Hnd. apply Forall_forall. intros e He.
  apply list_elem_of_In, in_map_iff in He. destruct He as ([rj ri] & <- & Hp).
  unfold sweep_pairs in Hp. apply in_flat_map in Hp. destruct Hp as (i & Hi & Hp).
  apply in_seq in Hi.
  destruct (lookup_lt_is_Some_2 t i) as [r Hr]; [lia|].
  rewrite (candidate_pairs_take _ _ _ Hr) in Hp. apply in_map_iff in Hp.
  destruct Hp as (n & [= -> ->] & Hn). apply in_rev, In_take in Hn.
  destruct Hn as (j & Hj & Hn). simpl. intros Heq.
  apply (labels_differ t j i rj ri Hnd Hn Hr); [lia | now symmetry].
Qed.

(** C1: on a table with unique labels and a first row, the sweep of
    [LineageWorkflow.run] and of [order_clusters] records, after the injected
    edges, exactly the edges of [sweep_pairs]: the rows at positions 1, 2, ...
    in ascending order and, for the row at position [i], one edge for each of
    the rows at positions [i-1], ..., 0 in that descending order, never from
    a label to itself, with the pair's total score as priority; [run] also
    appends the score record of every pair, in the same order. *)
Theorem sweep_visits_candidates_in_order
    (score : Trajectory -> Trajectory -> ScoreRecord)
    (calculate_additive_score : Trajectory -> Trajectory -> Q -> result Q)
    (calculate_derivative_score : Trajectory -> Trajectory -> Q -> Q -> result Q)
    (calculate_area_score : Trajectory -> Trajectory -> result Q)
    (dl additive_cutoff derivative_cutoff : Q)
    (additive derivative area : Trajectory -> Trajectory -> Q)
    (t : Table) (known : option Items) (w : LineageWorkflow) (row0 : label * Trajectory) :
  NoDup (index t) ->
  t !! 0%nat = Some row0 ->
  scores_on t (scorer w) score ->
  components_on t calculate_additive_score calculate_derivative_score
    calculate_area_score dl additive_cutoff derivative_cutoff additive derivative area ->
  Forall accepted (items_or_empty known) ->
  run t known w
  = (recorded
       (known_edges (items_or_empty known) ++ map (pair_edge (total score)) (sweep_pairs t))
       (map (pair_record score) (sweep_pairs t))
       (set_genotype_nests (Some (AncestryGraph.new row0 t)) w),
     inr (Some {| initial_background_label := fst row0;
                  timepoints := t;
                  confidence := known_edges (items_or_empty known)
                                ++ map (pair_edge (total score)) (sweep_pairs t) |}))
  /\ order_clusters calculate_additive_score calculate_derivative_score
       calculate_area_score t dl additive_cutoff derivative_cutoff known
     = inr {| initial_background_label := fst row0;
              timepoints := t;
              confidence := known_edges (items_or_empty known)
                            ++ map (pair_edge (sum_of additive derivative area))
                                   (sweep_pairs t) |}
  /\ (forall i ri, t !! i = Some ri ->
        candidate_pairs t i = map (fun nested => (nested, ri)) (rev (take i t)))
  /\ (forall f, Forall (fun e : Edge => fst (fst e) <> snd (fst e))
                  (map (pair_edge f) (sweep_pairs t))).
Proof.
  intros Hnd H0 Hsc Hco Hok. repeat split.
  - apply (run_ok score t known w row0 Hnd H0 Hsc Hok).
  - now apply order_clusters_ok.
  - intros i ri. apply candidate_pairs_take.
  - intros f. now apply sweep_edges_no_loop.
Qed.

Lemma example_flat_scored :
  scores_on Example.table (scorer Example.flat_workflow) Example.flat_record.
Proof. intros a b _ _. reflexivity. Defined.

Lemma example_table_unique : NoDup (index Example.table).
Proof. apply (bool_decide_unpack _). vm_compute. exact I. Defined.

Lemma example_scored : scores_on Example.table (scorer Example.workflow) Example.record.
Proof. intros a b _ _. reflexivity. Defined.

Lemma example_components :
  components_on Example.table (fun a b _ => inr (Example.additive a b))
    (fun a b _ _ => inr (Example.derivative a b)) (fun a b => inr (Example.area a b))
    0.03 0.05 0.05 Example.additive Example.derivative Example.area.
Proof. intros a b _ _. repeat split. Defined.

(** The sweep on the example table, with the manual ancestry
    {genotype-1: genotype-2}. *)
Lemma sweep_visits_candidates_in_order_witness :
  exists a c,
    snd (run Example.table (Some [("genotype-1", "genotype-2")]) Example.workflow)
      = inr (Some a)
    /\ confidence a
       = [("genotype-2", "genotype-0", 100%Q); ("genotype-1", "genotype-2", 100%Q);
          ("genotype-1", "genotype-0", (1 + 0 + - 1)%Q);
          ("genotype-2", "genotype-1", (1 + 0 + - 0)%Q);
          ("genotype-2", "genotype-0", (1 + 0 + - 1)%Q)]
    /\ order_clusters (fun a b _ => inr (Example.additive a b))
         (fun a b _ _ => inr (Example.derivative a b)) (fun a b => inr (Example.area a b))
         Example.table 0.03 0.05 0.05 (Some [("genotype-1", "genotype-2")]) = inr c
    /\ confidence c = confidence a.
Proof.
  destruct (sweep_visits_candidates_in_order Example.record
              (fun a b _ => inr (Example.additive a b))
              (fun a b _ _ => inr (Example.derivative a b))
              (fun a b => inr (Example.area a b))
              0.03 0.05 0.05 Example.additive Example.derivative Example.area
              Example.table (Some [("genotype-1", "genotype-2")]) Example.workflow
              ("genotype-0", [(0%Z, 1%Q); (1%Z, 1%Q)])
              example_table_unique eq_refl example_scored example_components)
    as (Hrun & Hoc & _).
  - repeat constructor; simpl; discriminate.
  - eexists. eexists. rewrite Hrun, Hoc. repeat split.
Defined.

(** ** Injection of the manual ancestry, entry by entry *)

Lemma add_background_refused w a g p :
  genotype_nests w = Some a ->
  on_genotype_nests (AncestryGraph.add_genotype_to_background g g p) w
  = (w, inl (InvalidReference g)).
Proof.
  intros Ha. unfold on_genotype_nests, AncestryGraph.add_genotype_to_background.
  rewrite Ha. destruct (decide (g = g)); [|contradiction].
  unfold raise. now rewrite (set_genotype_nests_same _ _ Ha).
Qed.

Lemma add_known_lineages_app k1 k2 w :
  add_known_lineages (k1 ++ k2) w = (add_known_lineages k1 >> add_known_lineages k2) w.
Proof. apply for_each_app. Qed.

(** C4, as amended: every entry (genotype, parent) of the manual ancestry
    whose parent is not ['genotype-0'] and differs from the genotype records
    exactly two edges, both at priority 100, (parent, 'genotype-0') before
    (genotype, parent), in [add_known_lineages] and in [order_clusters]
    alike; an entry whose parent is ['genotype-0'] records nothing and
    raises the invalid-reference error, and an entry (g, g) records
    (g, 'genotype-0') alone before raising it. *)
Theorem injection_records_two_edges (known rest : Items) (identity parent : label)
    (w : LineageWorkflow) (a : Ancestry) :
  genotype_nests w = Some a ->
  Forall accepted known ->
  add_known_lineages known w = (recorded (known_edges known) [] w, inr tt)
  /\ order_clusters_known known a = (extend (known_edges known) a, inr tt)
  /\ add_known_lineages (known ++ (identity, ancestral_genotype) :: rest) w
     = (recorded (known_edges known) [] w, inl (InvalidReference ancestral_genotype))
  /\ (parent <> ancestral_genotype ->
      add_known_lineages (known ++ (parent, parent) :: rest) w
      = (recorded (known_edges known ++ [(parent, ancestral_genotype, 100%Q)]) [] w,
         inl (InvalidReference parent))).
Proof.
  intros Ha Hok.
  pose proof (add_known_lineages_ok known w a Hok Ha) as Hknown.
  pose proof (recorded_nests (known_edges known) [] w a Ha) as Ha'.
  repeat split.
  - exact Hknown.
  - now apply cluster_known_ok.
  - rewrite add_known_lineages_app. unfold bind at 1. rewrite Hknown.
    unfold add_known_lineages. cbn [for_each]. unfold bind at 1. unfold bind at 1.
    now rewrite (add_background_refused _ _ _ _ Ha').
  - intros Hp. rewrite add_known_lineages_app. unfold bind at 1. rewrite Hknown.
    unfold add_known_lineages. cbn [for_each]. unfold bind at 1. unfold bind at 1.
    rewrite (add_background_ok _ _ _ _ _ Ha' Hp).
    rewrite (add_background_refused _ (extend [(parent, ancestral_genotype, 100%Q)]
                                         (extend (known_edges known) a)));
      [| apply recorded_nests, Ha'].
    now rewrite recorded_recorded.
Qed.

(** The injection of the entry (genotype-2, genotype-1). *)
Lemma injection_records_two_edges_witness :
  add_known_lineages [("genotype-2", "genotype-1")]
    (set_genotype_nests
       (Some (AncestryGraph.new ("genotype-0", []) Example.table)) Example.workflow)
  = (recorded [("genotype-1", "genotype-0", 100%Q); ("genotype-2", "genotype-1", 100%Q)] []
       (set_genotype_nests
          (Some (AncestryGraph.new ("genotype-0", []) Example.table)) Example.workflow),
     inr tt).
Proof.
  apply (injection_records_two_edges [("genotype-2", "genotype-1")] [] "x" "y"
           (set_genotype_nests
              (Some (AncestryGraph.new ("genotype-0", []) Example.table)) Example.workflow)
           (AncestryGraph.new ("genotype-0", []) Example.table) eq_refl).
  repeat constructor; simpl; discriminate.
Defined.

(** C4 as stated fails: the entry (genotype-1, genotype-0) is refused at its
    first edge, and no edge is recorded for it; the entry
    (genotype-1, genotype-1) is refused at its second edge, after one edge
    was recorded. *)
Lemma injection_refuses_root_parent :
  let w := set_genotype_nests
             (Some (AncestryGraph.new ("genotype-0", []) Example.table)) Example.workflow in
  let out := add_known_lineages [("genotype-1", "genotype-0")] w in
  let out' := add_known_lineages [("genotype-1", "genotype-1")] w in
  snd out = inl (InvalidReference "genotype-0")
  /\ (confidence <$> genotype_nests (fst out)) = Some []
  /\ snd out' = inl (InvalidReference "genotype-1")
  /\ (confidence <$> genotype_nests (fst out'))
     = Some [("genotype-1", "genotype-0", 100%Q)].
Proof. repeat split. Qed.

(** ** An empty table *)

(** C7: on an empty table [run] raises the error of [iloc[0]] (the
    missing-root error) and leaves the workflow as it was: no ancestry graph
    is created, no edge and no score record is recorded, and no mapping is
    returned; [order_clusters] raises the same error. *)
Theorem empty_table_raises
    (known : option Items) (w : LineageWorkflow)
    (calculate_additive_score : Trajectory -> Trajectory -> Q -> result Q)
    (calculate_derivative_score : Trajectory -> Trajectory -> Q -> Q -> result Q)
    (calculate_area_score : Trajectory -> Trajectory -> result Q)
    (dl additive_cutoff derivative_cutoff : Q) :
  run [] known w = (w, inl IndexError)
  /\ order_clusters calculate_additive_score calculate_derivative_score
       calculate_area_score [] dl additive_cutoff derivative_cutoff known
     = inl IndexError.
Proof. split; reflexivity. Qed.

(** ** The diagnostic log only grows *)

Lemma grows_refl w : grows w w.
Proof. exists []. now rewrite app_nil_r. Qed.

Lemma grows_trans w1 w2 w3 : grows w1 w2 -> grows w2 w3 -> grows w1 w3.
Proof.
  intros [r1 H1] [r2 H2]. exists (r1 ++ r2). now rewrite H2, H1, app_assoc.
Qed.

Lemma appends_bind {A B} (m : M LineageWorkflow A) (k : A -> M LineageWorkflow B) :
  appends m -> (forall a, appends (k a)) -> appends (bind m k).
Proof.
  intros Hm Hk w. unfold bind. specialize (Hm w).
  destruct (m w) as [w1 [e|a]]; simpl in *; [exact Hm|].
  eapply grows_trans; [exact Hm | apply Hk].
Qed.

Lemma appends_lift {A} (r : result A) : appends (lift r).
Proof. intros w. apply grows_refl. Qed.

Lemma appends_ret {A} (a : A) : appends (ret a).
Proof. intros w. apply grows_refl. Qed.

Lemma appends_get : appends get.
Proof. intros w. apply grows_refl. Qed.

Lemma appends_for_each {A} (l : list A) (body : A -> M LineageWorkflow unit) :
  (forall x, appends (body x)) -> appends (for_each l body).
Proof.
  intros Hbody. induction l as [|x l IH]; simpl.
  - apply appends_ret.
  - apply appends_bind; [apply Hbody | intros _; exact IH].
Qed.

Lemma appends_on_genotype_nests {A} (m : M Ancestry A) : appends (on_genotype_nests m).
Proof.
  intros w. unfold on_genotype_nests.
  destruct (genotype_nests w) as [a|]; [|apply grows_refl].
  destruct (m a) as [a' r]. exists []. simpl. now rewrite app_nil_r.
Qed.

Lemma appends_set_genotype_nests n : appends (modify (set_genotype_nests n)).
Proof. intros w. exists []. simpl. now rewrite app_nil_r. Qed.

Lemma appends_append_score_record r : appends (modify (append_score_record r)).
Proof. intros w. exists [r]. reflexivity. Qed.

Lemma appends_run t known : appends (run t known).
Proof.
  unfold run. apply appends_bind; [apply appends_lift | intros row0].
  apply appends_bind; [apply appends_set_genotype_nests | intros _].
  apply appends_bind.
  { apply appends_for_each. intros [identity parent].
    apply appends_bind; [apply appends_on_genotype_nests | intros _].
    apply appends_on_genotype_nests. }
  intros _. apply appends_bind.
  { apply appends_for_each. intros [u ut].
    apply appends_bind; [apply appends_lift | intros sliced].
    apply appends_for_each. intros [n nt].
    destruct (decide (n = u)); [apply appends_ret|].
    apply appends_bind; [apply appends_get | intros self].
    apply appends_bind; [apply appends_lift | intros score_data].
    apply appends_bind; [apply appends_append_score_record | intros _].
    apply appends_on_genotype_nests. }
  intros _. apply appends_bind.
  { apply appends_for_each. intros l.
    apply appends_bind; [apply appends_on_genotype_nests | intros _].
    apply appends_ret. }
  intros _. apply appends_bind; [apply appends_get | intros self; apply appends_ret].
Qed.

(** C10: [run] never clears the log.  Whatever the table and whether or not
    the run raises, the score records the workflow held are a prefix of those
    it holds afterwards; the constructor creates the log empty; and after two
    successful runs on one workflow the log holds the first run's records
    followed by the second's, while [genotype_nests] holds the second run's
    graph alone, built on a fresh [Ancestry]. *)
Theorem score_records_accumulate
    (Score : Q -> Q -> Q -> Scorer) (dl fl pv : Q) (dbg : bool)
    (score : Trajectory -> Trajectory -> ScoreRecord)
    (t1 t2 : Table) (known1 known2 : option Items) (w : LineageWorkflow)
    (row1 row2 : label * Trajectory) :
  NoDup (index t1) -> t1 !! 0%nat = Some row1 -> scores_on t1 (scorer w) score ->
  Forall accepted (items_or_empty known1) ->
  NoDup (index t2) -> t2 !! 0%nat = Some row2 -> scores_on t2 (scorer w) score ->
  Forall accepted (items_or_empty known2) ->
  (forall t known w0, grows w0 (fst (run t known w0)))
  /\ score_records (LineageWorkflow_init Score dl fl pv dbg) = []
  /\ genotype_nests (LineageWorkflow_init Score dl fl pv dbg) = None
  /\ (let w1 := fst (run t1 known1 w) in
      let w2 := fst (run t2 known2 w1) in
      score_records w1 = score_records w ++ map (pair_record score) (sweep_pairs t1)
      /\ genotype_nests w1 = Some (run_graph score t1 known1 row1)
      /\ score_records w2
         = (score_records w ++ map (pair_record score) (sweep_pairs t1))
           ++ map (pair_record score) (sweep_pairs t2)
      /\ genotype_nests w2 = Some (run_graph score t2 known2 row2)
      /\ snd (run t2 known2 w1) = inr (Some (run_graph score t2 known2 row2))).
Proof.
  intros Hnd1 H1 Hsc1 Hok1 Hnd2 H2 Hsc2 Hok2.
  split; [intros t known w0; apply appends_run|].
  split; [reflexivity|]. split; [reflexivity|].
  cbv zeta. rewrite (run_ok score t1 known1 w row1 Hnd1 H1 Hsc1 Hok1). cbn [fst].
  set (w1 := recorded _ _ _).
  assert (Hsc2' : scores_on t2 (scorer w1) score) by exact Hsc2.
  rewrite (run_ok score t2 known2 w1 row2 Hnd2 H2 Hsc2' Hok2). cbn [fst snd].
  repeat split.
Qed.

(** Two runs in a row on the example workflow. *)
Lemma score_records_accumulate_witness :
  let w1 := fst (run Example.table None Example.workflow) in
  let w2 := fst (run Example.table (Some [("genotype-2", "genotype-1")]) w1) in
  score_records w2 = score_records w1 ++ score_records w1
  /\ length (score_records w1) = 3%nat
  /\ (confidence <$> genotype_nests w2)
     = Some [("genotype-1", "genotype-0", 100%Q); ("genotype-2", "genotype-1", 100%Q);
             ("genotype-1", "genotype-0", (1 + 0 + - 1)%Q);
             ("genotype-2", "genotype-1", (1 + 0 + - 0)%Q);
             ("genotype-2", "genotype-0", (1 + 0 + - 1)%Q)].
Proof.
  destruct (score_records_accumulate Example.Score 0.03 0.97 0.05 true Example.record
              Example.table Example.table None (Some [("genotype-2", "genotype-1")])
              Example.workflow
              ("genotype-0", [(0%Z, 1%Q); (1%Z, 1%Q)])
              ("genotype-0", [(0%Z, 1%Q); (1%Z, 1%Q)])
              example_table_unique eq_refl example_scored (List.Forall_nil _)
              example_table_unique eq_refl example_scored)
    as (_ & _ & _ & H1 & _ & H2 & H3 & _).
  - repeat constructor; simpl; discriminate.
  - cbv zeta. rewrite H2, H3, H1. repeat split.
Defined.

(** ** The highest priority *)

Lemma best_decomposes pre c mid rest :
  Forall (fun x : label * Q => (snd x < snd c)%Q) pre ->
  Forall (fun x : label * Q => (snd x <= snd c)%Q) mid ->
  exists pre' post,
    pre ++ c :: mid ++ rest = pre' ++ AncestryGraph.best c rest :: post
    /\ Forall (fun x : label * Q => (snd x < snd (AncestryGraph.best c rest))%Q) pre'
    /\ Forall (fun x : label * Q => (snd x <= snd (AncestryGraph.best c rest))%Q) post.
Proof.
  revert pre c mid. induction rest as [|x rest IH]; intros pre c mid Hpre Hmid.
  - exists pre, mid. rewrite app_nil_r. auto.
  - simpl. destruct (Qlt_le_dec (snd c) (snd x)) as [Hlt|Hle].
    + destruct (IH (pre ++ c :: mid) x []) as (pre' & post & Heq & H1 & H2).
      * apply Forall_app. split.
        -- eapply Forall_impl; [exact Hpre|]. intros y Hy. simpl in Hy.
           eapply Qlt_trans; eassumption.
        -- constructor; [exact Hlt|].
           eapply Forall_impl; [exact Hmid|]. intros y Hy. simpl in Hy.
           eapply Qle_lt_trans; eassumption.
      * constructor.
      * exists pre', post. rewrite <- Heq, <- app_assoc. simpl. auto.
    + destruct (IH pre c (mid ++ [x])) as (pre' & post & Heq & H1 & H2).
      * exact Hpre.
      * apply Forall_app. split; [exact Hmid | constructor; [exact Hle | constructor]].
      * exists pre', post. rewrite <- Heq, <- app_assoc. simpl. auto.
Qed.

(** What [get_highest_priority] returns when candidates were recorded: a
    candidate before which every priority is strictly smaller and after which
    none is greater. *)
Lemma get_highest_priority_spec a g :
  AncestryGraph.candidates a g <> [] ->
  exists c p pre post,
    AncestryGraph.get_highest_priority a g = inr (Some c)
    /\ AncestryGraph.candidates a g = pre ++ (c, p) :: post
    /\ Forall (fun x : label * Q => (snd x < p)%Q) pre
    /\ Forall (fun x : label * Q => (snd x <= p)%Q) post.
Proof.
  intros Hne. unfold AncestryGraph.get_highest_priority.
  destruct (AncestryGraph.candidates a g) as [|c rest]; [contradiction|].
  destruct (best_decomposes [] c [] rest) as (pre & post & Heq & H1 & H2);
    [constructor | constructor |].
  simpl in Heq. destruct (AncestryGraph.best c rest) as [b p] eqn:Hb.
  exists b, p, pre, post. simpl in *. auto.
Qed.

(** ** The candidates a run records for one genotype *)

Lemma filter_all {A} (P : A -> Prop) `{forall x, Decision (P x)} (l : list A) :
  (forall x, In x l -> P x) -> filter P l = l.
Proof.
  induction l as [|x l IH]; intros Hl; [reflexivity|].
  rewrite filter_cons. destruct (decide (P x)) as [_|Hn].
  - f_equal. apply IH. intros y Hy. apply Hl. now right.
  - destruct Hn. apply Hl. now left.
Qed.

Lemma filter_none {A} (P : A -> Prop) `{forall x, Decision (P x)} (l : list A) :
  (forall x, In x l -> ~ P x) -> filter P l = [].
Proof.
  induction l as [|x l IH]; intros Hl; [reflexivity|].
  rewrite filter_cons. destruct (decide (P x)) as [Hp|_].
  - destruct (Hl x (or_introl eq_refl) Hp).
  - apply IH. intros y Hy. apply Hl. now right.
Qed.

Lemma block_labels f (t : Table) k rk e :
  t !! k = Some rk -> In e (map (pair_edge f) (candidate_pairs t k)) -> fst (fst e) = fst rk.
Proof.
  intros Hk He. rewrite (candidate_pairs_take _ _ _ Hk), map_map in He.
  apply in_map_iff in He. destruct He as (n & <- & _). reflexivity.
Qed.

Lemma sweep_blocks_filter f (t : Table) i ri :
  NoDup (index t) -> t !! i = Some ri ->
  forall n k, (k + n <= length t)%nat ->
    filter (fun e : Edge => fst (fst e) = fst ri)
           (map (pair_edge f) (flat_map (candidate_pairs t) (seq k n)))
    = if decide (k <= i < k + n)%nat then map (pair_edge f) (candidate_pairs t i) else [].
Proof.
  intros Hnd Hi. induction n as [|n IH]; intros k Hk.
  - simpl. destruct (decide _); [lia | reflexivity].
  - cbn [seq flat_map]. rewrite map_app, filter_app, IH by lia.
    destruct (lookup_lt_is_Some_2 t k) as [rk Hrk]; [lia|].
    destruct (decide (k = i)) as [->|Hne].
    + rewrite filter_all.
      * destruct (decide (S i <= i < S i + n)%nat); [lia|].
        destruct (decide (i <= i < i + S n)%nat); [|lia]. now rewrite app_nil_r.
      * intros e He. rewrite (block_labels f t i rk e Hrk He). congruence.
    + rewrite filter_none.
      * cbn [app].
        destruct (decide (S k <= i < S k + n)%nat), (decide (k <= i < k + S n)%nat);
          try reflexivity; lia.
      * intros e He Heq. rewrite (block_labels f t k rk e Hrk He) in Heq.
        apply (labels_differ t k i rk ri Hnd Hrk Hi Hne Heq).
Qed.

Lemma sweep_candidates f (t : Table) i ri :
  NoDup (index t) -> t !! i = Some ri ->
  filter (fun e : Edge => fst (fst e) = fst ri) (map (pair_edge f) (sweep_pairs t))
  = map (fun r : label * Trajectory => (fst ri, fst r, f (snd r) (snd ri))) (rev (take i t)).
Proof.
  intros Hnd Hi. unfold sweep_pairs.
  pose proof (lookup_lt_Some _ _ _ Hi) as Hlt.
  rewrite (sweep_blocks_filter f t i ri Hnd Hi) by lia.
  destruct i as [|i].
  - destruct (decide _); [lia|]. reflexivity.
  - destruct (decide _); [|lia].
    rewrite (candidate_pairs_take _ _ _ Hi), map_map. reflexivity.
Qed.

Lemma run_graph_candidates score (t : Table) known row0 i ri :
  NoDup (index t) -> t !! i = Some ri ->
  AncestryGraph.candidates (run_graph score t known row0) (fst ri)
  = edge_candidates (known_edges (items_or_empty known)) (fst ri)
    ++ map (fun r : label * Trajectory => (fst r, total score (snd r) (snd ri)))
           (rev (take i t)).
Proof.
  intros Hnd Hi. unfold AncestryGraph.candidates, run_graph, run_edges, edge_candidates.
  simpl. rewrite filter_app, map_app, (sweep_candidates _ t i ri Hnd Hi), map_map.
  reflexivity.
Qed.

(** ** Which row the sweep makes the parent *)

Lemma rev_take_lookup {A B} (f : A -> B) (t : list A) i d :
  (i <= length t)%nat -> (d < i)%nat ->
  map f (rev (take i t)) !! d = f <$> (t !! (i - S d)%nat).
Proof.
  intros Hi Hd. change (map f (rev (take i t))) with (f <$> rev (take i t)).
  rewrite list_lookup_fmap, rev_alt. change (rev_append (take i t) []) with (reverse (take i t)).
  rewrite reverse_lookup by (rewrite length_take; lia).
  rewrite length_take, Nat.min_l by lia.
  rewrite lookup_take_lt by lia. reflexivity.
Qed.

(** In the candidates of the row at position [i], a first maximum is the
    nearest row of maximal priority. *)
Lemma nearest_maximum (f : label * Trajectory -> label * Q) (t : Table) i c p pre post :
  (i <= length t)%nat ->
  map f (rev (take i t)) = pre ++ (c, p) :: post ->
  Forall (fun x : label * Q => (snd x < p)%Q) pre ->
  Forall (fun x : label * Q => (snd x <= p)%Q) post ->
  exists j r,
    (j < i)%nat /\ t !! j = Some r /\ f r = (c, p)
    /\ (forall j' r', (j < j' < i)%nat -> t !! j' = Some r' -> (snd (f r') < p)%Q)
    /\ (forall j' r', (j' < i)%nat -> t !! j' = Some r' -> (snd (f r') <= p)%Q).
Proof.
  intros Hi Heq Hpre Hpost.
  assert (Hlen : length (map f (rev (take i t))) = i).
  { rewrite length_map, length_rev, length_take. lia. }
  assert (Hd : (length pre < i)%nat).
  { rewrite <- Hlen, Heq, length_app. simpl. lia. }
  assert (Hpivot : map f (rev (take i t)) !! length pre = Some (c, p)).
  { rewrite Heq. apply list_lookup_middle. reflexivity. }
  rewrite (rev_take_lookup f t i _ Hi Hd) in Hpivot.
  destruct (t !! (i - S (length pre))%nat) as [r|] eqn:Hr; [|discriminate].
  injection Hpivot as Hfr.
  assert (Hat : forall j' r', (j' < i)%nat -> t !! j' = Some r' ->
            map f (rev (take i t)) !! (i - S j')%nat = Some (f r')).
  { intros j' r' Hj' Hr'. rewrite (rev_take_lookup f t i _ Hi) by lia.
    replace (i - S (i - S j'))%nat with j' by lia. now rewrite Hr'. }
  exists (i - S (length pre))%nat, r.
  split; [lia|]. split; [exact Hr|]. split; [assumption|]. split.
  - intros j' r' Hj' Hr'. pose proof (Hat j' r' (proj2 Hj') Hr') as Hl.
    rewrite Heq, lookup_app_l in Hl by lia.
    rewrite Forall_forall in Hpre. apply (Hpre (f r')).
    eapply list_elem_of_lookup_2, Hl.
  - intros j' r' Hj' Hr'. pose proof (Hat j' r' Hj' Hr') as Hl.
    rewrite Heq in Hl. apply list_elem_of_lookup_2 in Hl.
    apply elem_of_app in Hl. destruct Hl as [Hl|Hl].
    + rewrite Forall_forall in Hpre. apply Qlt_le_weak, (Hpre _ Hl).
    + apply elem_of_cons in Hl. destruct Hl as [->|Hl]; [apply Qle_refl|].
      rewrite Forall_forall in Hpost. apply (Hpost _ Hl).
Qed.

(** A genotype at position [i >= 1] that the manual ancestry does not
    mention gets as parent the nearest of the rows before it whose total
    score is maximal. *)
Lemma sweep_selects_nearest score (t : Table) known row0 i ri :
  NoDup (index t) -> t !! i = Some ri -> (1 <= i)%nat ->
  edge_candidates (known_edges (items_or_empty known)) (fst ri) = [] ->
  exists j r,
    (j < i)%nat /\ t !! j = Some r
    /\ AncestryGraph.get_highest_priority (run_graph score t known row0) (fst ri)
       = inr (Some (fst r))
    /\ (forall j' r', (j < j' < i)%nat -> t !! j' = Some r' ->
          (total score (snd r') (snd ri) < total score (snd r) (snd ri))%Q)
    /\ (forall j' r', (j' < i)%nat -> t !! j' = Some r' ->
          (total score (snd r') (snd ri) <= total score (snd r) (snd ri))%Q).
Proof.
  intros Hnd Hi Hpos Hfree.
  pose proof (lookup_lt_Some _ _ _ Hi) as Hlt.
  pose proof (run_graph_candidates score t known row0 i ri Hnd Hi) as Hc.
  rewrite Hfree in Hc. simpl in Hc.
  destruct (get_highest_priority_spec (run_graph score t known row0) (fst ri))
    as (c & p & pre & post & Hget & Hsplit & Hpre & Hpost).
  { rewrite Hc. intros Hnil. apply (f_equal length) in Hnil.
    rewrite length_map, length_rev, length_take in Hnil. simpl in Hnil. lia. }
  rewrite Hc in Hsplit.
  destruct (nearest_maximum _ t i c p pre post (Nat.lt_le_incl _ _ Hlt) Hsplit Hpre Hpost)
    as (j & r & Hj & Hr & Hfr & Hnear & Hmax).
  injection Hfr as <- <-.
  exists j, r. split; [assumption|]. split; [assumption|]. split; [assumption|]. split.
  - intros j' r' Hj' Hr'. apply (Hnear j' r' Hj' Hr').
  - intros j' r' Hj' Hr'. apply (Hmax j' r' Hj' Hr').
Qed.

(** C6: when a genotype has candidates, [get_highest_priority] returns a
    candidate of maximal priority, and the earliest recorded of those: every
    candidate recorded before it has a strictly smaller priority and none
    recorded after it has a greater one.  Consequently, in a run without
    manual ancestry, of two rows before position [i] with equal total score
    the one at the lower position, scanned later, is never selected, and the
    one scanned earlier is selected when the other rows score strictly
    less. *)
Theorem highest_priority_is_earliest_maximum :
  (forall a g,
     AncestryGraph.candidates a g <> [] ->
     exists c p pre post,
       AncestryGraph.get_highest_priority a g = inr (Some c)
       /\ AncestryGraph.candidates a g = pre ++ (c, p) :: post
       /\ Forall (fun x : label * Q => (snd x < p)%Q) pre
       /\ Forall (fun x : label * Q => (snd x <= p)%Q) post)
  /\ (forall score (t : Table) w row0 i j1 j2 ri r1 r2,
        NoDup (index t) -> t !! 0%nat = Some row0 -> scores_on t (scorer w) score ->
        t !! i = Some ri -> t !! j1 = Some r1 -> t !! j2 = Some r2 ->
        (j2 < j1 < i)%nat ->
        (total score (snd r1) (snd ri) == total score (snd r2) (snd ri))%Q ->
        exists a,
          snd (run t None w) = inr (Some a)
          /\ (exists c, AncestryGraph.get_highest_priority a (fst ri) = inr (Some c)
                        /\ c <> fst r2)
          /\ ((forall j r, (j < i)%nat -> j <> j1 -> j <> j2 -> t !! j = Some r ->
                 (total score (snd r) (snd ri) < total score (snd r1) (snd ri))%Q) ->
              AncestryGraph.get_highest_priority a (fst ri) = inr (Some (fst r1)))).
Proof.
  split; [exact get_highest_priority_spec|].
  intros score t w row0 i j1 j2 ri r1 r2 Hnd H0 Hsc Hi H1 H2 Hlt Htie.
  exists (run_graph score t None row0).
  split; [rewrite (run_ok score t None w row0 Hnd H0 Hsc); [reflexivity | constructor]|].
  destruct (sweep_selects_nearest score t None row0 i ri Hnd Hi)
    as (j & r & Hj & Hr & Hget & Hnear & Hmax); [lia | reflexivity |].
  assert (Hnot2 : j <> j2).
  { intros ->. rewrite H2 in Hr. injection Hr as <-.
    pose proof (Hnear j1 r1 Hlt H1) as Hcontra.
    rewrite Htie in Hcontra. apply (Qlt_irrefl _ Hcontra). }
  split.
  - exists (fst r). split; [exact Hget|].
    apply (labels_differ t j j2 r r2 Hnd Hr H2 Hnot2).
  - intros Hdom. destruct (decide (j = j1)) as [->|Hnot1].
    + rewrite H1 in Hr. injection Hr as <-. exact Hget.
    + exfalso. pose proof (Hdom j r Hj Hnot1 Hnot2 Hr) as Hless.
      apply (Qlt_not_le _ _ Hless). apply (Hmax j1 r1); [lia | exact H1].
Qed.

(** When every pair ties, genotype-2 gets the nearest row, genotype-1. *)
Lemma highest_priority_is_earliest_maximum_witness :
  exists a,
    snd (run Example.table None Example.flat_workflow) = inr (Some a)
    /\ AncestryGraph.candidates a "genotype-2" = [("genotype-1", 0%Q); ("genotype-0", 0%Q)]
    /\ AncestryGraph.get_highest_priority a "genotype-2" = inr (Some "genotype-1").
Proof.
  destruct (proj2 highest_priority_is_earliest_maximum Example.flat_record Example.table
              Example.flat_workflow ("genotype-0", [(0%Z, 1%Q); (1%Z, 1%Q)])
              2%nat 1%nat 0%nat
              ("genotype-2", [(0%Z, 0%Q); (1%Z, 0.25%Q)])
              ("genotype-1", [(0%Z, 0%Q); (1%Z, 0.5%Q)])
              ("genotype-0", [(0%Z, 1%Q); (1%Z, 1%Q)])
              example_table_unique eq_refl example_flat_scored eq_refl eq_refl eq_refl)
    as (a & Hrun & _ & Hsel).
  - lia.
  - reflexivity.
  - exists a. split; [exact Hrun|]. split.
    + vm_compute in Hrun. injection Hrun as <-. reflexivity.
    + apply Hsel. intros j r Hj H1 H2. lia.
Defined.

(** ** An unknown clustering method *)

Section WorkflowOptions.

Variables Env Info GenotypeMembers GenotypeInfo LinkageMatrix Clusters
  OrderClusterParameters PairwiseCalculationCache : Type.
Variable from_matlab_genotype : GenotypeOptions.
Variable from_matlab_sort : SortOptions.
Variable from_matlab_clustering : OrderClusterParameters.
Variable from_breakpoints : Q -> Q -> OrderClusterParameters.

Lemma parse_invalid_method (program_options : ProgramOptions) :
  method program_options ∉ ACCEPTED_METHODS ->
  snd (parse_workflow_options OrderClusterParameters from_matlab_genotype from_matlab_sort
         from_matlab_clustering from_breakpoints program_options)
  = inl (ValueError (invalid_method_message (method program_options))).
Proof.
  intros Hm. unfold parse_workflow_options.
  destruct (fixed_breakpoint program_options); destruct (mode _); cbn [method set_fixed_breakpoint];
    (destruct (decide _) as [Hin|_]; [contradiction | reflexivity]).
Qed.

End WorkflowOptions.

(** C8: when the requested method is not one of [ACCEPTED_METHODS],
    [parse_workflow_options] raises the ValueError whose message names the
    method, and [workflow] raises it after printing "parsing options..." and
    nothing else: no stage that imports, sorts or nests the genotypes has
    run, whatever those stages are, and nothing but the console has
    changed. *)
Theorem invalid_method_raises_before_sweep
    (Env Info GenotypeMembers GenotypeInfo LinkageMatrix Clusters
       OrderClusterParameters PairwiseCalculationCache : Type)
    (from_matlab_genotype : GenotypeOptions) (from_matlab_sort : SortOptions)
    (from_matlab_clustering : OrderClusterParameters)
    (from_breakpoints : Q -> Q -> OrderClusterParameters)
    (import_genotype_table : string -> string -> M (World Env) (Table * GenotypeInfo))
    (members : GenotypeInfo -> GenotypeMembers)
    (import_trajectory_table : string -> string -> M (World Env) (Table * Info))
    (generate_genotypes :
       Table -> GenotypeOptions -> M (World Env) (Table * GenotypeMembers * LinkageMatrix))
    (filters_workflow :
       Table -> GenotypeOptions -> list Q -> bool
       -> M (World Env) (Table * Table * GenotypeMembers))
    (sort_genotypes : Table -> SortOptions -> M (World Env) Table)
    (nest : Table -> GenotypeMembers -> OrderClusterParameters -> M (World Env) Clusters)
    (cache : PairwiseCalculationCache)
    (repr_options : ProgramOptions -> string)
    (generate_output :
       WorkflowData Info GenotypeMembers Clusters OrderClusterParameters
         PairwiseCalculationCache
       -> string -> Q -> bool -> bool -> bool -> M (World Env) unit)
    (input_filename output_folder : string) (program_options : ProgramOptions)
    (world : World Env) :
  method program_options ∉ ACCEPTED_METHODS ->
  snd (parse_workflow_options OrderClusterParameters from_matlab_genotype from_matlab_sort
         from_matlab_clustering from_breakpoints program_options)
  = inl (ValueError (invalid_method_message (method program_options)))
  /\ workflow Env Info GenotypeMembers GenotypeInfo LinkageMatrix Clusters
       OrderClusterParameters PairwiseCalculationCache
       from_matlab_genotype from_matlab_sort from_matlab_clustering from_breakpoints
       import_genotype_table members import_trajectory_table generate_genotypes
       filters_workflow sort_genotypes nest cache repr_options generate_output
       input_filename output_folder program_options world
     = ({| stdout := stdout world ++ ["parsing options..."]; env := env world |},
        inl (ValueError (invalid_method_message (method program_options)))).
Proof.
  intros Hm.
  pose proof (parse_invalid_method OrderClusterParameters from_matlab_genotype
                from_matlab_sort from_matlab_clustering from_breakpoints
                program_options Hm) as Hparse.
  split; [exact Hparse|].
  unfold workflow. unfold bind at 1. unfold print at 1. unfold modify at 1.
  unfold bind at 1. unfold lift at 1. rewrite Hparse. reflexivity.
Qed.

(** The workflow asked for the method "twostep". *)
Lemma invalid_method_raises_before_sweep_witness :
  workflow unit unit unit unit unit unit unit unit
    (mkGenotypeOptions 0.03 None 0.05 0.10 None "matlab")
    (mkSortOptions 0.03 None 0.15 []) tt (fun _ _ => tt)
    (fun _ _ => ret ([], tt)) (fun _ => tt) (fun _ _ => ret ([], tt))
    (fun _ _ => ret ([], tt, tt)) (fun _ _ _ _ => ret ([], [], tt))
    (fun t _ => ret t) (fun _ _ _ => ret tt) tt (fun _ => "options")
    (fun _ _ _ _ _ _ => ret tt)
    "input.xlsx" "output" example_options {| stdout := []; env := tt |}
  = ({| stdout := ["parsing options..."]; env := tt |},
     inl (ValueError
            "twostep is not a valid option for the --method option. Expected one of ['matlab', 'hierarchy']")).
Proof.
  apply (invalid_method_raises_before_sweep unit unit unit unit unit unit unit unit).
  apply (bool_decide_unpack _). vm_compute. exact I.
Defined.

(** ** Too few shared timepoints *)

(** C9: on two aligned trajectories that share fewer than two timepoints
    above the detection limit, [score_pair] returns the record whose four
    scores are zero, without raising; and a run whose scorer it is, on a
    table of aligned rows with unique labels, goes through every pair of the
    sweep, recording for such a pair the all-zero record and an edge of
    priority zero like for any other pair. *)
Theorem insufficient_data_scores_zero
    (additive_component : Q -> list (Z * Q * Q) -> Q)
    (derivative_component : Q -> Q -> list (Z * Q * Q) -> Q)
    (area_component : list (Z * Q * Q) -> Q)
    (detection_limit fixed_limit additive_cutoff derivative_cutoff : Q) :
  (forall background descendant : Trajectory,
     PairScorer.timepoints_of background = PairScorer.timepoints_of descendant ->
     (length (PairScorer.shared_timepoints detection_limit background descendant) < 2)%nat ->
     PairScorer.score_pair additive_component derivative_component area_component
       detection_limit fixed_limit additive_cutoff derivative_cutoff background descendant
     = inr {| additiveScore := 0; derivativeScore := 0; areaScore := 0; totalScore := 0 |})
  /\ (forall (t : Table) known w row0,
        NoDup (index t) -> t !! 0%nat = Some row0 ->
        (forall a b, In a (map snd t) -> In b (map snd t) ->
           PairScorer.timepoints_of a = PairScorer.timepoints_of b) ->
        scorer w = PairScorer.score_pair additive_component derivative_component
                     area_component detection_limit fixed_limit additive_cutoff
                     derivative_cutoff ->
        Forall accepted (items_or_empty known) ->
        exists score,
          (forall a b, In a (map snd t) -> In b (map snd t) ->
             (length (PairScorer.shared_timepoints detection_limit a b) < 2)%nat ->
             score a b = PairScorer.zero_scores)
          /\ run t known w
             = (recorded (run_edges score t known)
                  (map (pair_record score) (sweep_pairs t))
                  (set_genotype_nests (Some (AncestryGraph.new row0 t)) w),
                inr (Some (run_graph score t known row0)))).
Proof.
  assert (Hzero : forall background descendant : Trajectory,
     PairScorer.timepoints_of background = PairScorer.timepoints_of descendant ->
     (length (PairScorer.shared_timepoints detection_limit background descendant) < 2)%nat ->
     PairScorer.score_pair additive_component derivative_component area_component
       detection_limit fixed_limit additive_cutoff derivative_cutoff background descendant
     = inr PairScorer.zero_scores).
  { intros bg desc Hal Hfew. unfold PairScorer.score_pair.
    destruct (decide _) as [_|Hn]; [|contradiction].
    destruct (decide _) as [_|Hn]; [reflexivity | contradiction]. }
  split; [exact Hzero|].
  intros t known w row0 Hnd H0 Hal Hw Hok.
  set (sp := PairScorer.score_pair additive_component derivative_component area_component
               detection_limit fixed_limit additive_cutoff derivative_cutoff) in *.
  exists (fun a b => match sp a b with inr r => r | inl _ => PairScorer.zero_scores end).
  split.
  - intros a b Ha Hb Hfew. now rewrite (Hzero a b (Hal a b Ha Hb) Hfew).
  - apply run_ok; try assumption.
    intros a b Ha Hb. rewrite Hw. unfold sp, PairScorer.score_pair.
    destruct (decide _) as [_|Hn]; [|destruct (Hn (Hal a b Ha Hb))].
    destruct (decide _); reflexivity.
Qed.

(** Two rows of the example table share one timepoint above 0.03. *)
Lemma insufficient_data_scores_zero_witness :
  PairScorer.score_pair (fun _ _ => 2%Q) (fun _ _ _ => 1%Q) (fun _ => 0.5%Q)
    0.03 0.97 0.15 0.01
    [(0%Z, 1%Q); (1%Z, 1%Q)] [(0%Z, 0%Q); (1%Z, 0.5%Q)]
  = inr {| additiveScore := 0; derivativeScore := 0; areaScore := 0; totalScore := 0 |}
  /\ PairScorer.shared_timepoints 0.03 [(0%Z, 1%Q); (1%Z, 1%Q)] [(0%Z, 0%Q); (1%Z, 0.5%Q)]
     = [(1%Z, 1%Q, 0.5%Q)].
Proof.
  split; [|reflexivity].
  apply (proj1 (insufficient_data_scores_zero (fun _ _ => 2%Q) (fun _ _ _ => 1%Q)
                  (fun _ => 0.5%Q) 0.03 0.97 0.15 0.01)).
  - reflexivity.
  - vm_compute. lia.
Defined.

(** ** Scorers whose totals stay below the priority of an override *)





(** ** Genotypes pinned by the manual ancestry *)








(** ** The flattened mapping *)


(** ** Following the mapping to the root *)

Section Forest.

Variable m : gmap label label.
Variable root : label.
Variable labels : list label.
Variable rank : label -> nat.

Hypothesis root_has_no_parent : m !! root = None.
Hypothesis parent_ranks_lower :
  forall g, In g labels -> g <> root ->
    exists p, m !! g = Some p /\ In p labels /\ (rank p < rank g)%nat.





End Forest.

(** ** A run that completes accepted every entry *)




(** ** The mapping of a run is a forest *)












(** ** The maximum of a list of deltas *)


(** ** What a run leaves alone *)

Section Kept.

Variable R : LineageWorkflow -> LineageWorkflow -> Prop.
Hypothesis R_refl : forall w, R w w.
Hypothesis R_trans : forall w1 w2 w3, R w1 w2 -> R w2 w3 -> R w1 w3.

Lemma keeps_ret {A} (a : A) : keeps R (ret a).
Proof. intros w. apply R_refl. Qed.

Lemma keeps_lift {A} (r : result A) : keeps R (lift r).
Proof. intros w. apply R_refl. Qed.

Lemma keeps_get : keeps R get.
Proof. intros w. apply R_refl. Qed.

Lemma keeps_bind {A B} (m : M LineageWorkflow A) (k : A -> M LineageWorkflow B) :
  keeps R m -> (forall a, keeps R (k a)) -> keeps R (bind m k).
Proof.
  intros Hm Hk w. unfold bind. specialize (Hm w).
  destruct (m w) as [w1 [e|a]]; simpl in *; [exact Hm|].
  eapply R_trans; [exact Hm | apply Hk].
Qed.

Lemma keeps_for_each {A} (l : list A) (body : A -> M LineageWorkflow unit) :
  (forall x, keeps R (body x)) -> keeps R (for_each l body).
Proof.
  intros Hbody. induction l as [|x l IH]; simpl.
  - apply keeps_ret.
  - apply keeps_bind; [apply Hbody | intros _; exact IH].
Qed.

(** The three loops of [run], given what [R] needs of the two ways in which
    they change the workflow. *)
Lemma keeps_loops (t : Table) known :
  (forall r, keeps R (modify (append_score_record r))) ->
  (forall g b p, keeps R (on_genotype_nests (AncestryGraph.add_genotype_to_background g b p))) ->
  (forall l, keeps R (on_genotype_nests
                        (fun a => (a, AncestryGraph.get_highest_priority a l)))) ->
  keeps R (add_known_lineages known >> sweep t >> show_ancestry t).
Proof.
  intros Happend Hadd Hshow.
  apply keeps_bind.
  { apply keeps_for_each. intros [identity parent].
    apply keeps_bind; [apply Hadd | intros _; apply Hadd]. }
  intros _. apply keeps_bind.
  { apply keeps_for_each. intros [u ut].
    apply keeps_bind; [apply keeps_lift | intros sliced].
    apply keeps_for_each. intros [n nt].
    destruct (decide (n = u)); [apply keeps_ret|].
    apply keeps_bind; [apply keeps_get | intros self].
    apply keeps_bind; [apply keeps_lift | intros score_data].
    apply keeps_bind; [apply Happend | intros _; apply Hadd]. }
  intros _. apply keeps_for_each. intros l.
  apply keeps_bind; [apply Hshow | intros _; apply keeps_ret].
Qed.

End Kept.

Lemma same_settings_refl w : same_settings w w.
Proof. repeat split. Qed.

Lemma same_settings_trans w1 w2 w3 :
  same_settings w1 w2 -> same_settings w2 w3 -> same_settings w1 w3.
Proof.
  intros (H1 & H2 & H3 & H4 & H5) (K1 & K2 & K3 & K4 & K5).
  repeat split; congruence.
Qed.

Lemma same_settings_on_genotype_nests {A} (m : M Ancestry A) :
  keeps same_settings (on_genotype_nests m).
Proof.
  intros w. unfold on_genotype_nests.
  destruct (genotype_nests w) as [a|]; [|apply same_settings_refl].
  destruct (m a) as [a' r]. repeat split.
Qed.

Lemma same_graph_refl w : same_graph w w.
Proof. intros a Ha. exists a. auto. Qed.

Lemma same_graph_trans w1 w2 w3 : same_graph w1 w2 -> same_graph w2 w3 -> same_graph w1 w3.
Proof.
  intros H12 H23 a Ha. destruct (H12 a Ha) as (a2 & Ha2 & Hl & Ht).
  destruct (H23 a2 Ha2) as (a3 & Ha3 & Hl' & Ht'). exists a3.
  repeat split; congruence.
Qed.

Lemma same_graph_on_genotype_nests {A} (m : M Ancestry A) :
  (forall a, initial_background_label (fst (m a)) = initial_background_label a
             /\ timepoints (fst (m a)) = timepoints a) ->
  keeps same_graph (on_genotype_nests m).
Proof.
  intros Hm w a Ha. unfold on_genotype_nests. rewrite Ha.
  specialize (Hm a). destruct (m a) as [a' r]. simpl in *. exists a'. tauto.
Qed.

Lemma same_graph_loops (t : Table) known :
  keeps same_graph (add_known_lineages known >> sweep t >> show_ancestry t).
Proof.
  apply keeps_loops.
  - apply same_graph_refl.
  - apply same_graph_trans.
  - intros r w a Ha. exists a. auto.
  - intros g b p. apply same_graph_on_genotype_nests. intros a.
    unfold AncestryGraph.add_genotype_to_background.
    destruct (decide (g = b)); split; reflexivity.
  - intros l. apply same_graph_on_genotype_nests. intros a. split; reflexivity.
Qed.

(** X2: whatever the table, the manual ancestry and the scorer, and whether
    it raises or not, [run] changes nothing of the workflow but its graph
    and its log: the limits, the p-value, the debug flag and the scorer are
    those the constructor assigned. *)
Theorem run_keeps_settings (t : Table) (known : option Items) (w : LineageWorkflow) :
  same_settings w (fst (run t known w)).
Proof.
  revert w. change (keeps same_settings (run t known)). unfold run.
  apply keeps_bind; [apply same_settings_trans | apply keeps_lift, same_settings_refl |].
  intros row0.
  apply keeps_bind; [apply same_settings_trans | intros w; repeat split |].
  intros _.
  pose proof (keeps_loops same_settings same_settings_refl same_settings_trans t
                (items_or_empty known)) as Hloops.
  assert (Hl : keeps same_settings
                 (add_known_lineages (items_or_empty known) >> sweep t >> show_ancestry t)).
  { apply Hloops.
    - intros r w. repeat split.
    - intros g b p. apply same_settings_on_genotype_nests.
    - intros l. apply same_settings_on_genotype_nests. }
  intros w. specialize (Hl w). unfold bind in *.
  destruct (add_known_lineages (items_or_empty known) w) as [w1 [e|[]]]; [exact Hl|].
  destruct (sweep t w1) as [w2 [e|[]]]; [exact Hl|].
  destruct (show_ancestry t w2) as [w3 [e|[]]]; exact Hl.
Qed.

(** X3: a run that returns, on any table and with any scorer, returns a
    graph and not [None]: the very graph it leaves in [genotype_nests], whose
    root is the label of the first row and whose table is the table it was
    given. *)
Theorem run_returns_its_graph (t : Table) (known : option Items)
    (w w' : LineageWorkflow) (r : option Ancestry) :
  run t known w = (w', inr r) ->
  exists row0 a,
    t !! 0%nat = Some row0
    /\ r = Some a
    /\ genotype_nests w' = Some a
    /\ initial_background_label a = fst row0
    /\ timepoints a = t.
Proof.
  unfold run. unfold bind at 1. unfold lift at 1.
  destruct t as [|row0 t']; [discriminate|]. cbn [iloc0].
  set (t := row0 :: t'). unfold bind at 1. unfold modify at 1.
  set (w0 := set_genotype_nests (Some (AncestryGraph.new row0 t)) w).
  pose proof (same_graph_loops t (items_or_empty known) w0 (AncestryGraph.new row0 t) eq_refl)
    as (a & Ha & Hl & Ht).
  unfold bind in *.
  destruct (add_known_lineages (items_or_empty known) w0) as [w1 [e|[]]]; [discriminate|].
  destruct (sweep t w1) as [w2 [e|[]]]; [discriminate|].
  destruct (show_ancestry t w2) as [w3 [e|[]]]; [discriminate|].
  unfold get, ret. intros [= <- <-]. simpl in Ha.
  exists row0, a. repeat split; assumption.
Qed.

(** A run of the example workflow returns the graph it keeps. *)
Lemma run_returns_its_graph_witness :
  exists a,
    snd (run Example.table None Example.workflow) = inr (Some a)
    /\ genotype_nests (fst (run Example.table None Example.workflow)) = Some a
    /\ initial_background_label a = "genotype-0".
Proof.
  assert (Hrun : run Example.table None Example.workflow
                 = (fst (run Example.table None Example.workflow),
                    inr (Some (run_graph Example.record Example.table None
                                 ("genotype-0", [(0%Z, 1%Q); (1%Z, 1%Q)])))))
    by (vm_compute; reflexivity).
  destruct (run_returns_its_graph Example.table None Example.workflow _ _ Hrun)
    as (row0 & a & H0 & Hr & Hn & Hl & _).
  exists a. injection H0 as <-. split; [rewrite Hrun, <- Hr; reflexivity|].
  split; assumption.
Defined.

(** ** The sweep as one loop over the pairs *)

Lemma for_each_ext {S A} (l : list A) (b1 b2 : A -> M S unit) :
  (forall x, In x l -> forall s, b1 x s = b2 x s) ->
  forall s, for_each l b1 s = for_each l b2 s.
Proof.
  induction l as [|x l IH]; intros Hb s; [reflexivity|].
  simpl. unfold bind. rewrite (Hb x (or_introl eq_refl) s).
  destruct (b2 x s) as [s1 [e|[]]]; [reflexivity|].
  apply IH. intros y Hy. apply Hb. now right.
Qed.

Lemma for_each_map {S A B} (f : A -> B) (l : list A) (body : B -> M S unit) s :
  for_each (map f l) body s = for_each l (fun x => body (f x)) s.
Proof.
  revert s. induction l as [|x l IH]; intros s; [reflexivity|].
  simpl. unfold bind. destruct (body (f x) s) as [s1 [e|[]]]; [reflexivity | apply IH].
Qed.

Lemma bind_ext {S A B} (m1 m2 : M S A) (k1 k2 : A -> M S B) s :
  m1 s = m2 s -> (forall a s', k1 a s' = k2 a s') -> bind m1 k1 s = bind m2 k2 s.
Proof.
  intros Hm Hk. unfold bind. rewrite Hm. destruct (m2 s) as [s1 [e|a]]; [reflexivity | apply Hk].
Qed.

(** On a table with unique labels the two nested loops of [run] are one
    loop over [sweep_pairs]. *)
Lemma sweep_flat (t : Table) :
  NoDup (index t) ->
  forall w, sweep t w = for_each (sweep_pairs t) score_and_record w.
Proof.
  intros Hnd. unfold sweep, sweep_pairs.
  assert (Hgen : forall n k w, (length t - k = n)%nat ->
    for_each (drop k t) (fun '(unnested_label, unnested_trajectory) =>
      let! sliced := lift (slice_to_label t unnested_label) in
      let test_table := rev sliced in
      for_each test_table (fun '(nested_label, nested_genotype) =>
        if decide (nested_label = unnested_label) then ret tt
        else
          let! self := get in
          let! score_data := lift (scorer self nested_genotype unnested_trajectory) in
          modify (append_score_record score_data) >>
          on_genotype_nests
            (AncestryGraph.add_genotype_to_background
               unnested_label nested_label (totalScore score_data)))) w
    = for_each (flat_map (candidate_pairs t) (seq k n)) score_and_record w).
  { induction n as [|n IH]; intros k w Hlen.
    - rewrite drop_ge by lia. reflexivity.
    - destruct (lookup_lt_is_Some_2 t k) as [[u ut] Hk]; [lia|].
      rewrite (drop_S _ _ _ Hk). cbn [seq flat_map for_each].
      rewrite for_each_app. apply bind_ext; [|intros [] s'; apply IH; lia].
      unfold bind at 1. unfold lift at 1. rewrite (slice_to_label_unique _ _ _ _ Hnd Hk).
      erewrite take_S_r by exact Hk. rewrite rev_app_distr. cbn [rev app for_each].
      unfold bind at 1. destruct (decide (u = u)) as [_|]; [|contradiction].
      unfold ret at 1.
      rewrite (candidate_pairs_take _ _ _ Hk), for_each_map.
      apply for_each_ext. intros [n' nt] Hr s.
      apply in_rev, In_take in Hr. destruct Hr as (j & Hj & Hr).
      pose proof (labels_differ t j k (n', nt) (u, ut) Hnd Hr Hk) as Hne. simpl in Hne.
      destruct (decide (n' = u)) as [Heq|_]; [destruct Hne; [lia | exact Heq]|].
      reflexivity. }
  intros w. apply (Hgen (length t - 1)%nat 1%nat w eq_refl).
Qed.

(** A pair whose rows are labelled differently and on which the scorer
    answers. *)
Lemma score_and_record_ok score w a pair :
  genotype_nests w = Some a ->
  fst (fst pair) <> fst (snd pair) ->
  scorer w (snd (fst pair)) (snd (snd pair)) = inr (score (snd (fst pair)) (snd (snd pair))) ->
  score_and_record pair w
  = (recorded [pair_edge (total score) pair] [pair_record score pair] w, inr tt).
Proof.
  intros Ha Hne Hsc. unfold score_and_record.
  unfold bind at 1. unfold get at 1. unfold bind at 1. unfold lift at 1. rewrite Hsc.
  unfold bind at 1. unfold modify at 1.
  assert (Ha' : genotype_nests (append_score_record
                                  (score (snd (fst pair)) (snd (snd pair))) w) = Some a)
    by exact Ha.
  rewrite (add_background_ok _ _ _ _ _ Ha') by congruence.
  now rewrite recorded_append.
Qed.

Lemma score_and_record_fails w pair e :
  scorer w (snd (fst pair)) (snd (snd pair)) = inl e ->
  score_and_record pair w = (w, inl e).
Proof.
  intros Hsc. unfold score_and_record.
  unfold bind at 1. unfold get at 1. unfold bind at 1. unfold lift at 1. now rewrite Hsc.
Qed.

Lemma pairs_recorded score (sc : Scorer) pairs :
  Forall (fun pair : (label * Trajectory) * (label * Trajectory) =>
            fst (fst pair) <> fst (snd pair)
            /\ sc (snd (fst pair)) (snd (snd pair))
               = inr (score (snd (fst pair)) (snd (snd pair)))) pairs ->
  forall w a, scorer w = sc -> genotype_nests w = Some a ->
  for_each pairs score_and_record w
  = (recorded (map (pair_edge (total score)) pairs) (map (pair_record score) pairs) w, inr tt).
Proof.
  induction 1 as [|pair pairs [Hne Hsc] _ IH]; intros w a Hw Ha.
  - simpl. now rewrite recorded_nil.
  - cbn [for_each]. unfold bind at 1. rewrite <- Hw in Hsc.
    rewrite (score_and_record_ok score w a pair Ha Hne Hsc).
    rewrite (IH _ (extend [pair_edge (total score) pair] a)).
    + now rewrite recorded_recorded.
    + exact Hw.
    + apply recorded_nests, Ha.
Qed.

Lemma sweep_pairs_labels_differ (t : Table) :
  NoDup (index t) ->
  Forall (fun pair : (label * Trajectory) * (label * Trajectory) =>
            fst (fst pair) <> fst (snd pair)) (sweep_pairs t).
Proof.
  intros Hnd. pose proof (sweep_edges_no_loop (fun _ _ => 0%Q) t Hnd) as H.
  rewrite Forall_forall in H. apply Forall_forall. intros pair Hp Heq.
  apply (H (pair_edge (fun _ _ => 0%Q) pair)).
  - apply list_elem_of_In, in_map, list_elem_of_In, Hp.
  - simpl. now symmetry.
Qed.

(** X4: when the scorer raises on a pair of the sweep, on a table with
    unique labels, [run] raises the same error at once; the workflow keeps
    what was recorded until then: the new graph with the injected edges and
    the edges of the pairs visited before, and their score records in the
    log. *)
Theorem scorer_failure_aborts_run
    (score : Trajectory -> Trajectory -> ScoreRecord) (t : Table) (known : option Items)
    (w : LineageWorkflow) (row0 : label * Trajectory)
    (pre post : list ((label * Trajectory) * (label * Trajectory)))
    (pair : (label * Trajectory) * (label * Trajectory)) (e : error) :
  NoDup (index t) ->
  t !! 0%nat = Some row0 ->
  Forall accepted (items_or_empty known) ->
  sweep_pairs t = pre ++ pair :: post ->
  Forall (fun p : (label * Trajectory) * (label * Trajectory) =>
            scorer w (snd (fst p)) (snd (snd p)) = inr (score (snd (fst p)) (snd (snd p))))
         pre ->
  scorer w (snd (fst pair)) (snd (snd pair)) = inl e ->
  run t known w
  = (recorded (known_edges (items_or_empty known) ++ map (pair_edge (total score)) pre)
       (map (pair_record score) pre)
       (set_genotype_nests (Some (AncestryGraph.new row0 t)) w),
     inl e).
Proof.
  intros Hnd H0 Hok Hsplit Hpre Hfail. unfold run.
  assert (Hi : iloc0 t = inr row0).
  { destruct t; [discriminate | simpl in H0; injection H0 as ->; reflexivity]. }
  unfold bind at 1. unfold lift at 1. rewrite Hi.
  unfold bind at 1. unfold modify at 1.
  set (w0 := set_genotype_nests (Some (AncestryGraph.new row0 t)) w).
  assert (Ha0 : genotype_nests w0 = Some (AncestryGraph.new row0 t)) by reflexivity.
  unfold bind at 1. rewrite (add_known_lineages_ok _ _ _ Hok Ha0).
  unfold bind at 1. rewrite (sweep_flat t Hnd), Hsplit, for_each_app.
  unfold bind at 1.
  pose proof (sweep_pairs_labels_differ t Hnd) as Hdiff. rewrite Hsplit in Hdiff.
  apply Forall_app in Hdiff. destruct Hdiff as [Hdiff _].
  erewrite (pairs_recorded score (scorer w) pre).
  - cbn [for_each]. unfold bind at 1.
    rewrite (score_and_record_fails _ pair e); [|exact Hfail].
    now rewrite recorded_recorded.
  - rewrite Forall_forall in *. intros p Hp. split; [apply Hdiff | apply Hpre]; exact Hp.
  - reflexivity.
  - apply recorded_nests, Ha0.
Qed.

(** ** How many pairs a run scores *)

Lemma candidate_pairs_length (t : Table) i ri :
  t !! i = Some ri -> length (candidate_pairs t i) = i.
Proof.
  intros Hi. rewrite (candidate_pairs_take _ _ _ Hi), length_map, length_rev, length_take.
  pose proof (lookup_lt_Some _ _ _ Hi). lia.
Qed.

Lemma sweep_blocks_length (t : Table) n k :
  (k + n <= length t)%nat ->
  (2 * length (flat_map (candidate_pairs t) (seq k n)) + n = n * (2 * k + n))%nat.
Proof.
  revert k. induction n as [|n IH]; intros k Hk; [reflexivity|].
  cbn [seq flat_map]. rewrite length_app.
  destruct (lookup_lt_is_Some_2 t k) as [rk Hrk]; [lia|].
  rewrite (candidate_pairs_length t k rk Hrk).
  specialize (IH (S k)). nia.
Qed.

Lemma sweep_pairs_length (t : Table) :
  (2 * length (sweep_pairs t) = length t * (length t - 1))%nat.
Proof.
  unfold sweep_pairs. destruct t as [|r t]; [reflexivity|].
  pose proof (sweep_blocks_length (r :: t) (length (r :: t) - 1) 1) as H.
  simpl length in *. rewrite Nat.sub_0_r in *. specialize (H ltac:(lia)). nia.
Qed.

(** X5: a run that goes through, on a table of [n] rows with unique labels,
    calls the scorer on [n (n - 1) / 2] pairs: it appends that many score
    records to the log, and its graph holds that many edges besides the two
    for each entry of the manual ancestry. *)
Theorem run_scores_every_pair_once
    (score : Trajectory -> Trajectory -> ScoreRecord) (t : Table) (known : option Items)
    (w : LineageWorkflow) (row0 : label * Trajectory) :
  NoDup (index t) ->
  t !! 0%nat = Some row0 ->
  scores_on t (scorer w) score ->
  Forall accepted (items_or_empty known) ->
  exists a,
    snd (run t known w) = inr (Some a)
    /\ (2 * length (score_records (fst (run t known w)))
        = 2 * length (score_records w) + length t * (length t - 1))%nat
    /\ (2 * length (confidence a)
        = 4 * length (items_or_empty known) + length t * (length t - 1))%nat.
Proof.
  intros Hnd H0 Hsc Hok. rewrite (run_ok score t known w row0 Hnd H0 Hsc Hok).
  exists (run_graph score t known row0). split; [reflexivity|].
  pose proof (sweep_pairs_length t) as Hlen. cbn [fst]. split.
  - unfold recorded. cbn [score_records set_genotype_nests].
    rewrite length_app, length_map. lia.
  - unfold run_graph, run_edges. cbn [confidence].
    rewrite length_app, length_map.
    assert (Hk : length (known_edges (items_or_empty known))
                 = (2 * length (items_or_empty known))%nat).
    { generalize (items_or_empty known) as k. induction k as [|[i p] k IH]; [reflexivity|].
      change (known_edges ((i, p) :: k))
        with ([(p, ancestral_genotype, 100%Q); (i, p, 100%Q)] ++ known_edges k).
      rewrite length_app, IH. simpl. lia. }
    lia.
Qed.

(** The scorer of [FailingExample] raises on the second pair of the sweep:
    one edge and one record are kept. *)
Lemma scorer_failure_aborts_run_witness :
  snd (run Example.table None FailingExample.workflow) = inl DimensionMismatch
  /\ (confidence <$> genotype_nests (fst (run Example.table None FailingExample.workflow)))
     = Some [("genotype-1", "genotype-0", 0%Q)]
  /\ length (score_records (fst (run Example.table None FailingExample.workflow))) = 1%nat.
Proof.
  rewrite (scorer_failure_aborts_run Example.flat_record Example.table None
             FailingExample.workflow ("genotype-0", [(0%Z, 1%Q); (1%Z, 1%Q)])
             [(("genotype-0", [(0%Z, 1%Q); (1%Z, 1%Q)]),
               ("genotype-1", [(0%Z, 0%Q); (1%Z, 0.5%Q)]))]
             [(("genotype-0", [(0%Z, 1%Q); (1%Z, 1%Q)]),
               ("genotype-2", [(0%Z, 0%Q); (1%Z, 0.25%Q)]))]
             (("genotype-1", [(0%Z, 0%Q); (1%Z, 0.5%Q)]),
              ("genotype-2", [(0%Z, 0%Q); (1%Z, 0.25%Q)]))
             DimensionMismatch example_table_unique eq_refl (List.Forall_nil _) eq_refl).
  - repeat split.
  - repeat constructor.
  - reflexivity.
Defined.

(** The example table has three rows: three pairs are scored. *)
Lemma run_scores_every_pair_once_witness :
  length (score_records (fst (run Example.table None Example.workflow))) = 3%nat.
Proof.
  destruct (run_scores_every_pair_once Example.record Example.table None Example.workflow
              ("genotype-0", [(0%Z, 1%Q); (1%Z, 1%Q)])
              example_table_unique eq_refl example_scored (List.Forall_nil _))
    as (a & _ & Hlen & _).
  simpl length in Hlen at 2 3 4. lia.
Defined.

(** ** A label on rows that are not adjacent *)

Lemma first_loc_take l ls f :
  first_loc l ls = Some f -> ~ In l (take f ls) /\ (f < length ls)%nat.
Proof.
  revert f. induction ls as [|x ls IH]; intros f; simpl; [discriminate|].
  destruct (decide (x = l)) as [->|Hne].
  - intros [= <-]. simpl. split; [tauto | lia].
  - destruct (first_loc l ls) as [f0|]; simpl; [|discriminate].
    intros [= <-]. destruct (IH f0 eq_refl) as [Hno Hlt]. simpl.
    split; [intros [?|?]; [congruence | tauto] | lia].
Qed.

Lemma last_loc_drop l ls la :
  last_loc l ls = Some la -> ~ In l (drop (S la) ls) /\ (la < length ls)%nat.
Proof.
  revert la. induction ls as [|x ls IH]; intros la; simpl; [discriminate|].
  destruct (last_loc l ls) as [la0|] eqn:Hl.
  - intros [= <-]. destruct (IH la0 eq_refl) as [Hno Hlt]. split; [exact Hno | lia].
  - destruct (decide (x = l)); [|discriminate]. intros [= <-].
    split; [|lia]. rewrite drop_0. intros Hin.
    clear IH. induction ls as [|y ls IHl]; [destruct Hin|].
    simpl in Hl. destruct (last_loc l ls); [discriminate|].
    destruct (decide (y = l)); [discriminate|].
    destruct Hin as [?|Hin]; [congruence | now apply IHl].
Qed.

Lemma first_loc_present l ls : In l ls -> exists f, first_loc l ls = Some f.
Proof.
  induction ls as [|x ls IH]; intros Hin; [destruct Hin|]. simpl.
  destruct (decide (x = l)); [eauto|].
  destruct Hin as [?|Hin]; [congruence|]. destruct (IH Hin) as [f ->]. simpl. eauto.
Qed.

Lemma last_loc_present l ls : In l ls -> exists la, last_loc l ls = Some la.
Proof.
  induction ls as [|x ls IH]; intros Hin; [destruct Hin|]. simpl.
  destruct (last_loc l ls); [eauto|].
  destruct (decide (x = l)); [eauto|].
  destruct Hin as [?|Hin]; [congruence|]. destruct (IH Hin) as [la Hla]. discriminate.
Qed.

Lemma occurrences_app l (l1 l2 : list label) :
  occurrences l (l1 ++ l2) = (occurrences l l1 + occurrences l l2)%nat.
Proof. unfold occurrences. now rewrite filter_app, length_app. Qed.

Lemma occurrences_other l (ls : list label) x :
  In x ls -> x <> l -> (occurrences l ls < length ls)%nat.
Proof.
  unfold occurrences. induction ls as [|y ls IH]; intros Hin Hne; [destruct Hin|].
  rewrite filter_cons. pose proof (length_filter (fun z => z = l) ls) as Hle.
  destruct Hin as [->|Hin].
  - destruct (decide (x = l)); [contradiction|]. simpl. lia.
  - specialize (IH Hin Hne). destruct (decide (y = l)); simpl; lia.
Qed.

(** A label that labels two rows with a row of another label between them
    cannot end a slice. *)
Lemma slice_to_label_apart (t : Table) l l' i k j :
  index t !! i = Some l -> index t !! k = Some l' -> index t !! j = Some l ->
  (i < k < j)%nat -> l' <> l ->
  slice_to_label t l = inl (KeyError l).
Proof.
  intros Hi Hk Hj Hikj Hne. unfold slice_to_label.
  destruct (first_loc_present l (index t) (lookup_In _ _ _ Hi)) as [f Hf].
  destruct (last_loc_present l (index t) (lookup_In _ _ _ Hi)) as [la Hla].
  rewrite Hf, Hla.
  destruct (first_loc_take _ _ _ Hf) as [Hbefore Hflt].
  destruct (last_loc_drop _ _ _ Hla) as [Hafter Hlalt].
  assert (Hfi : (f <= i)%nat).
  { destruct (Nat.le_gt_cases f i) as [?|Hlt]; [assumption|]. destruct Hbefore.
    apply (lookup_In _ i). rewrite lookup_take_lt by lia. exact Hi. }
  assert (Hjla : (j <= la)%nat).
  { destruct (Nat.le_gt_cases j la) as [?|Hlt]; [assumption|]. destruct Hafter.
    apply (lookup_In _ (j - S la)). rewrite lookup_drop.
    replace (S la + (j - S la))%nat with j by lia. exact Hj. }
  destruct (decide _) as [Hocc|_]; [exfalso | reflexivity].
  rewrite <- (take_drop f (index t)) in Hocc at 1.
  rewrite <- (take_drop (S la - f) (drop f (index t))) in Hocc.
  rewrite !occurrences_app, drop_drop in Hocc.
  replace (f + (S la - f))%nat with (S la) in Hocc by lia.
  rewrite (occurrences_absent _ _ Hbefore), (occurrences_absent _ _ Hafter) in Hocc.
  assert (Hmid : (occurrences l (take (S la - f) (drop f (index t))) < S la - f)%nat).
  { eapply Nat.lt_le_trans.
    - apply (occurrences_other l _ l'); [|exact Hne].
      apply (lookup_In _ (k - f)). rewrite lookup_take_lt by lia. rewrite lookup_drop.
      replace (f + (k - f))%nat with k by lia. exact Hk.
    - rewrite length_take. lia. }
  lia.
Qed.

Lemma for_each_returned {S A} (l : list A) (body : A -> M S unit) s s' x :
  for_each l body s = (s', inr tt) -> In x l -> exists s0, snd (body x s0) = inr tt.
Proof.
  revert s. induction l as [|y l IH]; intros s Hrun Hin; [destruct Hin|].
  simpl in Hrun. unfold bind in Hrun.
  destruct (body y s) as [s1 [e|[]]] eqn:Hy; [discriminate|].
  destruct Hin as [->|Hin]; [exists s; now rewrite Hy | eapply IH; eassumption].
Qed.

(** X6: a table in which one label labels two rows that are not adjacent
    (a row with another label lies between them) is refused: slicing the
    table up to that label raises KeyError, so [run] and [order_clusters]
    raise whatever the scorer and the manual ancestry are, and return no
    graph. *)
Theorem separated_duplicate_labels_raise
    (t : Table) (l l' : label) (i k j : nat) (known : option Items) (w : LineageWorkflow)
    (calculate_additive_score : Trajectory -> Trajectory -> Q -> result Q)
    (calculate_derivative_score : Trajectory -> Trajectory -> Q -> Q -> result Q)
    (calculate_area_score : Trajectory -> Trajectory -> result Q)
    (dl additive_cutoff derivative_cutoff : Q) :
  index t !! i = Some l -> index t !! k = Some l' -> index t !! j = Some l ->
  (i < k < j)%nat -> l' <> l ->
  slice_to_label t l = inl (KeyError l)
  /\ (exists e, snd (run t known w) = inl e)
  /\ (exists e, order_clusters calculate_additive_score calculate_derivative_score
                  calculate_area_score t dl additive_cutoff derivative_cutoff known = inl e).
Proof.
  intros Hi Hk Hj Hikj Hne.
  pose proof (slice_to_label_apart t l l' i k j Hi Hk Hj Hikj Hne) as Hslice.
  split; [exact Hslice|].
  assert (Hrow : exists tr, In (l, tr) (drop 1 t)).
  { unfold index in Hj. change (map fst t) with (fst <$> t) in Hj.
    rewrite list_lookup_fmap in Hj.
    destruct (t !! j) as [[l0 tr]|] eqn:Hr; [|discriminate]. injection Hj as ->.
    exists tr. apply (lookup_In _ (j - 1)). rewrite lookup_drop.
    replace (1 + (j - 1))%nat with j by lia. exact Hr. }
  destruct Hrow as [tr Hrow]. split.
  - unfold run. unfold bind at 1. unfold lift at 1.
    destruct (iloc0 t) as [e|row0]; [eauto|].
    unfold bind at 1. unfold modify at 1. unfold bind at 1.
    destruct (add_known_lineages _ _) as [w1 [e|[]]]; [eauto|].
    unfold bind at 1. destruct (sweep t w1) as [w2 [e|[]]] eqn:Hsweep; [eauto|].
    exfalso. unfold sweep in Hsweep.
    destruct (for_each_returned _ _ _ _ _ Hsweep Hrow) as [s0 Hs0].
    unfold bind, lift in Hs0. rewrite Hslice in Hs0. discriminate.
  - unfold order_clusters. destruct (iloc0 t) as [e|row0]; [eauto|].
    unfold order_clusters_body. unfold bind at 1.
    destruct (order_clusters_known _ _) as [a1 [e|[]]]; [eauto|].
    unfold bind at 1.
    match goal with |- context [for_each (drop 1 t) ?b a1] =>
      destruct (for_each (drop 1 t) b a1) as [a2 [e|[]]] eqn:Hsweep end; [eauto|].
    exfalso. destruct (for_each_returned _ _ _ _ _ Hsweep Hrow) as [s0 Hs0].
    unfold bind, lift in Hs0. rewrite Hslice in Hs0. discriminate.
Qed.

(** genotype-1 on the second and fourth row of a table, genotype-2 between
    them. *)
Lemma separated_duplicate_labels_raise_witness :
  slice_to_label SeparatedExample.table "genotype-1" = inl (KeyError "genotype-1")
  /\ (exists e, snd (run SeparatedExample.table None Example.workflow) = inl e)
  /\ (exists e, order_clusters (fun a b _ => inr (Example.additive a b))
                  (fun a b _ _ => inr (Example.derivative a b))
                  (fun a b => inr (Example.area a b))
                  SeparatedExample.table 0.03 0.05 0.05 None = inl e).
Proof.
  apply (separated_duplicate_labels_raise SeparatedExample.table
           "genotype-1" "genotype-2" 1 2 3).
  - reflexivity.
  - reflexivity.
  - reflexivity.
  - lia.
  - discriminate.
Defined.

(** ** The two sweeps side by side *)

Lemma sweep_pairs_rows (t : Table) pair :
  In pair (sweep_pairs t) -> In (fst pair) t /\ In (snd pair) t.
Proof.
  unfold sweep_pairs. rewrite in_flat_map. intros (i & _ & Hp).
  unfold candidate_pairs in Hp. rewrite in_flat_map in Hp. destruct Hp as (j & _ & Hp).
  destruct (t !! j) as [rj|] eqn:Hj; [|destruct Hp].
  destruct (t !! i) as [ri|] eqn:Hi; [|destruct Hp].
  destruct Hp as [<-|[]]. simpl. split; eapply lookup_In; eassumption.
Qed.

(** X7: [LineageWorkflow.run] and [order_clusters] are the same inference
    when the total score of the scorer is the sum of the three component
    scores that [order_clusters] adds up: on a table with distinct labels
    and with a manual ancestry whose entries are accepted, both return the
    same graph, edge for edge and in the same order. *)
Theorem run_agrees_with_order_clusters
    (score : Trajectory -> Trajectory -> ScoreRecord)
    (calculate_additive_score : Trajectory -> Trajectory -> Q -> result Q)
    (calculate_derivative_score : Trajectory -> Trajectory -> Q -> Q -> result Q)
    (calculate_area_score : Trajectory -> Trajectory -> result Q)
    (dl additive_cutoff derivative_cutoff : Q)
    (additive derivative area : Trajectory -> Trajectory -> Q)
    (t : Table) (known : option Items) (w : LineageWorkflow) (row0 : label * Trajectory) :
  NoDup (index t) -> t !! 0%nat = Some row0 ->
  scores_on t (scorer w) score ->
  components_on t calculate_additive_score calculate_derivative_score calculate_area_score
    dl additive_cutoff derivative_cutoff additive derivative area ->
  (forall a b, In a (map snd t) -> In b (map snd t) ->
     totalScore (score a b) = sum_of additive derivative area a b) ->
  Forall accepted (items_or_empty known) ->
  exists g,
    snd (run t known w) = inr (Some g)
    /\ order_clusters calculate_additive_score calculate_derivative_score
         calculate_area_score t dl additive_cutoff derivative_cutoff known = inr g.
Proof.
  intros Hnd H0 Hsc Hco Hsum Hok.
  exists (run_graph score t known row0). split.
  - now rewrite (run_ok score t known w row0 Hnd H0 Hsc Hok).
  - rewrite (order_clusters_ok _ _ _ _ _ _ _ _ _ t Hco known row0 Hnd H0 Hok).
    unfold run_graph, run_edges. do 3 f_equal. apply map_ext_in.
    intros pair Hp. destruct (sweep_pairs_rows t pair Hp) as [Hn Hu].
    unfold pair_edge, total. f_equal. symmetry. apply Hsum; now apply in_map.
Qed.

(** On the example table, with the scorer of the example and its three
    components. *)
Lemma run_agrees_with_order_clusters_witness :
  exists g,
    snd (run Example.table None Example.workflow) = inr (Some g)
    /\ order_clusters (fun a b _ => inr (Example.additive a b))
         (fun a b _ _ => inr (Example.derivative a b))
         (fun a b => inr (Example.area a b))
         Example.table 0.03 0.05 0.05 None = inr g.
Proof.
  apply (run_agrees_with_order_clusters Example.record _ _ _ 0.03 0.05 0.05
           Example.additive Example.derivative Example.area Example.table None
           Example.workflow ("genotype-0", [(0%Z, 1%Q); (1%Z, 1%Q)])
           example_table_unique eq_refl example_scored example_components).
  - intros a b _ _. reflexivity.
  - constructor.
Defined.

(** ** Before the first run *)

(** X8: a workflow that has not run yet has no graph: on it
    [add_known_lineages] with a dict that is not empty and [show_ancestry]
    with a table that is not empty raise AttributeError at their first
    entry and leave the workflow as it was, while with an empty dict or an
    empty table they return and change nothing. *)
Theorem methods_before_run_raise
    (Score : Q -> Q -> Q -> Scorer) (dl fl pv : Q) (dbg : bool)
    (entry : label * label) (known : Items) (row : label * Trajectory) (t : Table) :
  let w := LineageWorkflow_init Score dl fl pv dbg in
  add_known_lineages (entry :: known) w = (w, inl AttributeError)
  /\ show_ancestry (row :: t) w = (w, inl AttributeError)
  /\ add_known_lineages [] w = (w, inr tt)
  /\ show_ancestry [] w = (w, inr tt).
Proof.
  intros w. destruct entry as [identity parent]. repeat split.
Qed.

(** ** The options after parsing *)

Section ParseOptions.

Variable OrderClusterParameters : Type.
Variable from_matlab_genotype : GenotypeOptions.
Variable from_matlab_sort : SortOptions.
Variable from_matlab_clustering : OrderClusterParameters.
Variable from_breakpoints : Q -> Q -> OrderClusterParameters.

Local Abbreviation parse :=
  (parse_workflow_options OrderClusterParameters from_matlab_genotype from_matlab_sort
     from_matlab_clustering from_breakpoints).

Lemma parse_options_after (o : ProgramOptions) :
  fst (parse o) = match fixed_breakpoint o with
                  | None => set_fixed_breakpoint (1 - detection_breakpoint o)%Q o
                  | Some _ => o
                  end.
Proof.
  unfold parse_workflow_options.
  destruct (fixed_breakpoint o); destruct (mode _); destruct (decide _); reflexivity.
Qed.

(** X9: [parse_workflow_options] changes the options object it is given in
    one attribute only: afterwards [fixed_breakpoint] is the value given, or
    [1 - detection_breakpoint] when none was given, and every other
    attribute is as before.  The change is made before the method is
    checked: it is there also when the call raises.  When the call returns,
    the options it returns are that same object. *)
Theorem parse_changes_only_fixed_breakpoint (o : ProgramOptions) :
  let o' := fst (parse o) in
  fixed_breakpoint o' = Some (fixed_or_default o)
  /\ (forall q, set_fixed_breakpoint q o' = set_fixed_breakpoint q o)
  /\ match snd (parse o) with
     | inr (returned, _, _, _) => returned = o'
     | inl _ => True
     end.
Proof.
  cbv zeta. rewrite parse_options_after. unfold fixed_or_default. split; [|split].
  - destruct (fixed_breakpoint o) eqn:Hf; [exact Hf | reflexivity].
  - intros q. destruct (fixed_breakpoint o); reflexivity.
  - unfold parse_workflow_options.
    destruct (fixed_breakpoint o); destruct (mode _); destruct (decide _); try exact I;
      reflexivity.
Qed.

(** X10: parsing is idempotent: on the options object a first call left
    behind, a second call changes nothing more and ends as the first did,
    with the same result or the same error. *)
Theorem parse_twice (o : ProgramOptions) :
  parse (fst (parse o)) = parse o.
Proof.
  rewrite parse_options_after. destruct o as [[q|] d sg sm df fr md me ig uf us sh aa sp].
  - reflexivity.
  - unfold parse_workflow_options. cbn. destruct md; destruct (decide _); reflexivity.
Qed.

(** X11: outside compatibility mode and with an accepted method,
    [parse_workflow_options] returns, and the genotype options and the sort
    options it builds carry the same two breakpoints: the detection
    breakpoint of the program options, and a fixed breakpoint that is never
    [None] (the one given, or [1 - detection_breakpoint]); the clustering
    parameters are built from the detection and the significant
    breakpoint. *)
Theorem parse_builds_coherent_options (o : ProgramOptions) :
  mode o = false -> method o ∈ ACCEPTED_METHODS ->
  exists go so,
    snd (parse o)
    = inr (fst (parse o), go, so,
           from_breakpoints (detection_breakpoint o) (significant_breakpoint o))
    /\ go_detection_breakpoint go = detection_breakpoint o
    /\ so_detection_breakpoint so = detection_breakpoint o
    /\ go_fixed_breakpoint go = Some (fixed_or_default o)
    /\ so_fixed_breakpoint so = Some (fixed_or_default o)
    /\ so_significant_breakpoint so = significant_breakpoint o
    /\ frequency_breakpoints so = frequencies o
    /\ go_method go = method o.
Proof.
  intros Hmode Hmethod. unfold parse_workflow_options, fixed_or_default.
  destruct o as [[q|] d sg sm df fr md me ig uf us sh aa sp]; cbn in *; subst md;
    (destruct (decide _) as [_|Hno]; [|contradiction]);
    eexists; eexists; (split; [reflexivity|]); cbn; repeat split.
Qed.

(** X12: in compatibility mode the breakpoints, the frequencies and the
    method of the program options are ignored: any two option objects in
    that mode and with accepted methods get the same genotype options, sort
    options and clustering parameters, those of [from_matlab]. *)
Theorem parse_compatibility_ignores_breakpoints (o1 o2 : ProgramOptions) :
  mode o1 = true -> mode o2 = true ->
  method o1 ∈ ACCEPTED_METHODS -> method o2 ∈ ACCEPTED_METHODS ->
  snd (parse o1)
  = inr (fst (parse o1), from_matlab_genotype, from_matlab_sort, from_matlab_clustering)
  /\ snd (parse o2)
     = inr (fst (parse o2), from_matlab_genotype, from_matlab_sort, from_matlab_clustering).
Proof.
  intros H1 H2 Hm1 Hm2. unfold parse_workflow_options.
  destruct o1 as [[q1|] d1 sg1 sm1 df1 fr1 md1 me1 ig1 uf1 us1 sh1 aa1 sp1];
    destruct o2 as [[q2|] d2 sg2 sm2 df2 fr2 md2 me2 ig2 uf2 us2 sh2 aa2 sp2];
    cbn in *; subst md1 md2;
    (destruct (decide (me1 ∈ ACCEPTED_METHODS)) as [_|Hno]; [|contradiction]);
    (destruct (decide (me2 ∈ ACCEPTED_METHODS)) as [_|Hno]; [|contradiction]);
    split; reflexivity.
Qed.

End ParseOptions.

Lemma hierarchy_accepted : "hierarchy" ∈ ACCEPTED_METHODS.
Proof. apply (bool_decide_unpack _). vm_compute. exact I. Defined.

Lemma matlab_accepted : "matlab" ∈ ACCEPTED_METHODS.
Proof. apply (bool_decide_unpack _). vm_compute. exact I. Defined.

(** The example options with the method hierarchy: no fixed breakpoint is
    given, the detection breakpoint is 0.03. *)
Lemma parse_builds_coherent_options_witness :
  exists go so,
    snd (parse_workflow_options unit (mkGenotypeOptions 0 None 0 0 None "matlab")
           (mkSortOptions 0 None 0 []) tt (fun _ _ => tt) hierarchy_options)
    = inr (fst (parse_workflow_options unit (mkGenotypeOptions 0 None 0 0 None "matlab")
                  (mkSortOptions 0 None 0 []) tt (fun _ _ => tt) hierarchy_options),
           go, so, tt)
    /\ go_detection_breakpoint go = 0.03%Q
    /\ so_detection_breakpoint so = 0.03%Q
    /\ go_fixed_breakpoint go = Some (1 - 0.03)%Q
    /\ so_fixed_breakpoint so = Some (1 - 0.03)%Q
    /\ so_significant_breakpoint so = 0.15%Q
    /\ frequency_breakpoints so = [1%Q; 0.9%Q; 0.8%Q]
    /\ go_method go = "hierarchy".
Proof.
  apply (parse_builds_coherent_options unit (mkGenotypeOptions 0 None 0 0 None "matlab")
           (mkSortOptions 0 None 0 []) tt (fun _ _ => tt) hierarchy_options eq_refl
           hierarchy_accepted).
Defined.

(** Two option objects in compatibility mode that differ in every
    breakpoint and in the method. *)
Lemma parse_compatibility_ignores_breakpoints_witness :
  let parse := parse_workflow_options unit (mkGenotypeOptions 0 None 0 0 None "matlab")
                 (mkSortOptions 0 None 0 []) tt (fun _ _ => tt) in
  let o2 := other_matlab_options in
  snd (parse matlab_options)
  = inr (fst (parse matlab_options), mkGenotypeOptions 0 None 0 0 None "matlab",
         mkSortOptions 0 None 0 [], tt)
  /\ snd (parse o2)
     = inr (fst (parse o2), mkGenotypeOptions 0 None 0 0 None "matlab",
            mkSortOptions 0 None 0 [], tt).
Proof.
  apply (parse_compatibility_ignores_breakpoints unit (mkGenotypeOptions 0 None 0 0 None "matlab")
           (mkSortOptions 0 None 0 []) tt (fun _ _ => tt) matlab_options
           other_matlab_options eq_refl eq_refl matlab_accepted hierarchy_accepted).
Defined.

(** ** The stages a workflow goes through *)

Section WorkflowStages.

Variables Env Info GenotypeMembers GenotypeInfo LinkageMatrix Clusters
  OrderClusterParameters PairwiseCalculationCache : Type.
Variable from_matlab_genotype : GenotypeOptions.
Variable from_matlab_sort : SortOptions.
Variable from_matlab_clustering : OrderClusterParameters.
Variable from_breakpoints : Q -> Q -> OrderClusterParameters.
Variable sort_genotypes : Table -> SortOptions -> M (World Env) Table.
Variable nest : Table -> GenotypeMembers -> OrderClusterParameters -> M (World Env) Clusters.
Variable cache : PairwiseCalculationCache.
Variable repr_options : ProgramOptions -> string.
Variable generate_output :
  WorkflowData Info GenotypeMembers Clusters OrderClusterParameters PairwiseCalculationCache
  -> string -> Q -> bool -> bool -> bool -> M (World Env) unit.

Local Abbreviation workflow_with import_genotype_table members import_trajectory_table
    generate_genotypes filters_workflow :=
  (workflow Env Info GenotypeMembers GenotypeInfo LinkageMatrix Clusters
     OrderClusterParameters PairwiseCalculationCache
     from_matlab_genotype from_matlab_sort from_matlab_clustering from_breakpoints
     import_genotype_table members import_trajectory_table generate_genotypes
     filters_workflow sort_genotypes nest cache repr_options generate_output).

Lemma parse_returns_flags (o o1 : ProgramOptions) go so co :
  snd (parse_workflow_options OrderClusterParameters from_matlab_genotype from_matlab_sort
         from_matlab_clustering from_breakpoints o) = inr (o1, go, so, co) ->
  is_genotype o1 = is_genotype o /\ use_filter o1 = use_filter o.
Proof.
  unfold parse_workflow_options.
  destruct (fixed_breakpoint o); destruct (mode _); destruct (decide _); cbn;
    intros [= <- _ _ _]; split; reflexivity.
Qed.

(** X13: given a table of genotypes ([is_genotype] set), the workflow goes
    from the import straight to sorting and nesting: it reads no table of
    trajectories, clusters nothing and filters nothing, whatever those
    stages would do. *)
Theorem genotype_input_skips_trajectory_stages
    (import_genotype_table : string -> string -> M (World Env) (Table * GenotypeInfo))
    (members : GenotypeInfo -> GenotypeMembers)
    (import_trajectory_table import_trajectory_table'
       : string -> string -> M (World Env) (Table * Info))
    (generate_genotypes generate_genotypes'
       : Table -> GenotypeOptions -> M (World Env) (Table * GenotypeMembers * LinkageMatrix))
    (filters_workflow filters_workflow'
       : Table -> GenotypeOptions -> list Q -> bool
         -> M (World Env) (Table * Table * GenotypeMembers))
    (input_filename output_folder : string) (program_options : ProgramOptions)
    (world : World Env) :
  is_genotype program_options = true ->
  workflow_with import_genotype_table members import_trajectory_table generate_genotypes
    filters_workflow input_filename output_folder program_options world
  = workflow_with import_genotype_table members import_trajectory_table' generate_genotypes'
      filters_workflow' input_filename output_folder program_options world.
Proof.
  intros Hg. unfold workflow, bind, print, modify, lift.
  destruct (snd (parse_workflow_options _ _ _ _ _ _)) as [e|[[[o1 go] so] co]] eqn:Hp;
    [reflexivity|].
  destruct (parse_returns_flags _ _ _ _ _ Hp) as [Hg1 _]. rewrite Hg in Hg1.
  rewrite Hg1. reflexivity.
Qed.

(** X14: given a table of trajectories and no filter ([is_genotype] and
    [use_filter] unset), the workflow imports no table of genotypes and
    never calls the filters. *)
Theorem trajectory_input_without_filter
    (import_genotype_table import_genotype_table'
       : string -> string -> M (World Env) (Table * GenotypeInfo))
    (members members' : GenotypeInfo -> GenotypeMembers)
    (import_trajectory_table : string -> string -> M (World Env) (Table * Info))
    (generate_genotypes
       : Table -> GenotypeOptions -> M (World Env) (Table * GenotypeMembers * LinkageMatrix))
    (filters_workflow filters_workflow'
       : Table -> GenotypeOptions -> list Q -> bool
         -> M (World Env) (Table * Table * GenotypeMembers))
    (input_filename output_folder : string) (program_options : ProgramOptions)
    (world : World Env) :
  is_genotype program_options = false -> use_filter program_options = false ->
  workflow_with import_genotype_table members import_trajectory_table generate_genotypes
    filters_workflow input_filename output_folder program_options world
  = workflow_with import_genotype_table' members' import_trajectory_table generate_genotypes
      filters_workflow' input_filename output_folder program_options world.
Proof.
  intros Hg Hf. unfold workflow, bind, print, modify, lift.
  destruct (snd (parse_workflow_options _ _ _ _ _ _)) as [e|[[[o1 go] so] co]] eqn:Hp;
    [reflexivity|].
  destruct (parse_returns_flags _ _ _ _ _ Hp) as [Hg1 Hf1]. rewrite Hg in Hg1.
  rewrite Hf in Hf1. rewrite Hg1. unfold extract_genotypes_from_trajectories.
  rewrite Hf1. reflexivity.
Qed.

End WorkflowStages.

(** A table of genotypes as input: the workflow is the same whether the
    stages for trajectories raise or return. *)
Lemma genotype_input_skips_trajectory_stages_witness :
  workflow unit unit unit unit unit unit unit unit
    (mkGenotypeOptions 0.03 None 0.05 0.10 None "matlab")
    (mkSortOptions 0.03 None 0.15 []) tt (fun _ _ => tt)
    (fun _ _ => ret (Example.table, tt)) (fun _ => tt)
    (fun _ _ => raise IndexError)
    (fun _ _ => raise IndexError) (fun _ _ _ _ => raise IndexError)
    (fun t _ => ret t) (fun _ _ _ => ret tt) tt (fun _ => "options")
    (fun _ _ _ _ _ _ => ret tt)
    "input.xlsx" "output" hierarchy_options {| stdout := []; env := tt |}
  = workflow unit unit unit unit unit unit unit unit
      (mkGenotypeOptions 0.03 None 0.05 0.10 None "matlab")
      (mkSortOptions 0.03 None 0.15 []) tt (fun _ _ => tt)
      (fun _ _ => ret (Example.table, tt)) (fun _ => tt)
      (fun _ _ => ret ([], tt))
      (fun _ _ => ret ([], tt, tt)) (fun _ _ _ _ => ret ([], [], tt))
      (fun t _ => ret t) (fun _ _ _ => ret tt) tt (fun _ => "options")
      (fun _ _ _ _ _ _ => ret tt)
      "input.xlsx" "output" hierarchy_options {| stdout := []; env := tt |}.
Proof.
  apply (genotype_input_skips_trajectory_stages unit unit unit unit unit unit unit unit).
  reflexivity.
Defined.

(** A table of trajectories as input, without filters: the workflow is the
    same whether the import of genotypes and the filters raise or return. *)
Lemma trajectory_input_without_filter_witness :
  workflow unit unit unit unit unit unit unit unit
    (mkGenotypeOptions 0.03 None 0.05 0.10 None "matlab")
    (mkSortOptions 0.03 None 0.15 []) tt (fun _ _ => tt)
    (fun _ _ => raise IndexError) (fun _ => tt)
    (fun _ _ => ret (Example.table, tt))
    (fun t _ => ret (t, tt, tt)) (fun _ _ _ _ => raise IndexError)
    (fun t _ => ret t) (fun _ _ _ => ret tt) tt (fun _ => "options")
    (fun _ _ _ _ _ _ => ret tt)
    "input.xlsx" "output" trajectory_options {| stdout := []; env := tt |}
  = workflow unit unit unit unit unit unit unit unit
      (mkGenotypeOptions 0.03 None 0.05 0.10 None "matlab")
      (mkSortOptions 0.03 None 0.15 []) tt (fun _ _ => tt)
      (fun _ _ => ret ([], tt)) (fun _ => tt)
      (fun _ _ => ret (Example.table, tt))
      (fun t _ => ret (t, tt, tt)) (fun _ _ _ _ => ret ([], [], tt))
      (fun t _ => ret t) (fun _ _ _ => ret tt) tt (fun _ => "options")
      (fun _ _ _ _ _ _ => ret tt)
      "input.xlsx" "output" trajectory_options {| stdout := []; env := tt |}.
Proof.
  apply (trajectory_input_without_filter unit unit unit unit unit unit unit unit).
  - reflexivity.
  - reflexivity.
Defined.

(** ** Folders and file names of the output *)

Lemma check_folder_found (p : SaveOutput.Path) fs :
  is_Some (SaveOutput.kind_of fs p) -> SaveOutput.check_folder p fs = (fs, inr p).
Proof.
  intros Hk. unfold SaveOutput.check_folder, SaveOutput.path_exists, mbind, SaveOutput.os_bind.
  rewrite bool_decide_eq_true_2 by exact Hk. reflexivity.
Qed.

Lemma check_folder_made (p : SaveOutput.Path) fs :
  SaveOutput.kind_of fs p = None ->
  SaveOutput.kind_of fs (SaveOutput.parent p) = Some SaveOutput.Directory ->
  SaveOutput.check_folder p fs = (<[p := SaveOutput.Directory]> fs, inr p).
Proof.
  intros Hk Hp. unfold SaveOutput.check_folder, SaveOutput.path_exists, mbind, SaveOutput.os_bind.
  rewrite bool_decide_eq_false_2 by (rewrite Hk; intros [? ?]; discriminate).
  cbn. unfold SaveOutput.mkdir. rewrite Hk, Hp. reflexivity.
Qed.

Lemma check_folder_refused (p : SaveOutput.Path) fs :
  SaveOutput.kind_of fs p = None ->
  SaveOutput.kind_of fs (SaveOutput.parent p) <> Some SaveOutput.Directory ->
  SaveOutput.check_folder p fs
  = (fs, inl match SaveOutput.kind_of fs (SaveOutput.parent p) with
             | Some SaveOutput.File => SaveOutput.NotADirectoryError
             | _ => SaveOutput.FileNotFoundError
             end).
Proof.
  intros Hk Hp. unfold SaveOutput.check_folder, SaveOutput.path_exists, mbind, SaveOutput.os_bind.
  rewrite bool_decide_eq_false_2 by (rewrite Hk; intros [? ?]; discriminate).
  cbn. unfold SaveOutput.mkdir. rewrite Hk.
  destruct (SaveOutput.kind_of fs (SaveOutput.parent p)) as [[|]|]; try reflexivity.
  now destruct Hp.
Qed.

Lemma check_folder_ensures (p : SaveOutput.Path) fs :
  is_Some (SaveOutput.kind_of fs p)
  \/ SaveOutput.kind_of fs (SaveOutput.parent p) = Some SaveOutput.Directory ->
  SaveOutput.check_folder p fs = (SaveOutput.ensure p fs, inr p).
Proof.
  intros Hk. unfold SaveOutput.ensure.
  destruct (SaveOutput.kind_of fs p) as [k|] eqn:Hp.
  - apply check_folder_found. rewrite Hp. eauto.
  - destruct Hk as [[k Hk]|Hk]; [discriminate|]. now apply check_folder_made.
Qed.

Lemma kind_of_absent (p : SaveOutput.Path) fs :
  SaveOutput.kind_of fs p = None -> fs !! p = None.
Proof. unfold SaveOutput.kind_of. destruct (snd p); [discriminate | tauto]. Qed.

Lemma kind_of_weaken (p : SaveOutput.Path) (fs fs' : SaveOutput.FileSystem) k :
  fs ⊆ fs' -> SaveOutput.kind_of fs p = Some k -> SaveOutput.kind_of fs' p = Some k.
Proof.
  intros Hsub. unfold SaveOutput.kind_of. destruct (snd p); [tauto|].
  intros Hk. exact (lookup_weaken _ _ _ _ Hk Hsub).
Qed.

Lemma ensure_subseteq (p : SaveOutput.Path) fs : fs ⊆ SaveOutput.ensure p fs.
Proof.
  unfold SaveOutput.ensure. destruct (SaveOutput.kind_of fs p) eqn:Hk; [reflexivity|].
  apply insert_subseteq, kind_of_absent, Hk.
Qed.

Lemma ensure_present (p : SaveOutput.Path) fs :
  is_Some (SaveOutput.kind_of (SaveOutput.ensure p fs) p).
Proof.
  unfold SaveOutput.ensure. destruct (SaveOutput.kind_of fs p) eqn:Hk; [rewrite Hk; eauto|].
  unfold SaveOutput.kind_of in *. destruct (snd p); [eauto|]. cbn. rewrite lookup_insert_eq. eauto.
Qed.

Lemma ensure_other (p q : SaveOutput.Path) fs :
  q <> p -> SaveOutput.ensure p fs !! q = fs !! q.
Proof.
  intros Hne. unfold SaveOutput.ensure. destruct (SaveOutput.kind_of fs p); [reflexivity|].
  now rewrite lookup_insert_ne.
Qed.

Lemma ensure_again (p : SaveOutput.Path) fs :
  is_Some (SaveOutput.kind_of fs p) -> SaveOutput.ensure p fs = fs.
Proof. intros [k Hk]. unfold SaveOutput.ensure. now rewrite Hk. Qed.

Lemma ensure_made (p : SaveOutput.Path) fs :
  snd p <> [] -> SaveOutput.kind_of fs p = None ->
  SaveOutput.kind_of (SaveOutput.ensure p fs) p = Some SaveOutput.Directory.
Proof.
  intros Hp Hk. unfold SaveOutput.ensure. rewrite Hk. unfold SaveOutput.kind_of.
  destruct (snd p); [contradiction|]. cbn. now rewrite lookup_insert_eq.
Qed.

Lemma joinpath_folder (p : SaveOutput.Path) :
  SaveOutput.folders p
  = [p; (fst p, snd p ++ ["supplementary-files"]); (fst p, snd p ++ ["graphics"]);
     (fst p, snd p ++ ["tables"]); (fst p, snd p ++ ["scripts"])].
Proof. reflexivity. Qed.

Lemma parent_child (p : SaveOutput.Path) (x : string) :
  SaveOutput.parent (fst p, snd p ++ [x]) = p.
Proof. unfold SaveOutput.parent. simpl. rewrite removelast_last. now destruct p. Qed.

Lemma output_folder_made (out : SaveOutput.Path) fs :
  SaveOutput.kind_of fs out = Some SaveOutput.Directory
  \/ (SaveOutput.kind_of fs out = None
      /\ SaveOutput.kind_of fs (SaveOutput.parent out) = Some SaveOutput.Directory) ->
  SaveOutput.check_folder out fs = (SaveOutput.ensure out fs, inr out)
  /\ SaveOutput.kind_of (SaveOutput.ensure out fs) out = Some SaveOutput.Directory.
Proof.
  intros [Hd|[Hn Hp]].
  - split; [apply check_folder_ensures; left; rewrite Hd; eauto|].
    rewrite ensure_again by (rewrite Hd; eauto). exact Hd.
  - split; [apply check_folder_ensures; now right|].
    apply ensure_made; [|exact Hn]. unfold SaveOutput.kind_of in Hn.
    destruct (snd out); [discriminate | discriminate].
Qed.

Lemma subfolder_made (out : SaveOutput.Path) (x : string) fs :
  SaveOutput.kind_of fs out = Some SaveOutput.Directory ->
  SaveOutput.check_folder (fst out, snd out ++ [x]) fs
  = (SaveOutput.ensure (fst out, snd out ++ [x]) fs, inr (fst out, snd out ++ [x]))
  /\ SaveOutput.kind_of (SaveOutput.ensure (fst out, snd out ++ [x]) fs) out
     = Some SaveOutput.Directory.
Proof.
  intros Hd. split.
  - apply check_folder_ensures. right. now rewrite parent_child.
  - exact (kind_of_weaken _ _ _ _ (ensure_subseteq _ _) Hd).
Qed.

Lemma ensure_folders_present (ps : list SaveOutput.Path) fs :
  Forall (fun p => is_Some (SaveOutput.kind_of (foldl (fun fs p => SaveOutput.ensure p fs) fs ps) p))
         ps
  /\ fs ⊆ foldl (fun fs p => SaveOutput.ensure p fs) fs ps
  /\ (forall q, q ∉ ps -> foldl (fun fs p => SaveOutput.ensure p fs) fs ps !! q = fs !! q).
Proof.
  revert fs. induction ps as [|p ps IH]; intros fs; cbn [foldl].
  - repeat split; [constructor | reflexivity].
  - destruct (IH (SaveOutput.ensure p fs)) as (Hall & Hsub & Hother). split; [|split].
    + constructor; [|exact Hall].
      destruct (ensure_present p fs) as [k Hk]. exists k.
      exact (kind_of_weaken _ _ _ _ Hsub Hk).
    + etransitivity; [apply ensure_subseteq | exact Hsub].
    + intros q Hq. rewrite not_elem_of_cons in Hq. destruct Hq as [Hqp Hq].
      rewrite (Hother q Hq). now apply ensure_other.
Qed.

Lemma ensure_folders_again (ps : list SaveOutput.Path) fs :
  Forall (fun p => is_Some (SaveOutput.kind_of fs p)) ps ->
  foldl (fun fs p => SaveOutput.ensure p fs) fs ps = fs.
Proof.
  induction 1 as [|p ps Hp Hps IH]; [reflexivity|]. cbn [foldl].
  now rewrite (ensure_again p fs Hp).
Qed.

Lemma init_folders (out : SaveOutput.Path) name sfx fs :
  SaveOutput.kind_of fs out = Some SaveOutput.Directory
  \/ (SaveOutput.kind_of fs out = None
      /\ SaveOutput.kind_of fs (SaveOutput.parent out) = Some SaveOutput.Directory) ->
  exists o,
    SaveOutput.OutputFilenames_init out name sfx fs
    = (foldl (fun fs p => SaveOutput.ensure p fs) fs (SaveOutput.folders out), inr o).
Proof.
  intros H. rewrite joinpath_folder. cbn [foldl].
  destruct (output_folder_made out fs H) as [H0 Hd0].
  set (fs0 := SaveOutput.ensure out fs) in *.
  destruct (subfolder_made out "supplementary-files" fs0 Hd0) as [H1 Hd1].
  set (fs1 := SaveOutput.ensure _ fs0) in *.
  destruct (subfolder_made out "graphics" fs1 Hd1) as [H2 Hd2].
  set (fs2 := SaveOutput.ensure _ fs1) in *.
  destruct (subfolder_made out "tables" fs2 Hd2) as [H3 Hd3].
  set (fs3 := SaveOutput.ensure _ fs2) in *.
  destruct (subfolder_made out "scripts" fs3 Hd3) as [H4 Hd4].
  set (fs4 := SaveOutput.ensure _ fs3) in *.
  unfold SaveOutput.OutputFilenames_init, mbind, SaveOutput.os_bind.
  rewrite H0.
  change (SaveOutput.joinpath out "supplementary-files")
    with (fst out, snd out ++ ["supplementary-files"]).
  rewrite H1.
  change (SaveOutput.joinpath out "graphics") with (fst out, snd out ++ ["graphics"]).
  rewrite H2.
  change (SaveOutput.joinpath out "tables") with (fst out, snd out ++ ["tables"]).
  rewrite H3.
  change (SaveOutput.joinpath out "scripts") with (fst out, snd out ++ ["scripts"]).
  rewrite H4. eexists. reflexivity.
Qed.

Lemma check_folder_returns (p q : SaveOutput.Path) fs fs' :
  SaveOutput.check_folder p fs = (fs', inr q) -> q = p.
Proof.
  unfold SaveOutput.check_folder, SaveOutput.path_exists, mbind, SaveOutput.os_bind.
  destruct (bool_decide _); cbn.
  - now intros [= _ <-].
  - destruct (SaveOutput.mkdir p fs) as [fs1 [e|[]]]; [discriminate|]. now intros [= _ <-].
Qed.

Lemma init_names (out : SaveOutput.Path) name sfx fs1 fs1' o1 fs2 fs2' o2 :
  SaveOutput.OutputFilenames_init out name sfx fs1 = (fs1', inr o1) ->
  SaveOutput.OutputFilenames_init out name sfx fs2 = (fs2', inr o2) ->
  o1 = o2.
Proof.
  unfold SaveOutput.OutputFilenames_init, mbind, SaveOutput.os_bind.
  repeat match goal with
  | |- context [SaveOutput.check_folder ?p ?fs] =>
      let H := fresh "H" in
      destruct (SaveOutput.check_folder p fs) as [? [?|?]] eqn:H; [discriminate|];
      apply check_folder_returns in H; subst
  end.
  unfold mret, SaveOutput.os_ret. intros [= _ <-] [= _ <-]. reflexivity.
Qed.

(** X15: when the output folder is a directory, or is not there while its
    parent is a directory, [OutputFilenames] returns; afterwards each of the
    five folders of the output exists, nothing that was there before is
    removed or changed, and nothing is made but those folders.  Building the
    [OutputFilenames] of the same output a second time makes nothing more
    and gives the same file names. *)
Theorem output_folders_created (out : SaveOutput.Path) (name sfx : string)
    (fs : SaveOutput.FileSystem) :
  SaveOutput.kind_of fs out = Some SaveOutput.Directory
  \/ (SaveOutput.kind_of fs out = None
      /\ SaveOutput.kind_of fs (SaveOutput.parent out) = Some SaveOutput.Directory) ->
  exists fs' o,
    SaveOutput.OutputFilenames_init out name sfx fs = (fs', inr o)
    /\ Forall (fun p => is_Some (SaveOutput.kind_of fs' p)) (SaveOutput.folders out)
    /\ fs ⊆ fs'
    /\ (forall q, q ∉ SaveOutput.folders out -> fs' !! q = fs !! q)
    /\ SaveOutput.OutputFilenames_init out name sfx fs' = (fs', inr o).
Proof.
  intros H. destruct (init_folders out name sfx fs H) as [o Ho].
  set (fs' := foldl _ fs _) in *.
  destruct (ensure_folders_present (SaveOutput.folders out) fs) as (Hall & Hsub & Hother).
  fold fs' in Hall, Hsub, Hother.
  exists fs', o. repeat split; try assumption.
  assert (Hd : SaveOutput.kind_of fs' out = Some SaveOutput.Directory).
  { destruct (output_folder_made out fs H) as [_ Hd].
    apply (kind_of_weaken _ (SaveOutput.ensure out fs)); [|exact Hd].
    destruct (ensure_folders_present
                (tail (SaveOutput.folders out)) (SaveOutput.ensure out fs)) as (_ & Hs & _).
    exact Hs. }
  destruct (init_folders out name sfx fs' (or_introl Hd)) as [o' Ho'].
  rewrite (ensure_folders_again _ _ Hall) in Ho'.
  rewrite (init_names _ _ _ _ _ _ _ _ _ Ho Ho'). exact Ho'.
Qed.


(** X17: when the output folder is there but is a file, [OutputFilenames]
    takes it as it is and raises NotADirectoryError at the first folder it
    has to make in it; nothing has been made. *)
Theorem output_folder_is_a_file (out : SaveOutput.Path) (name sfx : string)
    (fs : SaveOutput.FileSystem) :
  SaveOutput.kind_of fs out = Some SaveOutput.File ->
  SaveOutput.kind_of fs (SaveOutput.joinpath out "supplementary-files") = None ->
  SaveOutput.OutputFilenames_init out name sfx fs = (fs, inl SaveOutput.NotADirectoryError).
Proof.
  intros Hf Hn. unfold SaveOutput.OutputFilenames_init, mbind, SaveOutput.os_bind.
  rewrite (check_folder_found out fs) by (rewrite Hf; eauto).
  rewrite (check_folder_refused _ fs Hn).
  - change (SaveOutput.joinpath out "supplementary-files")
      with (fst out, snd out ++ ["supplementary-files"]).
    now rewrite parent_child, Hf.
  - change (SaveOutput.joinpath out "supplementary-files")
      with (fst out, snd out ++ ["supplementary-files"]).
    rewrite parent_child, Hf. discriminate.
Qed.

(** ** The names of the output files *)

Lemma splitroot_other c s : c <> "/"%char -> SaveOutput.splitroot (String c s) = "".
Proof.
  intros Hc. destruct c as [[] [] [] [] [] [] [] []]; try reflexivity. now destruct Hc.
Qed.

Lemma pieces_one s : SaveOutput.has_slash s = false -> SaveOutput.str_split "/" s = [s].
Proof.
  induction s as [|c s IH]; [reflexivity|]. simpl.
  destruct (decide (c = "/"%char)); [discriminate|]. intros Hs. now rewrite (IH Hs).
Qed.

Lemma has_slash_app s1 s2 :
  SaveOutput.has_slash (s1 ++ s2) = SaveOutput.has_slash s1 || SaveOutput.has_slash s2.
Proof.
  induction s1 as [|c s1 IH]; [reflexivity|]. simpl.
  destruct (decide (c = "/"%char)); [reflexivity | exact IH].
Qed.

Lemma string_app_length (s1 s2 : string) :
  String.length (s1 ++ s2) = (String.length s1 + String.length s2)%nat.
Proof. induction s1 as [|c s1 IH]; [reflexivity|]. simpl. now rewrite IH. Qed.

Lemma joinpath_one (p : SaveOutput.Path) (s : string) :
  SaveOutput.has_slash s = false -> (2 <= String.length s)%nat ->
  SaveOutput.joinpath p s = (fst p, snd p ++ [s]).
Proof.
  intros Hs Hlen. unfold SaveOutput.joinpath. rewrite (pieces_one s Hs).
  destruct s as [|c s]; [simpl in Hlen; lia|].
  assert (Hc : c <> "/"%char).
  { simpl in Hs. now destruct (decide (c = "/"%char)). }
  rewrite (splitroot_other c s Hc). destruct (decide _) as [_|Hno]; [|now destruct Hno].
  rewrite filter_cons. destruct (decide _) as [_|Hno]; [reflexivity|].
  destruct Hno. split; [discriminate|]. intros [= -> ->]. simpl in Hlen. lia.
Qed.

(** The path of a file named [name ++ ending] in the folder [p]. *)
Lemma joinpath_file (p : SaveOutput.Path) (name ending : string) :
  SaveOutput.has_slash name = false -> SaveOutput.has_slash ending = false ->
  (2 <= String.length ending)%nat ->
  SaveOutput.joinpath p (name ++ ending) = (fst p, snd p ++ [(name ++ ending)%string]).
Proof.
  intros Hn He Hlen. apply joinpath_one.
  - now rewrite has_slash_app, Hn, He.
  - rewrite string_app_length. lia.
Qed.

Lemma string_app_inv_head (s s1 s2 : string) : (s ++ s1 = s ++ s2)%string -> s1 = s2.
Proof. induction s as [|c s IH]; [tauto|]. simpl. intros [= H]. exact (IH H). Qed.

Ltac name_is_no_folder H name :=
  repeat (destruct name as [|? name]; simpl in H;
          [discriminate H | first [discriminate H | injection H as ? H]]).

Ltac paths_differ H name :=
  injection H as H;
  first [ apply app_inv_head in H
        | apply (f_equal length) in H; rewrite ?length_app in H; simpl in H; lia ];
  first [ discriminate H
        | injection H as H;
          first [ discriminate H
                | apply string_app_inv_head in H; simpl in H; discriminate H
                | name_is_no_folder H name ] ].

Ltac not_among name :=
  let H := fresh "H" in
  intros H;
  repeat (apply elem_of_cons in H as [H|H]; [exfalso; paths_differ H name|]);
  now apply elem_of_nil in H.

Lemma init_result (out : SaveOutput.Path) name sfx fs fs' o :
  SaveOutput.has_slash name = false -> SaveOutput.has_slash sfx = false ->
  SaveOutput.OutputFilenames_init out name sfx fs = (fs', inr o) ->
  SaveOutput.files o
  = map (fun tail => (fst out, snd out ++ tail))
      [[(name ++ ".trajectories." ++ sfx)%string];
       [(name ++ ".muller_genotypes." ++ sfx)%string];
       [(name ++ ".muller.annotated.png")%string];
       [(name ++ ".mermaid.png")%string];
       [(name ++ ".filtered.png")%string];
       ["tables"; (name ++ ".trajectories.original." ++ sfx)%string];
       ["tables"; (name ++ ".muller_genotypes.original." ++ sfx)%string];
       ["tables"; (name ++ ".ggmuller.populations." ++ sfx)%string];
       ["tables"; (name ++ ".ggmuller.edges." ++ sfx)%string];
       ["tables"; (name ++ ".muller.csv")%string];
       ["tables"; (name ++ ".calculation.matrix.distance." ++ sfx)%string];
       ["tables"; (name ++ ".linkagematrix.tsv")%string];
       ["tables"; (name ++ ".pvalues.tsv")%string];
       ["tables"; (name ++ ".calculation.matrix.pvalues." ++ sfx)%string];
       ["graphics"; (name ++ ".muller.basic.png")%string];
       ["graphics"; (name ++ ".muller.unannotated.png")%string];
       ["graphics"; (name ++ ".muller.annotated.pdf")%string];
       ["graphics"; (name ++ ".muller.annotated.svg")%string];
       ["graphics"; (name ++ ".png")%string];
       ["graphics"; (name ++ ".heatmap.pvalues.png")%string];
       ["graphics"; (name ++ ".heatmap.distance.png")%string];
       ["graphics"; (name ++ ".dendrogram.png")%string];
       ["scripts"; (name ++ ".r")%string];
       ["scripts"; (name ++ ".mermaid.md")%string];
       ["supplementary-files"; (name ++ ".json")%string];
       ["supplementary-files"; (name ++ ".calculations.json")%string]].
Proof.
  intros Hname Hsfx. unfold SaveOutput.OutputFilenames_init, mbind, SaveOutput.os_bind.
  repeat match goal with
  | |- context [SaveOutput.check_folder ?p ?fs] =>
      let H := fresh "H" in
      destruct (SaveOutput.check_folder p fs) as [? [?|?]] eqn:H; [discriminate|];
      apply check_folder_returns in H; subst
  end.
  unfold mret, SaveOutput.os_ret. intros [= _ <-].
  change (SaveOutput.joinpath out "supplementary-files")
    with (fst out, snd out ++ ["supplementary-files"]).
  change (SaveOutput.joinpath out "graphics") with (fst out, snd out ++ ["graphics"]).
  change (SaveOutput.joinpath out "tables") with (fst out, snd out ++ ["tables"]).
  change (SaveOutput.joinpath out "scripts") with (fst out, snd out ++ ["scripts"]).
  unfold SaveOutput.files.
  cbn [SaveOutput.trajectory SaveOutput.genotype SaveOutput.muller_plot_annotated
       SaveOutput.mermaid_render SaveOutput.genotype_plot_filtered
       SaveOutput.original_trajectory SaveOutput.original_genotype SaveOutput.population
       SaveOutput.edges SaveOutput.muller_table SaveOutput.calculation_matrix_X
       SaveOutput.linkage_matrix_table SaveOutput.p_value SaveOutput.calculation_matrix_p
       SaveOutput.muller_plot_basic SaveOutput.muller_plot_unannotated
       SaveOutput.muller_plot_annotated_pdf SaveOutput.muller_plot_annotated_svg
       SaveOutput.genotype_plot SaveOutput.p_value_heatmap SaveOutput.distance_heatmap
       SaveOutput.linkage_plot SaveOutput.r_script SaveOutput.mermaid_script
       SaveOutput.parameters SaveOutput.calculation_json].
  rewrite !joinpath_file
    by first [ assumption
             | reflexivity
             | rewrite has_slash_app, Hsfx; reflexivity
             | rewrite ?string_app_length; simpl; lia ].
  cbn [map fst snd]. rewrite <- !app_assoc. reflexivity.
Qed.

Lemma removelast_two (ps : list string) (a b : string) :
  removelast (ps ++ [a; b]) = ps ++ [a].
Proof. change [a; b] with ([a] ++ [b]). now rewrite app_assoc, removelast_last. Qed.

(** X18: for a name and a suffix without a slash, the 26 paths of an
    [OutputFilenames] are pairwise distinct whatever the name and the suffix
    are, each of them lies directly in one of the five folders of the
    output, and none of them is one of those folders: no file of the output
    is written over another one or in the place of a folder. *)
Theorem output_files_distinct (out : SaveOutput.Path) (name sfx : string)
    (fs fs' : SaveOutput.FileSystem) (o : SaveOutput.OutputFilenames) :
  SaveOutput.has_slash name = false -> SaveOutput.has_slash sfx = false ->
  SaveOutput.OutputFilenames_init out name sfx fs = (fs', inr o) ->
  length (SaveOutput.files o) = 26%nat
  /\ NoDup (SaveOutput.files o)
  /\ Forall (fun f => SaveOutput.parent f ∈ SaveOutput.folders out
                      /\ f ∉ SaveOutput.folders out)
            (SaveOutput.files o).
Proof.
  intros Hname Hsfx Hinit. rewrite (init_result out name sfx fs fs' o Hname Hsfx Hinit).
  rewrite joinpath_folder. destruct out as [r ps]. cbn [map fst snd]. clear.
  split; [reflexivity|]. split.
  - repeat (apply NoDup_cons; split; [not_among name|]). apply NoDup_nil. exact I.
  - repeat (apply Forall_cons; split;
            [split;
             [unfold SaveOutput.parent; cbn [fst snd];
              first [rewrite removelast_two | rewrite removelast_last];
              rewrite !elem_of_cons; tauto
             | not_among name]|]).
    apply Forall_nil. exact I.
Qed.

(** X19: [_make_folder] either raises and has made nothing, or returns with
    the folder there and everything else as it was; after it has returned, a
    second call makes nothing more and returns as well. *)
Theorem make_folder_once (folder : SaveOutput.Path) (fs : SaveOutput.FileSystem) :
  match SaveOutput._make_folder folder fs with
  | (fs', inl _) => fs' = fs
  | (fs', inr _) =>
      is_Some (SaveOutput.kind_of fs' folder)
      /\ fs ⊆ fs'
      /\ (forall q, q <> folder -> fs' !! q = fs !! q)
      /\ SaveOutput._make_folder folder fs' = (fs', inr tt)
  end.
Proof.
  assert (Hfound : forall fs0, is_Some (SaveOutput.kind_of fs0 folder) ->
            SaveOutput._make_folder folder fs0 = (fs0, inr tt)).
  { intros fs0 Hk. unfold SaveOutput._make_folder, SaveOutput.path_exists, mbind,
      SaveOutput.os_bind. now rewrite bool_decide_eq_true_2 by exact Hk. }
  destruct (SaveOutput.kind_of fs folder) as [k|] eqn:Hk.
  - rewrite Hfound by (rewrite Hk; eauto). rewrite Hk. repeat split; eauto.
  - unfold SaveOutput._make_folder at 1, SaveOutput.path_exists, mbind, SaveOutput.os_bind.
    rewrite bool_decide_eq_false_2 by (rewrite Hk; intros [? ?]; discriminate).
    cbn. unfold SaveOutput.mkdir. rewrite Hk.
    destruct (SaveOutput.kind_of fs (SaveOutput.parent folder)) as [[|]|]; try reflexivity.
    assert (Hthere : is_Some (SaveOutput.kind_of (<[folder := SaveOutput.Directory]> fs) folder)).
    { unfold SaveOutput.kind_of. destruct (snd folder); [eauto|]. cbn.
      rewrite lookup_insert_eq. eauto. }
    repeat split.
    + exact Hthere.
    + apply insert_subseteq, kind_of_absent, Hk.
    + intros q Hq. now rewrite lookup_insert_ne.
    + apply Hfound, Hthere.
Qed.

(** The folder results in the working directory, when nothing is there. *)
Lemma output_folders_created_witness :
  exists fs' o,
    SaveOutput.OutputFilenames_init ("", ["results"]) "run" SaveOutput.default_suffix ∅
    = (fs', inr o)
    /\ Forall (fun p => is_Some (SaveOutput.kind_of fs' p))
              (SaveOutput.folders ("", ["results"]))
    /\ ∅ ⊆ fs'
    /\ (forall q, q ∉ SaveOutput.folders ("", ["results"])
                   -> fs' !! q = (∅ : SaveOutput.FileSystem) !! q)
    /\ SaveOutput.OutputFilenames_init ("", ["results"]) "run" SaveOutput.default_suffix fs'
       = (fs', inr o).
Proof.
  apply (output_folders_created ("", ["results"]) "run" SaveOutput.default_suffix ∅).
  right. split; reflexivity.
Defined.


(** A file named results in the working directory. *)
Lemma output_folder_is_a_file_witness :
  SaveOutput.OutputFilenames_init ("", ["results"]) "run" SaveOutput.default_suffix
    {[ ("", ["results"]) := SaveOutput.File ]}
  = ({[ ("", ["results"]) := SaveOutput.File ]}, inl SaveOutput.NotADirectoryError).
Proof.
  apply (output_folder_is_a_file ("", ["results"]) "run" SaveOutput.default_suffix
           {[ ("", ["results"]) := SaveOutput.File ]}).
  - vm_compute. reflexivity.
  - vm_compute. reflexivity.
Defined.

(** The files of the run named run, in the folder results. *)
Lemma output_files_distinct_witness :
  exists fs' o,
    SaveOutput.OutputFilenames_init ("", ["results"]) "run" SaveOutput.default_suffix ∅
    = (fs', inr o)
    /\ length (SaveOutput.files o) = 26%nat
    /\ NoDup (SaveOutput.files o)
    /\ Forall (fun f => SaveOutput.parent f ∈ SaveOutput.folders ("", ["results"])
                        /\ f ∉ SaveOutput.folders ("", ["results"]))
              (SaveOutput.files o).
Proof.
  destruct (init_folders ("", ["results"]) "run" SaveOutput.default_suffix ∅) as [o Ho].
  { right. split; reflexivity. }
  eexists. exists o. split; [exact Ho|].
  apply (output_files_distinct ("", ["results"]) "run" SaveOutput.default_suffix ∅ _ o
           eq_refl eq_refl Ho).
Defined.

(** ** The annotations of the genotypes *)

Lemma dict_get_set {V} (k : string) (v : V) d : SaveOutput.dict_get k (SaveOutput.dict_set k v d) = Some v.
Proof.
  induction d as [|[k' v'] d IH]; simpl.
  - destruct (decide (k = k)); [reflexivity | contradiction].
  - destruct (decide (k' = k)) as [->|Hne]; simpl.
    + destruct (decide (k = k)); [reflexivity | contradiction].
    + destruct (decide (k' = k)); [contradiction | exact IH].
Qed.

Lemma dict_get_set_other {V} (k k' : string) (v : V) d :
  k' <> k -> SaveOutput.dict_get k' (SaveOutput.dict_set k v d) = SaveOutput.dict_get k' d.
Proof.
  intros Hne. induction d as [|[k0 v0] d IH]; simpl.
  - destruct (decide (k = k')); [congruence | reflexivity].
  - destruct (decide (k0 = k)) as [->|Hk]; simpl.
    + destruct (decide (k = k')); [congruence|]. reflexivity.
    + destruct (decide (k0 = k')); [reflexivity | exact IH].
Qed.

Lemma dict_of_lines_spec (lines : list (list string)) d :
  match SaveOutput.dict_of_lines lines d with
  | inr _ => Forall (fun fields => length fields = 2%nat) lines
  | inl e => (exists message, e = ValueError message)
             /\ Exists (fun fields => length fields <> 2%nat) lines
  end.
Proof.
  revert d. induction lines as [|fields lines IH]; intros d; simpl; [constructor|].
  destruct fields as [|i [|j [|k fields]]]; simpl.
  - split; [eauto | left; simpl; lia].
  - split; [eauto | left; simpl; lia].
  - specialize (IH (SaveOutput.dict_set i j d)).
    destruct (SaveOutput.dict_of_lines lines _).
    + destruct IH as [Hm He]. split; [exact Hm | now right].
    + constructor; [reflexivity | exact IH].
  - split; [eauto | left; simpl; lia].
Qed.

(** X20: the alias file is taken line by line, empty lines left out: the
    dict of aliases is built when every line has exactly two fields
    separated by a tab, and then it maps patA to dltB whatever the file says
    of patA; otherwise a ValueError is raised, for a line that has not two
    fields. *)
Theorem alias_file_lines (contents : string) :
  match SaveOutput.gene_aliases contents with
  | inr gene_aliases =>
      SaveOutput.dict_get "patA" gene_aliases = Some "dltB"
      /\ Forall (fun line => length (SaveOutput.str_split SaveOutput.tab line) = 2%nat)
                (SaveOutput.alias_lines contents)
  | inl e =>
      (exists message, e = ValueError message)
      /\ Exists (fun line => length (SaveOutput.str_split SaveOutput.tab line) <> 2%nat)
                (SaveOutput.alias_lines contents)
  end.
Proof.
  unfold SaveOutput.gene_aliases.
  pose proof (dict_of_lines_spec
                (map (SaveOutput.str_split SaveOutput.tab) (SaveOutput.alias_lines contents)) [])
    as H.
  destruct (SaveOutput.dict_of_lines _ _) as [e|d].
  - destruct H as [Hm He]. split; [exact Hm|].
    apply List.Exists_exists in He. destruct He as (fields & Hin & Hlen).
    apply in_map_iff in Hin. destruct Hin as (line & <- & Hin).
    apply List.Exists_exists. eauto.
  - split; [apply dict_get_set|].
    apply List.Forall_forall. intros line Hin.
    rewrite List.Forall_forall in H. apply H, in_map, Hin.
Qed.

Lemma annotate_row_gene aliases (c : SaveOutput.Cell) j :
  exists entry, SaveOutput.annotate_row aliases (Some c, j) = inr entry.
Proof. destruct c; simpl; eauto. Qed.

Lemma annotate_rows_spec aliases (g a : list SaveOutput.Cell) :
  (length a <= length g ->
   exists annotation,
     SaveOutput.annotate_rows aliases (SaveOutput.zip_longest g a) = inr annotation
     /\ length annotation = length g)
  /\ (length g < length a ->
      SaveOutput.annotate_rows aliases (SaveOutput.zip_longest g a) = inl AttributeError).
Proof.
  revert a. induction g as [|c g IH]; intros a.
  - destruct a as [|b a]; simpl; split; intros H; try lia; eauto.
  - destruct a as [|b a]; cbn [SaveOutput.zip_longest SaveOutput.annotate_rows length].
    + destruct (annotate_row_gene aliases c None) as [entry ->].
      destruct (IH []) as [Hok _]. split; [|lia]. intros _.
      destruct Hok as (annotation & -> & Hlen); [simpl; lia|].
      eexists. split; [reflexivity|]. simpl. now rewrite Hlen.
    + destruct (annotate_row_gene aliases c (Some b)) as [entry ->].
      destruct (IH a) as [Hok Hbad]. split; intros H.
      * destruct Hok as (annotation & -> & Hlen); [lia|].
        eexists. split; [reflexivity|]. simpl. now rewrite Hlen.
      * rewrite Hbad by lia. reflexivity.
Qed.

Section Annotations.

Variable Info : Type.
Variable loc : Info -> list string -> result SaveOutput.Subtable.
Variable table : Info.

Local Abbreviation annotated := (SaveOutput.annotated loc table).

Lemma annotate_genotypes_spec aliases (genotype_members : list (string * string)) :
  Forall annotated genotype_members ->
  forall acc,
  exists annotations,
    SaveOutput.annotate_genotypes loc aliases (Some table) genotype_members acc
    = inr annotations
    /\ (forall label, is_Some (SaveOutput.dict_get label acc)
                      \/ In label (map fst genotype_members) ->
                      is_Some (SaveOutput.dict_get label annotations))
    /\ (forall label annotation,
          SaveOutput.dict_get label annotations = Some annotation ->
          SaveOutput.dict_get label acc = Some annotation
          \/ exists members sub,
               In (label, members) genotype_members
               /\ loc table (SaveOutput.str_split "|" members) = inr sub
               /\ length annotation
                  = length (SaveOutput.column_values (SaveOutput.gene_column sub))).
Proof.
  induction 1 as [|[label0 members0] rest (sub & Hloc & Hlen) Hrest IH]; intros acc.
  - exists acc. split; [reflexivity|]. split.
    + intros label [H|[]]. exact H.
    + intros label annotation H. now left.
  - cbn [SaveOutput.annotate_genotypes]. simpl in Hloc. rewrite Hloc.
    destruct (annotate_rows_spec aliases
                (SaveOutput.column_values (SaveOutput.gene_column sub))
                (SaveOutput.column_values (SaveOutput.aa_column sub))) as [Hok _].
    destruct (Hok Hlen) as (annotation0 & -> & Hl0).
    destruct (IH (SaveOutput.dict_set label0 annotation0 acc))
      as (annotations & -> & Hkeys & Hvalues).
    exists annotations. split; [reflexivity|]. split.
    + intros label Hlabel. apply Hkeys.
      destruct (decide (label = label0)) as [->|Hne].
      * left. rewrite dict_get_set. eauto.
      * destruct Hlabel as [Hacc|[Heq|Hin]].
        -- left. now rewrite dict_get_set_other.
        -- simpl in Heq. congruence.
        -- now right.
    + intros label annotation Hget.
      destruct (Hvalues label annotation Hget) as [Hacc|(members & sub' & Hin & Hloc' & Hl)].
      * destruct (decide (label = label0)) as [->|Hne].
        -- rewrite dict_get_set in Hacc. injection Hacc as <-.
           right. exists members0, sub. split; [now left|]. split; assumption.
        -- rewrite dict_get_set_other in Hacc by exact Hne. now left.
      * right. exists members, sub'. split; [now right|]. split; assumption.
Qed.

End Annotations.

Lemma annotate_genotypes_app {Info} (loc : Info -> list string -> result SaveOutput.Subtable)
    aliases info (pre rest : list (string * string)) acc :
  SaveOutput.annotate_genotypes loc aliases info (pre ++ rest) acc
  = match SaveOutput.annotate_genotypes loc aliases info pre acc with
    | inl e => inl e
    | inr acc' => SaveOutput.annotate_genotypes loc aliases info rest acc'
    end.
Proof.
  revert acc. induction pre as [|[label members] pre IH]; intros acc; [reflexivity|].
  cbn [app SaveOutput.annotate_genotypes]. destruct info as [table|]; [|reflexivity].
  destruct (loc table _) as [e|sub]; [reflexivity|].
  destruct (SaveOutput.annotate_rows _ _) as [e|annotation]; [reflexivity|]. apply IH.
Qed.

(** X21: when the alias file is read and every genotype can be annotated
    (its members are found, and its rows have no amino acid without a
    gene), [generate_genotype_annotations] returns a dict with an entry for
    every genotype label, and the entry of a label has one annotation for
    each row of the column of genes of a genotype with that label. *)
Theorem annotations_one_per_gene_row {Info}
    (loc : Info -> list string -> result SaveOutput.Subtable) (table : Info)
    (contents : string) (aliases : list (string * string))
    (genotype_members : list (string * string)) :
  SaveOutput.gene_aliases contents = inr aliases ->
  Forall (SaveOutput.annotated loc table) genotype_members ->
  exists annotations,
    SaveOutput.generate_genotype_annotations (inr contents) loc genotype_members (Some table)
    = inr annotations
    /\ (forall label, In label (map fst genotype_members) ->
                      is_Some (SaveOutput.dict_get label annotations))
    /\ (forall label annotation,
          SaveOutput.dict_get label annotations = Some annotation ->
          exists members sub,
            In (label, members) genotype_members
            /\ loc table (SaveOutput.str_split "|" members) = inr sub
            /\ length annotation
               = length (SaveOutput.column_values (SaveOutput.gene_column sub))).
Proof.
  intros Haliases Hall. unfold SaveOutput.generate_genotype_annotations. rewrite Haliases.
  destruct (annotate_genotypes_spec Info loc table aliases genotype_members Hall [])
    as (annotations & -> & Hkeys & Hvalues).
  exists annotations. split; [reflexivity|]. split.
  - intros label Hin. apply Hkeys. now right.
  - intros label annotation Hget.
    destruct (Hvalues label annotation Hget) as [Hacc|H]; [discriminate | exact H].
Qed.

(** X22: a row with an amino acid and no gene stops the annotation: at the
    first genotype whose rows have more amino acids than genes (as they
    have when the table has no column of genes) the call raises
    AttributeError, and returns no annotation of the genotypes before it. *)
Theorem annotations_need_a_gene {Info}
    (loc : Info -> list string -> result SaveOutput.Subtable) (table : Info)
    (contents : string) (aliases : list (string * string))
    (pre post : list (string * string)) (label members : string)
    (sub : SaveOutput.Subtable) :
  SaveOutput.gene_aliases contents = inr aliases ->
  Forall (SaveOutput.annotated loc table) pre ->
  loc table (SaveOutput.str_split "|" members) = inr sub ->
  (length (SaveOutput.column_values (SaveOutput.gene_column sub))
   < length (SaveOutput.column_values (SaveOutput.aa_column sub)))%nat ->
  SaveOutput.generate_genotype_annotations (inr contents) loc
    (pre ++ (label, members) :: post) (Some table)
  = inl AttributeError.
Proof.
  intros Haliases Hpre Hloc Hlen. unfold SaveOutput.generate_genotype_annotations.
  rewrite Haliases, annotate_genotypes_app.
  destruct (annotate_genotypes_spec Info loc table aliases pre Hpre [])
    as (annotations & -> & _).
  cbn [SaveOutput.annotate_genotypes]. rewrite Hloc.
  destruct (annotate_rows_spec aliases
              (SaveOutput.column_values (SaveOutput.gene_column sub))
              (SaveOutput.column_values (SaveOutput.aa_column sub))) as [_ Hbad].
  now rewrite (Hbad Hlen).
Qed.

(** X23: without a table of trajectory information ([info] is [None], as
    it is when the workflow was given a table of genotypes), the call raises
    AttributeError as soon as there is a genotype to annotate, and returns
    an empty dict when there is none; the alias file is read first in both
    cases. *)
Theorem annotations_without_info {Info}
    (loc : Info -> list string -> result SaveOutput.Subtable)
    (contents : string) (aliases : list (string * string))
    (genotype_members : list (string * string)) :
  SaveOutput.gene_aliases contents = inr aliases ->
  SaveOutput.generate_genotype_annotations (inr contents) loc genotype_members None
  = match genotype_members with
    | [] => inr []
    | _ :: _ => inl AttributeError
    end.
Proof.
  intros Haliases. unfold SaveOutput.generate_genotype_annotations. rewrite Haliases.
  destruct genotype_members as [|[label members] rest]; reflexivity.
Qed.

(** Two genotypes of two rows each, and an empty alias file. *)
Lemma annotations_one_per_gene_row_witness :
  exists annotations,
    SaveOutput.generate_genotype_annotations (inr "") SaveOutput.example_loc
      [("genotype-1", "t1|t2"); ("genotype-2", "t3|t4")] (Some SaveOutput.example_subtable)
    = inr annotations
    /\ (forall label, In label ["genotype-1"; "genotype-2"] ->
                      is_Some (SaveOutput.dict_get label annotations))
    /\ (forall label annotation,
          SaveOutput.dict_get label annotations = Some annotation ->
          exists members sub,
            In (label, members) [("genotype-1", "t1|t2"); ("genotype-2", "t3|t4")]
            /\ SaveOutput.example_loc SaveOutput.example_subtable
                 (SaveOutput.str_split "|" members) = inr sub
            /\ length annotation
               = length (SaveOutput.column_values (SaveOutput.gene_column sub))).
Proof.
  apply (annotations_one_per_gene_row SaveOutput.example_loc SaveOutput.example_subtable
           "" [("patA", "dltB")] [("genotype-1", "t1|t2"); ("genotype-2", "t3|t4")]).
  - reflexivity.
  - repeat constructor; (eexists; split; [reflexivity | simpl; lia]).
Defined.

(** A table without the column of genes. *)
Lemma annotations_need_a_gene_witness :
  SaveOutput.generate_genotype_annotations (inr "") SaveOutput.example_loc
    [("genotype-1", "t1")] (Some SaveOutput.amino_acids_only)
  = inl AttributeError.
Proof.
  apply (annotations_need_a_gene SaveOutput.example_loc SaveOutput.amino_acids_only
           "" [("patA", "dltB")] [] [] "genotype-1" "t1" SaveOutput.amino_acids_only).
  - reflexivity.
  - constructor.
  - reflexivity.
  - simpl. lia.
Defined.

(** One genotype and no table of information. *)
Lemma annotations_without_info_witness :
  SaveOutput.generate_genotype_annotations (inr "") SaveOutput.example_loc
    [("genotype-1", "t1")] None
  = inl AttributeError.
Proof.
  apply (annotations_without_info SaveOutput.example_loc "" [("patA", "dltB")]
           [("genotype-1", "t1")]).
  reflexivity.
Defined.

(** ** The output of a workflow *)

Lemma init_suffix (out : SaveOutput.Path) name sfx fs fs' o :
  SaveOutput.OutputFilenames_init out name sfx fs = (fs', inr o) -> SaveOutput.suffix o = sfx.
Proof.
  unfold SaveOutput.OutputFilenames_init, mbind, SaveOutput.os_bind.
  repeat match goal with
  | |- context [SaveOutput.check_folder ?p ?fs] =>
      destruct (SaveOutput.check_folder p fs) as [? [?|?]]; [discriminate|]
  end.
  unfold mret, SaveOutput.os_ret. now intros [= _ <-].
Qed.

Lemma io_bind_with {Env A B} (m : SaveOutput.IO Env A) (k1 k2 : A -> SaveOutput.IO Env B)
    (w : SaveOutput.Machine Env) :
  (forall a w', m w = (w', inr a) -> k1 a w' = k2 a w') ->
  (m ≫= k1) w = (m ≫= k2) w.
Proof.
  intros H. unfold mbind, SaveOutput.io_bind.
  destruct (m w) as [w' [e|a]] eqn:Hm; [reflexivity | now apply H].
Qed.


(** X25: every table [generate_output] writes, it writes with the separator
    "tsv": the file names are built with the default suffix, a tab, for
    which [delimiter] is the word "tsv", and that word is what [to_csv] is
    given as [sep]; no call of [to_csv] gets another separator. *)
Theorem tables_written_with_tsv {Env Value} (lib : SaveOutput.Library Env Value)
    (workflow_data : SaveOutput.WorkflowData Value) (output_folder : SaveOutput.Path)
    (detection_cutoff : Q) (annotate_all save_pvalues adjust_populations : bool)
    (w : SaveOutput.Machine Env) :
  SaveOutput.generate_output lib workflow_data output_folder detection_cutoff annotate_all
    save_pvalues adjust_populations w
  = SaveOutput.generate_output
      (SaveOutput.with_to_csv
         (fun table path _ index => SaveOutput.to_csv lib table path "tsv" index) lib)
      workflow_data output_folder detection_cutoff annotate_all save_pvalues
      adjust_populations w.
Proof.
  unfold SaveOutput.generate_output. apply io_bind_with. intros filenames w1 Hinit.
  assert (Hd : SaveOutput.delimiter filenames = "tsv").
  { unfold SaveOutput.on_files in Hinit.
    destruct (SaveOutput.OutputFilenames_init _ _ _ _) as [fs [e|o]] eqn:Ho;
      [discriminate|].
    injection Hinit as _ <-. unfold SaveOutput.delimiter.
    rewrite (init_suffix _ _ _ _ _ _ Ho).
    destruct (decide _) as [_|Hno]; [reflexivity | now destruct Hno]. }
  cbv zeta. rewrite Hd. reflexivity.
Qed.

Lemma io_bind_fails {Env A B} (m : SaveOutput.IO Env A) (k : A -> SaveOutput.IO Env B)
    (w : SaveOutput.Machine Env) :
  (forall a w', m w = (w', inr a) -> exists e, snd (k a w') = inl e) ->
  exists e, snd ((m ≫= k) w) = inl e.
Proof.
  intros H. unfold mbind, SaveOutput.io_bind.
  destruct (m w) as [w' [e|a]] eqn:Hm; [simpl; eauto | now apply H].
Qed.

Lemma io_bind_fails_left {Env A B} (m : SaveOutput.IO Env A) (k : A -> SaveOutput.IO Env B)
    (w : SaveOutput.Machine Env) :
  (exists e, snd (m w) = inl e) -> exists e, snd ((m ≫= k) w) = inl e.
Proof.
  intros [e H]. unfold mbind, SaveOutput.io_bind.
  destruct (m w) as [w' [e'|a]]; [simpl; eauto | discriminate].
Qed.

Lemma annotations_fail_without_info {Info}
    (loc : Info -> list string -> result SaveOutput.Subtable) (contents : string)
    (genotype_members : list (string * string)) :
  genotype_members <> [] ->
  exists e,
    SaveOutput.generate_genotype_annotations (inr contents) loc genotype_members None = inl e.
Proof.
  intros Hm. unfold SaveOutput.generate_genotype_annotations.
  destruct (SaveOutput.gene_aliases contents) as [e|aliases]; [eauto|].
  destruct genotype_members as [|[label members] rest]; [contradiction|].
  simpl. eauto.
Qed.

Lemma io_bind_both_fail {Env A B} (m1 m2 : SaveOutput.IO Env A)
    (k1 k2 : A -> SaveOutput.IO Env B) (w : SaveOutput.Machine Env) :
  m1 w = m2 w -> (exists e, snd (m1 w) = inl e) -> (m1 ≫= k1) w = (m2 ≫= k2) w.
Proof.
  intros Heq [e He]. unfold mbind, SaveOutput.io_bind. rewrite <- Heq.
  destruct (m1 w) as [w' [e'|a]]; [reflexivity | discriminate].
Qed.

Ltac library_calls :=
  unfold SaveOutput.with_late_calls;
  cbn [SaveOutput.map_trajectories_to_genotype SaveOutput.to_csv
       SaveOutput.generate_ggmuller_edges_table
       SaveOutput.generate_ggmuller_population_table SaveOutput.generate_clade_palette
       SaveOutput.generate_missing_trajectories_table SaveOutput.generate_trajectory_table
       SaveOutput.trajectory_colors_of SaveOutput.json_dumps SaveOutput.write_text
       SaveOutput.generate_mermaid_script SaveOutput.excecute_mermaid_script
       SaveOutput.identity_labels SaveOutput.generate_r_script SaveOutput.plot_genotypes
       SaveOutput.read_text SaveOutput.loc SaveOutput.generate_muller_plot SaveOutput.len
       SaveOutput.format_linkage_matrix SaveOutput.plot_dendrogram SaveOutput.save
       SaveOutput.squareform SaveOutput.plot_heatmap].

(** X26: with the data of a workflow that was given a table of genotypes
    (no information on trajectories) and at least one genotype, and an R
    script that gives a table, [generate_output] raises, in
    [generate_genotype_annotations] at the latest: its outcome, the error
    and the state it leaves, is the same whatever is put in the place of
    the calls that follow the annotations (the two muller plots, the length
    of the table of trajectories, the linkage table, the dendrogram, the
    calculations saved and plotted), so none of them is made. *)
Theorem genotype_data_cannot_be_annotated {Env Value} (lib : SaveOutput.Library Env Value)
    (workflow_data : SaveOutput.WorkflowData Value) (output_folder : SaveOutput.Path)
    (detection_cutoff : Q) (annotate_all save_pvalues adjust_populations : bool)
    (w : SaveOutput.Machine Env)
    (muller_plot :
       Value -> option Value -> Value -> SaveOutput.Path + list SaveOutput.Path
       -> option (list (string * list string)) -> SaveOutput.IO Env unit)
    (length_of : Value -> SaveOutput.IO Env Value)
    (linkage_table : Value -> Value -> SaveOutput.IO Env Value)
    (dendrogram : Value -> Value -> SaveOutput.Path -> Value -> SaveOutput.IO Env unit)
    (save_cache : Value -> SaveOutput.Path -> SaveOutput.IO Env unit)
    (square : Value -> SaveOutput.IO Env Value)
    (heatmap : Value -> SaveOutput.Path -> SaveOutput.IO Env unit) :
  SaveOutput.info workflow_data = None ->
  SaveOutput.genotype_members workflow_data <> [] ->
  (forall trajectory population edges table_filename plot_filename script_filename
          color_palette genotype_labels w',
     snd (SaveOutput.generate_r_script lib trajectory population edges table_filename
            plot_filename script_filename color_palette genotype_labels w') <> inr None) ->
  (exists e,
     snd (SaveOutput.generate_output lib workflow_data output_folder detection_cutoff
            annotate_all save_pvalues adjust_populations w) = inl e)
  /\ SaveOutput.generate_output
       (SaveOutput.with_late_calls muller_plot length_of linkage_table dendrogram
          save_cache square heatmap lib)
       workflow_data output_folder detection_cutoff annotate_all save_pvalues
       adjust_populations w
     = SaveOutput.generate_output lib workflow_data output_folder detection_cutoff
         annotate_all save_pvalues adjust_populations w.
Proof.
  intros Hinfo Hmembers Hscript.
  assert (Hfail : forall contents (w' : SaveOutput.Machine Env),
            exists e,
              snd (match SaveOutput.generate_genotype_annotations (inr contents)
                           (SaveOutput.loc lib)
                           (SaveOutput.genotype_members workflow_data) None with
                   | inl e => SaveOutput.io_raise (SaveOutput.Raised e)
                   | inr annotations => mret annotations
                   end w') = inl e).
  { intros contents w'.
    destruct (annotations_fail_without_info (SaveOutput.loc lib) contents
                (SaveOutput.genotype_members workflow_data) Hmembers) as [e ->].
    exists (SaveOutput.Raised e). reflexivity. }
  split.
  - unfold SaveOutput.generate_output. rewrite Hinfo.
    do 16 (apply io_bind_fails; intros ? ? _).
    apply io_bind_fails. intros muller_df after_script Hr.
    destruct muller_df as [muller_df|];
      [|exfalso; eapply Hscript; rewrite Hr; reflexivity].
    do 2 (apply io_bind_fails; intros ? ? _).
    apply io_bind_fails_left. apply io_bind_fails. intros contents after_read _.
    apply io_bind_fails_left. apply Hfail.
  - unfold SaveOutput.generate_output. library_calls. rewrite Hinfo.
    do 16 (apply io_bind_with; intros ? ? _).
    apply io_bind_with. intros muller_df after_script Hr.
    destruct muller_df as [muller_df|];
      [|exfalso; eapply Hscript; rewrite Hr; reflexivity].
    do 2 (apply io_bind_with; intros ? ? _).
    apply io_bind_both_fail.
    + apply io_bind_with. intros contents after_read _.
      apply io_bind_both_fail; [reflexivity | apply Hfail].
    + apply io_bind_fails. intros contents after_read _.
      apply io_bind_fails_left. apply Hfail.
Qed.

Lemma io_bind_returns {Env A B} (m : SaveOutput.IO Env A) (k : A -> SaveOutput.IO Env B)
    (w w0 : SaveOutput.Machine Env) (b : B) :
  (m ≫= k) w = (w0, inr b) -> exists a w', m w = (w', inr a) /\ k a w' = (w0, inr b).
Proof.
  unfold mbind, SaveOutput.io_bind. destruct (m w) as [w' [e|a]]; [discriminate | eauto].
Qed.

Lemma io_bind_after {Env A B} (m : SaveOutput.IO Env A) (k : A -> SaveOutput.IO Env B)
    (w w' : SaveOutput.Machine Env) (a : A) (e : SaveOutput.Exception) :
  m w = (w', inr a) -> snd (k a w') = inl e -> snd ((m ≫= k) w) = inl e.
Proof. intros Hm Hk. unfold mbind, SaveOutput.io_bind. now rewrite Hm. Qed.

(** X27: a linkage matrix needs the trajectories: when the data has a
    linkage matrix and no table of trajectories, [generate_output] raises, at
    [len(workflow_data.trajectories)] at the latest: its outcome, the error
    and the state it leaves, is the same whatever is put in the place of
    [len] and of the calls that follow it (the linkage table, the
    dendrogram, the calculations saved and plotted), so neither the
    dendrogram nor the calculations are saved; and the error is the
    TypeError of that [len] whenever the same call on the data without the
    linkage matrix returns. *)
Theorem linkage_needs_trajectories {Env Value} (lib : SaveOutput.Library Env Value)
    (workflow_data : SaveOutput.WorkflowData Value) (output_folder : SaveOutput.Path)
    (detection_cutoff : Q) (annotate_all save_pvalues adjust_populations : bool)
    (w : SaveOutput.Machine Env) (linkage : Value)
    (length_of : Value -> SaveOutput.IO Env Value)
    (linkage_table : Value -> Value -> SaveOutput.IO Env Value)
    (dendrogram : Value -> Value -> SaveOutput.Path -> Value -> SaveOutput.IO Env unit)
    (save_cache : Value -> SaveOutput.Path -> SaveOutput.IO Env unit)
    (square : Value -> SaveOutput.IO Env Value)
    (heatmap : Value -> SaveOutput.Path -> SaveOutput.IO Env unit) :
  SaveOutput.trajectories workflow_data = None ->
  SaveOutput.linkage_matrix workflow_data = Some linkage ->
  (exists e,
     snd (SaveOutput.generate_output lib workflow_data output_folder detection_cutoff
            annotate_all save_pvalues adjust_populations w) = inl e)
  /\ SaveOutput.generate_output
       (SaveOutput.with_late_calls (SaveOutput.generate_muller_plot lib) length_of
          linkage_table dendrogram save_cache square heatmap lib)
       workflow_data output_folder detection_cutoff annotate_all save_pvalues
       adjust_populations w
     = SaveOutput.generate_output lib workflow_data output_folder detection_cutoff
         annotate_all save_pvalues adjust_populations w
  /\ (forall w0,
        SaveOutput.generate_output lib (SaveOutput.without_linkage workflow_data)
          output_folder detection_cutoff annotate_all save_pvalues adjust_populations w
        = (w0, inr tt) ->
        snd (SaveOutput.generate_output lib workflow_data output_folder detection_cutoff
               annotate_all save_pvalues adjust_populations w)
        = inl SaveOutput.TypeError).
Proof.
  intros Htrajectories Hlinkage. split; [|split].
  - unfold SaveOutput.generate_output. rewrite Htrajectories, Hlinkage.
    do 20 (apply io_bind_fails; intros ? ? _).
    apply io_bind_fails_left. apply io_bind_fails_left.
    exists SaveOutput.TypeError. reflexivity.
  - unfold SaveOutput.generate_output. library_calls. rewrite Htrajectories, Hlinkage.
    do 20 (apply io_bind_with; intros ? ? _).
    apply io_bind_both_fail.
    + apply io_bind_both_fail; [reflexivity|]. exists SaveOutput.TypeError. reflexivity.
    + apply io_bind_fails_left. exists SaveOutput.TypeError. reflexivity.
  - intros w0 Hreturns. unfold SaveOutput.generate_output in *.
    unfold SaveOutput.without_linkage in Hreturns.
    cbn [SaveOutput.filename SaveOutput.info SaveOutput.original_trajectories
         SaveOutput.original_genotypes SaveOutput.trajectories SaveOutput.genotypes
         SaveOutput.genotype_members SaveOutput.clusters SaveOutput.genotype_options
         SaveOutput.sort_options SaveOutput.cluster_options SaveOutput.p_values
         SaveOutput.filter_cache SaveOutput.linkage_matrix
         SaveOutput.genotype_palette_filename] in Hreturns.
    rewrite Htrajectories in Hreturns. rewrite Htrajectories, Hlinkage.
    do 20 (apply io_bind_returns in Hreturns;
           destruct Hreturns as (? & ? & Hcall & Hreturns);
           apply (io_bind_after _ _ _ _ _ _ Hcall); clear Hcall).
    reflexivity.
Qed.

(** X28: the dict of parameters that [generate_output] writes records the
    breakpoints the run used: for the genotype and sort options that
    [parse_workflow_options] builds outside compatibility mode, the entries
    of the detection, similarity, difference and significance cutoffs and of
    the frequencies are the values of the program options, and the entry of
    the fixed cutoff is a number and never null: the fixed breakpoint given,
    or [1 - detection_breakpoint]. *)
Theorem parameters_record_breakpoints {Value OrderClusterParameters}
    (from_matlab_genotype : GenotypeOptions) (from_matlab_sort : SortOptions)
    (from_matlab_clustering : OrderClusterParameters)
    (from_breakpoints : Q -> Q -> OrderClusterParameters)
    (o o' : ProgramOptions) (go : GenotypeOptions) (so : SortOptions)
    (co : OrderClusterParameters)
    (workflow_data : SaveOutput.WorkflowData Value) (genotype_colors : Value) :
  mode o = false ->
  snd (parse_workflow_options OrderClusterParameters from_matlab_genotype from_matlab_sort
         from_matlab_clustering from_breakpoints o) = inr (o', go, so, co) ->
  SaveOutput.genotype_options workflow_data = go ->
  SaveOutput.sort_options workflow_data = so ->
  let parameters := SaveOutput.get_workflow_parameters workflow_data genotype_colors in
  SaveOutput.dict_get "detectionCutoff" parameters
  = Some (SaveOutput.Number (detection_breakpoint o))
  /\ SaveOutput.dict_get "fixedCutoff" parameters
     = Some (SaveOutput.Number (fixed_or_default o))
  /\ SaveOutput.dict_get "similarityCutoff" parameters
     = Some (SaveOutput.Number (similarity_breakpoint o))
  /\ SaveOutput.dict_get "differenceCutoff" parameters
     = Some (SaveOutput.Number (difference_breakpoint o))
  /\ SaveOutput.dict_get "significanceCutoff" parameters
     = Some (SaveOutput.Number (significant_breakpoint o))
  /\ SaveOutput.dict_get "frequencyCutoffs" parameters
     = Some (SaveOutput.Numbers (frequencies o))
  /\ length parameters = 13%nat
  /\ NoDup (map fst parameters).
Proof.
  intros Hmode Hparse Hgo Hso parameters. subst parameters.
  unfold SaveOutput.get_workflow_parameters. rewrite Hgo, Hso. clear Hgo Hso.
  unfold parse_workflow_options, fixed_or_default in *.
  destruct o as [[q|] d sg sm df fr md me ig uf us sh aa sp]; cbn in Hmode, Hparse |- *;
    subst md; (destruct (decide _); [|discriminate]);
    injection Hparse as _ <- <- _; cbn;
    (repeat split; try reflexivity);
    apply (bool_decide_unpack _); vm_compute; exact I.
Qed.


(** The data of a table of genotypes, and a library whose R script gives a
    table; in the place of the late calls, calls that raise. *)
Lemma genotype_data_cannot_be_annotated_witness :
  (exists e,
     snd (SaveOutput.generate_output SaveOutput.example_library
            (SaveOutput.genotype_data None) ("", ["results"]) 0.03 false false true
            {| SaveOutput.machine_files := ∅; SaveOutput.machine_env := tt |}) = inl e)
  /\ SaveOutput.generate_output SaveOutput.raising_late_calls
       (SaveOutput.genotype_data None) ("", ["results"]) 0.03 false false true
       {| SaveOutput.machine_files := ∅; SaveOutput.machine_env := tt |}
     = SaveOutput.generate_output SaveOutput.example_library
         (SaveOutput.genotype_data None) ("", ["results"]) 0.03 false false true
         {| SaveOutput.machine_files := ∅; SaveOutput.machine_env := tt |}.
Proof.
  apply (genotype_data_cannot_be_annotated SaveOutput.example_library
           (SaveOutput.genotype_data None) ("", ["results"]) 0.03 false false true
           {| SaveOutput.machine_files := ∅; SaveOutput.machine_env := tt |}).
  - reflexivity.
  - discriminate.
  - intros. simpl. discriminate.
Defined.

(** Data with a linkage matrix and no trajectories; in the place of [len]
    and of the calls after it, calls that raise another error.  Without the
    linkage matrix the call returns, with it the error is TypeError. *)
Lemma linkage_needs_trajectories_witness :
  (exists e,
     snd (SaveOutput.generate_output SaveOutput.example_library SaveOutput.linkage_data
            ("", ["results"]) 0.03 false false true
            {| SaveOutput.machine_files := ∅; SaveOutput.machine_env := tt |}) = inl e)
  /\ SaveOutput.generate_output
       (SaveOutput.with_late_calls
          (SaveOutput.generate_muller_plot SaveOutput.example_library)
          (fun _ => SaveOutput.io_raise SaveOutput.UnboundLocalError)
          (fun _ _ => SaveOutput.io_raise SaveOutput.UnboundLocalError)
          (fun _ _ _ _ => SaveOutput.io_raise SaveOutput.UnboundLocalError)
          (fun _ _ => SaveOutput.io_raise SaveOutput.UnboundLocalError)
          (fun _ => SaveOutput.io_raise SaveOutput.UnboundLocalError)
          (fun _ _ => SaveOutput.io_raise SaveOutput.UnboundLocalError)
          SaveOutput.example_library)
       SaveOutput.linkage_data ("", ["results"]) 0.03 false false true
       {| SaveOutput.machine_files := ∅; SaveOutput.machine_env := tt |}
     = SaveOutput.generate_output SaveOutput.example_library SaveOutput.linkage_data
         ("", ["results"]) 0.03 false false true
         {| SaveOutput.machine_files := ∅; SaveOutput.machine_env := tt |}
  /\ snd (SaveOutput.generate_output SaveOutput.example_library SaveOutput.linkage_data
            ("", ["results"]) 0.03 false false true
            {| SaveOutput.machine_files := ∅; SaveOutput.machine_env := tt |})
     = inl SaveOutput.TypeError.
Proof.
  destruct (linkage_needs_trajectories SaveOutput.example_library SaveOutput.linkage_data
              ("", ["results"]) 0.03 false false true
              {| SaveOutput.machine_files := ∅; SaveOutput.machine_env := tt |} tt
              (fun _ => SaveOutput.io_raise SaveOutput.UnboundLocalError)
              (fun _ _ => SaveOutput.io_raise SaveOutput.UnboundLocalError)
              (fun _ _ _ _ => SaveOutput.io_raise SaveOutput.UnboundLocalError)
              (fun _ _ => SaveOutput.io_raise SaveOutput.UnboundLocalError)
              (fun _ => SaveOutput.io_raise SaveOutput.UnboundLocalError)
              (fun _ _ => SaveOutput.io_raise SaveOutput.UnboundLocalError)
              eq_refl eq_refl) as (Hraises & Hsame & Herror).
  split; [exact Hraises|]. split; [exact Hsame|].
  apply (Herror (fst (SaveOutput.generate_output SaveOutput.example_library
                        (SaveOutput.without_linkage SaveOutput.linkage_data)
                        ("", ["results"]) 0.03 false false true
                        {| SaveOutput.machine_files := ∅; SaveOutput.machine_env := tt |}))).
  vm_compute. reflexivity.
Defined.

(** The options of the example with the method hierarchy, and the data of a
    workflow that carries the options parsed from them. *)
Lemma parameters_record_breakpoints_witness :
  let parameters :=
    SaveOutput.get_workflow_parameters
      {| SaveOutput.filename := ("", ["run.xlsx"]);
         SaveOutput.info := None;
         SaveOutput.original_trajectories := None;
         SaveOutput.original_genotypes := Some tt;
         SaveOutput.trajectories := None;
         SaveOutput.genotypes := tt;
         SaveOutput.genotype_members := [];
         SaveOutput.clusters := tt;
         SaveOutput.genotype_options :=
           mkGenotypeOptions 0.03 (Some (1 - 0.03)%Q) 0.05 0.10 None "hierarchy";
         SaveOutput.sort_options :=
           mkSortOptions 0.03 (Some (1 - 0.03)%Q) 0.15 [1%Q; 0.9%Q; 0.8%Q];
         SaveOutput.cluster_options := SaveOutput.mkClusterOptions 0 0 0 0 0 0;
         SaveOutput.p_values := tt;
         SaveOutput.filter_cache := tt;
         SaveOutput.linkage_matrix := None;
         SaveOutput.genotype_palette_filename := None |} tt in
  SaveOutput.dict_get "detectionCutoff" parameters = Some (SaveOutput.Number 0.03%Q)
  /\ SaveOutput.dict_get "fixedCutoff" parameters = Some (SaveOutput.Number (1 - 0.03)%Q)
  /\ SaveOutput.dict_get "similarityCutoff" parameters = Some (SaveOutput.Number 0.05%Q)
  /\ SaveOutput.dict_get "differenceCutoff" parameters = Some (SaveOutput.Number 0.10%Q)
  /\ SaveOutput.dict_get "significanceCutoff" parameters = Some (SaveOutput.Number 0.15%Q)
  /\ SaveOutput.dict_get "frequencyCutoffs" parameters
     = Some (SaveOutput.Numbers [1%Q; 0.9%Q; 0.8%Q])
  /\ length parameters = 13%nat
  /\ NoDup (map fst parameters).
Proof.
  apply (parameters_record_breakpoints (mkGenotypeOptions 0 None 0 0 None "matlab")
           (mkSortOptions 0 None 0 []) tt (fun _ _ => tt) hierarchy_options
           (set_fixed_breakpoint (1 - 0.03) hierarchy_options)
           (mkGenotypeOptions 0.03 (Some (1 - 0.03)%Q) 0.05 0.10 None "hierarchy")
           (mkSortOptions 0.03 (Some (1 - 0.03)%Q) 0.15 [1%Q; 0.9%Q; 0.8%Q]) tt).
  - reflexivity.
  - reflexivity.
  - reflexivity.
  - reflexivity.
Defined.
